(** * prompt-library: the record model, the loader, the format validator
      and the test harness, embedded from [src/prompt_manager.py] and
      [src/prompt_tester.py].

    Conventions of the embedding.
    - A Python [str] is a Rocq [string]; its characters are read as the code
      points 0..255.
    - A Python computation that may raise is a value of [result]: [Ok v] when
      it returns [v], [Raise e] when the exception [e] leaves it.
    - A Python [float] is an exact rational ([Q]): every constant of the
      scoring function is dyadic, the one division is taken exactly.
    - What [yaml.safe_load] returns is a [pyval]: [None], a [bool], an
      [int], a [float], a [str], a [list], a [dict] or, for a [!!binary]
      scalar, [bytes]; a mapping keeps the order of its items, and its keys
      are strings. Timestamps, sets and pairs are left out; none of them has
      one of the methods [get], [items], [strip], [lower] or [replace]. *)

From Stdlib Require Import QArith Qminmax Lqa.
From Stdlib Require Import Ascii.
From Stdlib Require String DecimalString.
From Stdlib Require Strings.Byte.
From stdpp Require Import gmap strings list sorting.

Close Scope Q_scope.

(* ===================================================================== *)
(** ** Exceptions and the [result] monad                                  *)
(* ===================================================================== *)

Inductive exn : Type :=
| ValueError (msg : string)
| KeyError (msg : string)
| AttributeError (msg : string)
| TypeError (msg : string)
| IndexError (msg : string)
| LibraryError (msg : string)   (* raised inside a library: OSError, yaml.YAMLError, a service fault *)
| OutsideModel (msg : string).  (* not a Python exception: see [PromptManager.typed] *)

(** [str(e)]. *)
Definition str_exn (e : exn) : string :=
  match e with
  | ValueError m | KeyError m | AttributeError m | TypeError m
  | IndexError m | LibraryError m | OutsideModel m => m
  end.

Inductive result (A : Type) : Type :=
| Ok (a : A)
| Raise (e : exn).
Arguments Ok {A} a.
Arguments Raise {A} e.

#[global] Instance result_ret : MRet result := fun _ a => Ok a.
#[global] Instance result_bind : MBind result := fun _ _ f m =>
  match m with
  | Ok a => f a
  | Raise e => Raise e
  end.

Definition raises {A} (m : result A) : Prop := exists e, m = Raise e.
Definition returns {A} (m : result A) : Prop := exists a, m = Ok a.

(** [[f(x) for x in l]] where [f] may raise: the first exception leaves the
    comprehension. *)
Fixpoint mapM {A B} (f : A -> result B) (l : list A) : result (list B) :=
  match l with
  | [] => Ok []
  | x :: l' => y ← f x; ys ← mapM f l'; Ok (y :: ys)
  end.

(* ===================================================================== *)
(** ** Python string operations                                           *)
(* ===================================================================== *)

Module Str.

(** [c.isspace()] on the code points 0..255. *)
Definition is_space (c : ascii) : bool :=
  let n := nat_of_ascii c in
  (((9 <=? n) && (n <=? 13)) || ((28 <=? n) && (n <=? 32))
   || (n =? 133) || (n =? 160))%nat.

Fixpoint lstrip (s : string) : string :=
  match s with
  | EmptyString => EmptyString
  | String c s' => if is_space c then lstrip s' else s
  end.

Fixpoint rstrip (s : string) : string :=
  match s with
  | EmptyString => EmptyString
  | String c s' =>
      match rstrip s' with
      | EmptyString => if is_space c then EmptyString else String c EmptyString
      | r => String c r
      end
  end.

(** [s.strip()] *)
Definition strip (s : string) : string := rstrip (lstrip s).

(** [s.split()]: the maximal runs of non-whitespace characters; [cur] is the
    run being read. *)
Fixpoint split_go (cur : string) (s : string) : list string :=
  match s with
  | EmptyString => if decide (cur = "") then [] else [cur]
  | String c s' =>
      if is_space c
      then (if decide (cur = "") then split_go "" s' else cur :: split_go "" s')
      else split_go (cur +:+ String c "") s'
  end.
Definition split (s : string) : list string := split_go "" s.

Definition lower_char (c : ascii) : ascii :=
  let n := nat_of_ascii c in
  if (((65 <=? n) && (n <=? 90))
      || ((192 <=? n) && (n <=? 222) && negb (n =? 215)))%nat
  then ascii_of_nat (n + 32) else c.

(** [s.lower()] *)
Fixpoint lower (s : string) : string :=
  match s with
  | EmptyString => EmptyString
  | String c s' => String (lower_char c) (lower s')
  end.

(** [sub in s] *)
Fixpoint contains (sub s : string) : bool :=
  String.prefix sub s
  || match s with
     | EmptyString => false
     | String _ s' => contains sub s'
     end.

(** [s.replace(old, new)] for a non-empty [old]: the text is read from the
    left; where [old] starts, [new] is written and the next
    [length old - 1] characters are dropped ([skip] counts them). *)
Fixpoint replace_from (skip : nat) (old new s : string) : string :=
  match s with
  | EmptyString => EmptyString
  | String c s' =>
      match skip with
      | S k => replace_from k old new s'
      | O =>
          if String.prefix old s
          then new +:+ replace_from (String.length old - 1) old new s'
          else String c (replace_from 0 old new s')
      end
  end.

(** [s.replace("", new)]: [new] before every character and at the end. *)
Fixpoint intersperse (new s : string) : string :=
  match s with
  | EmptyString => new
  | String c s' => new +:+ String c (intersperse new s')
  end.

Definition replace (old new s : string) : string :=
  if decide (old = "") then intersperse new s else replace_from 0 old new s.

(** [s.split("\n")] *)
Fixpoint lines_go (cur : string) (s : string) : list string :=
  match s with
  | EmptyString => [cur]
  | String c s' =>
      if decide (c = "010"%char) then cur :: lines_go "" s'
      else lines_go (cur +:+ String c "") s'
  end.
Definition lines (s : string) : list string := lines_go "" s.

(** [str(n)] for a natural number. *)
Definition of_nat (n : nat) : string := DecimalString.NilEmpty.string_of_uint (Nat.to_uint n).

End Str.

(* ===================================================================== *)
(** ** Python values, as [yaml.safe_load] returns them                     *)
(* ===================================================================== *)

#[warnings="-register-all"]
Inductive pyval : Type :=
| PNone
| PBool (b : bool)
| PInt (n : Z)
| PFloat (q : Q)
| PStr (s : string)
| PList (l : list pyval)
| PDict (d : list (string * pyval))
| PBytes (b : list Byte.byte).   (* a [!!binary] scalar *)

Module Py.

(** [type(v).__name__] *)
Definition type_name (v : pyval) : string :=
  match v with
  | PNone => "NoneType"
  | PBool _ => "bool"
  | PInt _ => "int"
  | PFloat _ => "float"
  | PStr _ => "str"
  | PList _ => "list"
  | PDict _ => "dict"
  | PBytes _ => "bytes"
  end.

Definition no_attribute (v : pyval) (attr : string) : exn :=
  AttributeError ("'" +:+ type_name v +:+ "' object has no attribute '" +:+ attr +:+ "'").

(** [bool(v)] *)
Definition truthy (v : pyval) : bool :=
  match v with
  | PNone => false
  | PBool b => b
  | PInt n => negb (n =? 0)%Z
  | PFloat q => negb (Qeq_bool q 0)
  | PStr s => negb (bool_decide (s = ""))
  | PList l => negb (Nat.eqb (length l) 0)
  | PDict d => negb (Nat.eqb (length d) 0)
  | PBytes b => negb (Nat.eqb (length b) 0)
  end.

Fixpoint lookup (k : string) (d : list (string * pyval)) : option pyval :=
  match d with
  | [] => None
  | (k', v) :: d' => if decide (k' = k) then Some v else lookup k d'
  end.

(** [k in d] for a dict [d] *)
Definition has_key (k : string) (d : list (string * pyval)) : bool :=
  bool_decide (is_Some (lookup k d)).

(** [obj.get(k, dflt)] *)
Definition get (obj : pyval) (k : string) (dflt : pyval) : result pyval :=
  match obj with
  | PDict d => Ok (default dflt (lookup k d))
  | _ => Raise (no_attribute obj "get")
  end.

(** [obj[k]] for a string [k] *)
Definition getitem (obj : pyval) (k : string) : result pyval :=
  match obj with
  | PDict d =>
      match lookup k d with
      | Some v => Ok v
      | None => Raise (KeyError ("'" +:+ k +:+ "'"))
      end
  | PStr _ => Raise (TypeError "string indices must be integers, not 'str'")
  | PList _ => Raise (TypeError "list indices must be integers or slices, not str")
  | PBytes _ => Raise (TypeError "byte indices must be integers or slices, not str")
  | _ => Raise (TypeError ("'" +:+ type_name obj +:+ "' object is not subscriptable"))
  end.

(** The [int] that indexing or iterating a [bytes] value gives. *)
Definition int_of_byte (x : Byte.byte) : pyval := PInt (Z.of_N (Byte.to_N x)).

(** [obj[0]] *)
Definition getitem0 (obj : pyval) : result pyval :=
  match obj with
  | PList (x :: _) => Ok x
  | PList [] => Raise (IndexError "list index out of range")
  | PStr (String c _) => Ok (PStr (String c ""))
  | PStr EmptyString => Raise (IndexError "string index out of range")
  | PDict _ => Raise (KeyError "0")
  | PBytes (x :: _) => Ok (int_of_byte x)
  | PBytes [] => Raise (IndexError "index out of range")
  | _ => Raise (TypeError ("'" +:+ type_name obj +:+ "' object is not subscriptable"))
  end.

Fixpoint chars (s : string) : list pyval :=
  match s with
  | EmptyString => []
  | String c s' => PStr (String c "") :: chars s'
  end.

(** [for x in obj]: the elements in order *)
Definition iter (obj : pyval) : result (list pyval) :=
  match obj with
  | PList l => Ok l
  | PDict d => Ok (map (fun kv => PStr kv.1) d)
  | PStr s => Ok (chars s)
  | PBytes b => Ok (map int_of_byte b)
  | _ => Raise (TypeError ("'" +:+ type_name obj +:+ "' object is not iterable"))
  end.

(** [obj.items()] *)
Definition items (obj : pyval) : result (list (string * pyval)) :=
  match obj with
  | PDict d => Ok d
  | _ => Raise (no_attribute obj "items")
  end.

Definition is_str (k : string) (v : pyval) : bool :=
  match v with
  | PStr s => bool_decide (s = k)
  | _ => false
  end.

(** [k in obj] for a string [k] *)
Definition contains (k : string) (obj : pyval) : result bool :=
  match obj with
  | PDict d => Ok (has_key k d)
  | PStr s => Ok (Str.contains k s)
  | PList l => Ok (existsb (is_str k) l)
  | PBytes _ => Raise (TypeError "a bytes-like object is required, not 'str'")
  | _ => Raise (TypeError ("argument of type '" +:+ type_name obj +:+ "' is not iterable"))
  end.

(** [text.replace(old, new)] *)
Definition replace (text : pyval) (old : string) (new : pyval) : result pyval :=
  match text with
  | PStr t =>
      match new with
      | PStr n => Ok (PStr (Str.replace old n t))
      | _ => Raise (TypeError ("replace() argument 2 must be str, not " +:+ type_name new))
      end
  | PBytes _ => Raise (TypeError "a bytes-like object is required, not 'str'")
  | _ => Raise (no_attribute text "replace")
  end.

(** [bytes.strip()] removes the ASCII white space: tab, line feed, vertical
    tab, form feed, carriage return and space. *)
Definition is_space_byte (x : Byte.byte) : bool :=
  let n := Byte.to_N x in
  (((9 <=? n) && (n <=? 13)) || (n =? 32))%N.

Fixpoint lstrip_bytes (b : list Byte.byte) : list Byte.byte :=
  match b with
  | [] => []
  | x :: b' => if is_space_byte x then lstrip_bytes b' else b
  end.

Fixpoint rstrip_bytes (b : list Byte.byte) : list Byte.byte :=
  match b with
  | [] => []
  | x :: b' =>
      match rstrip_bytes b' with
      | [] => if is_space_byte x then [] else [x]
      | r => x :: r
      end
  end.

(** [bytes.lower()] maps the ASCII letters A..Z only. *)
Definition lower_byte (x : Byte.byte) : Byte.byte :=
  let n := Byte.to_N x in
  if ((65 <=? n) && (n <=? 90))%N then default x (Byte.of_N (n + 32)) else x.

(** [obj.strip()]: a [str] gives a [str], a [bytes] value gives [bytes]. *)
Definition strip (obj : pyval) : result pyval :=
  match obj with
  | PStr s => Ok (PStr (Str.strip s))
  | PBytes b => Ok (PBytes (rstrip_bytes (lstrip_bytes b)))
  | _ => Raise (no_attribute obj "strip")
  end.

(** [obj.lower()] *)
Definition lower (obj : pyval) : result pyval :=
  match obj with
  | PStr s => Ok (PStr (Str.lower s))
  | PBytes b => Ok (PBytes (map lower_byte b))
  | _ => Raise (no_attribute obj "lower")
  end.

(** [left in s] for a [str] [s] *)
Definition in_str (left : pyval) (s : string) : result bool :=
  match left with
  | PStr k => Ok (Str.contains k s)
  | _ => Raise (TypeError ("'in <string>' requires string as left operand, not "
                           +:+ type_name left))
  end.

End Py.

(** A [pathlib.Path]: its string form and its [stem]. *)
Record Path := { path_str : string; stem : string }.

(** A file on disk, as [yaml.safe_load(path.read_text())] sees it: the parsed
    value, or the exception of the read or of the parser. *)
Definition file : Type := result pyval.

(* ===================================================================== *)
(** ** prompt_manager.py: the dataclasses                                 *)
(* ===================================================================== *)

Module PromptParameter.
Record t := {
  name : string;
  type : string;
  required : bool;
  description : string;
  default : option string
}.
End PromptParameter.

Module PromptExample.
Record t := {
  input : list (string * string);
  expected_output_contains : list string;
  expected_output : option string
}.
End PromptExample.

Module PromptMetadata.
Record t := {
  recommended_model : string;
  expected_tokens : Z;
  temperature : Q;
  tags : list string;
  max_tokens : option Z
}.
End PromptMetadata.

Module Prompt.
Record t := {
  name : string;
  version : string;
  category : string;
  description : string;
  template : string;
  parameters : list PromptParameter.t;
  metadata : PromptMetadata.t;
  examples : list PromptExample.t;
  file_path : option string
}.

(** [f"{{{key}}}"]: the placeholder token of a parameter name. *)
Definition placeholder (key : string) : string := "{" +:+ key +:+ "}".

Section Render.
(** The values passed as keyword arguments, and [str] on them. *)
Context {V : Type} (str : V -> string).

(** The loop of [render] over the declared parameters, [text] being the
    working text. *)
Fixpoint render_loop (params : list PromptParameter.t)
    (kwargs : gmap string V) (text : string) : result string :=
  match params with
  | [] => Ok text
  | param :: rest =>
      let key := PromptParameter.name param in
      match kwargs !! key with
      | Some v =>
          render_loop rest kwargs (Str.replace (placeholder key) (str v) text)
      | None =>
          if PromptParameter.required param
             && bool_decide (PromptParameter.default param = None)
          then Raise (ValueError ("Missing required parameter: " +:+ key))
          else
            match PromptParameter.default param with
            | Some d =>
                render_loop rest kwargs (Str.replace (placeholder key) d text)
            | None => render_loop rest kwargs text
            end
      end
  end.

Definition render (self : t) (kwargs : gmap string V) : result string :=
  render_loop (parameters self) kwargs (template self).
End Render.
End Prompt.

(* ===================================================================== *)
(** ** prompt_manager.py: the loader of PromptManager                     *)
(* ===================================================================== *)

Module PromptManager.

(** The dataclasses do not check the types of their fields. The model keeps
    the annotated types: where the loader would store a value of another
    type, [typed] stops with [OutsideModel], which is no Python exception
    and is not caught by [except Exception]. *)
Definition typed {A} (what : string) (decode : pyval -> option A)
    (v : pyval) : result A :=
  match decode v with
  | Some a => Ok a
  | None => Raise (OutsideModel what)
  end.

Definition as_str (v : pyval) : option string :=
  match v with PStr s => Some s | _ => None end.
Definition as_bool (v : pyval) : option bool :=
  match v with PBool b => Some b | _ => None end.
Definition as_int (v : pyval) : option Z :=
  match v with PInt n => Some n | _ => None end.
Definition as_float (v : pyval) : option Q :=
  match v with PFloat q => Some q | PInt n => Some (inject_Z n) | _ => None end.
Definition as_opt {A} (decode : pyval -> option A) (v : pyval) : option (option A) :=
  match v with PNone => Some None | _ => Some <$> decode v end.
Fixpoint as_all {A} (decode : pyval -> option A) (l : list pyval) : option (list A) :=
  match l with
  | [] => Some []
  | v :: l' => a ← decode v; r ← as_all decode l'; Some (a :: r)
  end.
Definition as_str_list (v : pyval) : option (list string) :=
  match v with PList l => as_all as_str l | _ => None end.
Fixpoint as_str_items (d : list (string * pyval)) : option (list (string * string)) :=
  match d with
  | [] => Some []
  | (k, v) :: d' => s ← as_str v; r ← as_str_items d'; Some ((k, s) :: r)
  end.
Definition as_str_dict (v : pyval) : option (list (string * string)) :=
  match v with PDict d => as_str_items d | _ => None end.

(** One element of the comprehension that builds [parameters]. *)
Definition load_parameter (p : pyval) : result PromptParameter.t :=
  name ← Py.getitem p "name" ≫= typed "PromptParameter.name" as_str;
  type ← Py.get p "type" (PStr "string") ≫= typed "PromptParameter.type" as_str;
  required ← Py.get p "required" (PBool true) ≫= typed "PromptParameter.required" as_bool;
  description ← Py.get p "description" (PStr "") ≫= typed "PromptParameter.description" as_str;
  default ← Py.get p "default" PNone ≫= typed "PromptParameter.default" (as_opt as_str);
  Ok {| PromptParameter.name := name;
        PromptParameter.type := type;
        PromptParameter.required := required;
        PromptParameter.description := description;
        PromptParameter.default := default |}.

(** One element of the comprehension that builds [examples]. *)
Definition load_example (ex : pyval) : result PromptExample.t :=
  input ← Py.get ex "input" (PDict []) ≫= typed "PromptExample.input" as_str_dict;
  expected_output_contains ←
    Py.get ex "expected_output_contains" (PList [])
      ≫= typed "PromptExample.expected_output_contains" as_str_list;
  expected_output ←
    Py.get ex "expected_output" PNone
      ≫= typed "PromptExample.expected_output" (as_opt as_str);
  Ok {| PromptExample.input := input;
        PromptExample.expected_output_contains := expected_output_contains;
        PromptExample.expected_output := expected_output |}.

Definition _load_prompt (path : Path) (data : pyval) : result Prompt.t :=
  parameters ← (Py.get data "parameters" (PList []) ≫= Py.iter) ≫= mapM load_parameter;
  meta_data ← Py.get data "metadata" (PDict []);
  recommended_model ←
    Py.get meta_data "recommended_model" (PStr "gemini-2.5-flash-lite")
      ≫= typed "PromptMetadata.recommended_model" as_str;
  expected_tokens ←
    Py.get meta_data "expected_tokens" (PInt 500)
      ≫= typed "PromptMetadata.expected_tokens" as_int;
  temperature ←
    Py.get meta_data "temperature" (PFloat (7 # 10))
      ≫= typed "PromptMetadata.temperature" as_float;
  tags ← Py.get meta_data "tags" (PList []) ≫= typed "PromptMetadata.tags" as_str_list;
  max_tokens ←
    Py.get meta_data "max_tokens" PNone
      ≫= typed "PromptMetadata.max_tokens" (as_opt as_int);
  let metadata :=
    {| PromptMetadata.recommended_model := recommended_model;
       PromptMetadata.expected_tokens := expected_tokens;
       PromptMetadata.temperature := temperature;
       PromptMetadata.tags := tags;
       PromptMetadata.max_tokens := max_tokens |} in
  examples ← (Py.get data "examples" (PList []) ≫= Py.iter) ≫= mapM load_example;
  name ← Py.getitem data "name" ≫= typed "Prompt.name" as_str;
  version ← Py.get data "version" (PStr "1.0") ≫= typed "Prompt.version" as_str;
  category ← Py.get data "category" (PStr "uncategorized") ≫= typed "Prompt.category" as_str;
  description ← Py.get data "description" (PStr "") ≫= typed "Prompt.description" as_str;
  template ← Py.get data "template" (PStr "") ≫= typed "Prompt.template" as_str;
  Ok {| Prompt.name := name;
        Prompt.version := version;
        Prompt.category := category;
        Prompt.description := description;
        Prompt.template := template;
        Prompt.parameters := parameters;
        Prompt.metadata := metadata;
        Prompt.examples := examples;
        Prompt.file_path := Some (path_str path) |}.

(** The loop of [_load_all] over the files that [rglob] yields, in its
    order. [None]: a file left the model. *)
Fixpoint load_files (files : list (Path * file))
    (cache : gmap string Prompt.t) : option (gmap string Prompt.t) :=
  match files with
  | [] => Some cache
  | (path, f) :: rest =>
      match f ≫= _load_prompt path with
      | Ok prompt => load_files rest (<[Prompt.name prompt := prompt]> cache)
      | Raise (OutsideModel _) => None
      | Raise _ => load_files rest cache
      end
  end.

(** [prompts_dir]: [None] when the directory does not exist, else its
    [*.yaml] files. The result is [self._cache] after [__init__]. *)
Definition _load_all (prompts_dir : option (list (Path * file)))
    : option (gmap string Prompt.t) :=
  match prompts_dir with
  | None => Some ∅
  | Some files => load_files files ∅
  end.

End PromptManager.

(* ===================================================================== *)
(** ** prompt_tester.py: results, the external service, the tester        *)
(* ===================================================================== *)

Module TestResult.
Record t := {
  prompt_name : pyval;
  test_input : pyval;
  output : string;
  quality_score : Q;
  latency_ms : Q;
  token_count : nat;
  passed : bool;
  expected_contains : pyval;
  missing_keywords : list pyval;
  error : option string
}.
End TestResult.

Module BatchTestResult.
Record t := {
  total : nat;
  passed : nat;
  failed : nat;
  results : list TestResult.t;
  avg_quality : Q;
  avg_latency_ms : Q
}.
End BatchTestResult.

(** The external generation service ([google.genai]), a black box: building
    a client and generating may each raise. A response carries its text and
    the time, in seconds, between the two readings of [time.time()] around
    the call. *)
Module genai.
Record Client := { client_api_key : string }.
Record Request := {
  model : pyval;
  contents : pyval;
  temperature : pyval;
  max_output_tokens : pyval
}.
Record Response := { text : option string; elapsed : Q }.
Record Service := {
  new_client : string -> result Client;
  generate_content : Client -> Request -> result Response
}.
End genai.

Module PromptTester.

Record t := {
  api_key : option string;
  _client : option genai.Client
}.

(** [bool(s)] for [s : str | None] *)
Definition nonempty (s : option string) : bool :=
  match s with
  | Some s => negb (bool_decide (s = ""))
  | None => false
  end.

(** [environ]: [os.environ.get("GEMINI_API_KEY")] *)
Definition __init__ (api_key : option string) (environ : option string) : t :=
  {| api_key := if nonempty api_key then api_key else environ;
     _client := None |}.

Definition key_not_set : string :=
  "GEMINI_API_KEY not set. Pass api_key or set GEMINI_API_KEY env var.".

(** The tester afterwards is the second component: [self._client] is set
    once a client has been built. *)
Definition _get_client (svc : genai.Service) (self : t)
    : result genai.Client * t :=
  match _client self with
  | Some client => (Ok client, self)
  | None =>
      match api_key self with
      | Some key =>
          if bool_decide (key = "")
          then (Raise (ValueError key_not_set), self)
          else
            match genai.new_client svc key with
            | Ok client =>
                (Ok client, {| api_key := api_key self; _client := Some client |})
            | Raise e => (Raise e, self)
            end
      | None => (Raise (ValueError key_not_set), self)
      end
  end.

(** [_score_quality(output, expected, missing)]; of the two lists only the
    lengths are read. *)
Definition markers : list string := ["- "; "* "; "1."; "## "].

Definition has_marker (output : string) : bool :=
  existsb (fun marker => Str.contains marker output) markers.

Definition match_rate {A B} (expected : list A) (missing : list B) : Q :=
  (inject_Z (Z.of_nat (length expected) - Z.of_nat (length missing))
     / inject_Z (Z.of_nat (length expected)))%Q.

Definition _score_quality {A B} (output : string) (expected : list A)
    (missing : list B) : Q :=
  if decide (Str.strip output = "") then 0%Q
  else
    let score := 5%Q in
    let word_count := length (Str.split output) in
    let score := if (50 <=? word_count)%nat then (score + 1)%Q else score in
    let score := if (200 <=? word_count)%nat then (score + (1 # 2))%Q else score in
    let score :=
      match expected with
      | [] => score
      | _ :: _ => (score + match_rate expected missing * 3)%Q
      end in
    let score := if has_marker output then (score + (1 # 2))%Q else score in
    Qmin score 10%Q.

(** What [test_prompt] has computed when it enters its [try] block. *)
Record Prepared := {
  prompt_name : pyval;
  metadata : pyval;
  model_name : pyval;
  temperature : pyval;
  input_data : pyval;
  expected_contains : pyval;
  rendered : pyval
}.

(** [bool(test_input)] for [test_input : dict[str, str] | None] *)
Definition supplied (test_input : option (list (string * string))) : bool :=
  match test_input with
  | Some (_ :: _) => true
  | _ => false
  end.

Definition dict_of (d : list (string * string)) : pyval :=
  PDict (map (fun kv => (kv.1, PStr kv.2)) d).

(** The loop [for key, value in input_data.items(): rendered = ...] *)
Fixpoint substitute (items : list (string * pyval)) (rendered : pyval)
    : result pyval :=
  match items with
  | [] => Ok rendered
  | (key, value) :: rest =>
      Py.replace rendered (Prompt.placeholder key) value ≫= substitute rest
  end.

(** [if test_input: ... elif examples: ... else: ...] *)
Definition resolve_input (test_input : option (list (string * string)))
    (examples : pyval) : result pyval :=
  if supplied test_input then Ok (dict_of (default [] test_input))
  else if Py.truthy examples
       then Py.getitem0 examples ≫= fun ex => Py.get ex "input" (PDict [])
       else Ok (PDict []).

(** [expected_contains = []] and the [if examples and not test_input] *)
Definition resolve_expected (test_input : option (list (string * string)))
    (examples : pyval) : result pyval :=
  if Py.truthy examples && negb (supplied test_input)
  then Py.getitem0 examples
         ≫= fun ex => Py.get ex "expected_output_contains" (PList [])
  else Ok (PList []).

(** [test_prompt], from its first line to the [try]. *)
Definition prepare (path : Path) (data : pyval)
    (test_input : option (list (string * string))) (model : option string)
    : result Prepared :=
  prompt_name ← Py.get data "name" (PStr (stem path));
  template ← Py.get data "template" (PStr "");
  metadata ← Py.get data "metadata" (PDict []);
  examples ← Py.get data "examples" (PList []);
  model_name ←
    (if nonempty model then Ok (PStr (default "" model))
     else Py.get metadata "recommended_model" (PStr "gemini-2.5-flash-lite"));
  temperature ← Py.get metadata "temperature" (PFloat (7 # 10));
  input_data ← resolve_input test_input examples;
  expected_contains ← resolve_expected test_input examples;
  rendered ← Py.items input_data ≫= fun items => substitute items template;
  Ok {| prompt_name := prompt_name;
        metadata := metadata;
        model_name := model_name;
        temperature := temperature;
        input_data := input_data;
        expected_contains := expected_contains;
        rendered := rendered |}.

(** The comprehension
    [[kw for kw in expected_contains if kw.lower() not in output.lower()]] *)
Fixpoint missing_of (kws : list pyval) (output : string) : result (list pyval) :=
  match kws with
  | [] => Ok []
  | kw :: rest =>
      Py.lower kw ≫= fun k : pyval =>
      Py.in_str k (Str.lower output) ≫= fun found : bool =>
      missing_of rest output ≫= fun ms : list pyval =>
      Ok (if found then ms else kw :: ms)
  end.

(** The [try] block after the call has returned [response]. *)
Definition on_response (prep : Prepared) (response : genai.Response)
    : result TestResult.t :=
  let latency_ms := (genai.elapsed response * 1000)%Q in
  let output := default "" (genai.text response) in
  let token_count := length (Str.split output) in
  kws ← Py.iter (expected_contains prep);
  missing ← missing_of kws output;
  let quality := _score_quality output kws missing in
  let passed :=
    (length missing =? 0)%nat && (0 <? String.length (Str.strip output))%nat in
  Ok {| TestResult.prompt_name := prompt_name prep;
        TestResult.test_input := input_data prep;
        TestResult.output := output;
        TestResult.quality_score := quality;
        TestResult.latency_ms := latency_ms;
        TestResult.token_count := token_count;
        TestResult.passed := passed;
        TestResult.expected_contains := expected_contains prep;
        TestResult.missing_keywords := missing;
        TestResult.error := None |}.

(** The [try] block: the result or the exception that leaves it, the tester
    afterwards, and the requests sent to the service. *)
Definition try_block (svc : genai.Service) (self : t) (prep : Prepared)
    : result TestResult.t * t * list genai.Request :=
  match _get_client svc self with
  | (Raise e, self') => (Raise e, self', [])
  | (Ok client, self') =>
      match Py.get (metadata prep) "max_tokens" (PInt 1024) with
      | Raise e => (Raise e, self', [])
      | Ok max_tokens =>
          let request :=
            {| genai.model := model_name prep;
               genai.contents := rendered prep;
               genai.temperature := temperature prep;
               genai.max_output_tokens := max_tokens |} in
          (genai.generate_content svc client request ≫= on_response prep,
           self', [request])
      end
  end.

(** The [except Exception as e] handler. *)
Definition on_exception (prep : Prepared) (e : exn) : TestResult.t :=
  {| TestResult.prompt_name := prompt_name prep;
     TestResult.test_input := input_data prep;
     TestResult.output := "";
     TestResult.quality_score := 0%Q;
     TestResult.latency_ms := 0%Q;
     TestResult.token_count := 0;
     TestResult.passed := false;
     TestResult.expected_contains := PList [];
     TestResult.missing_keywords := [];
     TestResult.error := Some (str_exn e) |}.

Definition test_prompt (svc : genai.Service) (self : t) (prompt_path : Path)
    (f : file) (test_input : option (list (string * string)))
    (model : option string)
    : result TestResult.t * t * list genai.Request :=
  match f ≫= fun data => prepare prompt_path data test_input model with
  | Raise e => (Raise e, self, [])
  | Ok prep =>
      match try_block svc self prep with
      | (Ok r, self', calls) => (Ok r, self', calls)
      | (Raise e, self', calls) => (Ok (on_exception prep e), self', calls)
      end
  end.

(** The loop of [test_batch] over the sorted files. *)
Fixpoint run_batch (svc : genai.Service) (self : t)
    (files : list (Path * file)) (model : option string)
    : result (list TestResult.t) * t * list genai.Request :=
  match files with
  | [] => (Ok [], self, [])
  | (yaml_file, f) :: rest =>
      match test_prompt svc self yaml_file f None model with
      | (Raise e, self', calls) => (Raise e, self', calls)
      | (Ok r, self', calls) =>
          match run_batch svc self' rest model with
          | (Ok rs, self'', calls') => (Ok (r :: rs), self'', calls ++ calls')
          | (Raise e, self'', calls') => (Raise e, self'', calls ++ calls')
          end
      end
  end.

Definition Qsum (l : list Q) : Q := foldr Qplus 0%Q l.

Definition aggregate (results : list TestResult.t) : BatchTestResult.t :=
  let passed := length (filter (fun r => TestResult.passed r = true) results) in
  let n := inject_Z (Z.of_nat (length results)) in
  {| BatchTestResult.total := length results;
     BatchTestResult.passed := passed;
     BatchTestResult.failed := length results - passed;
     BatchTestResult.results := results;
     BatchTestResult.avg_quality :=
       match results with
       | [] => 0%Q
       | _ => (Qsum (map TestResult.quality_score results) / n)%Q
       end;
     BatchTestResult.avg_latency_ms :=
       match results with
       | [] => 0%Q
       | _ => (Qsum (map TestResult.latency_ms results) / n)%Q
       end |}.

Definition test_batch (svc : genai.Service) (self : t)
    (prompts_dir : list (Path * file)) (model : option string)
    : result BatchTestResult.t * t * list genai.Request :=
  match run_batch svc self prompts_dir model with
  | (Ok results, self', calls) => (Ok (aggregate results), self', calls)
  | (Raise e, self', calls) => (Raise e, self', calls)
  end.

(** The loop over [enumerate(data["parameters"])] *)
Fixpoint check_parameters (i : nat) (ps : list pyval) (issues : list string)
    : result (list string) :=
  match ps with
  | [] => Ok issues
  | p :: rest =>
      Py.contains "name" p ≫= fun has : bool =>
      check_parameters (S i) rest
        (if has then issues
         else issues ++ ["Parameter " +:+ Str.of_nat i +:+ " missing 'name'"])
  end.

Definition required_fields : list string := ["name"; "template"; "category"].

Definition validate_prompt_format (f : file) : result (list string) :=
  match f with
  | Raise e => Ok ["Invalid YAML: " +:+ str_exn e]
  | Ok data =>
      match data with
      | PDict d =>
          let issues :=
            flat_map (fun f => if Py.has_key f d then []
                               else ["Missing required field: " +:+ f])
                     required_fields in
          issues ←
            (if Py.has_key "template" d
             then (Py.getitem data "template" ≫= Py.strip) ≫= fun s : pyval =>
                  Ok (if Py.truthy s then issues
                      else issues ++ ["Template is empty"])
             else Ok issues);
          if Py.has_key "parameters" d
          then (Py.getitem data "parameters" ≫= Py.iter)
                 ≫= fun ps => check_parameters 0 ps issues
          else Ok issues
      | _ => Ok ["Root element must be a mapping"]
      end
  end.

End PromptTester.

(* ===================================================================== *)
(** ** The notions of the specification                                   *)
(* ===================================================================== *)

Module Spec.

(** A name that holds neither brace. *)
Fixpoint no_char (c : ascii) (s : string) : bool :=
  match s with
  | EmptyString => true
  | String d s' => negb (bool_decide (d = c)) && no_char c s'
  end.

Definition brace_free (s : string) : bool :=
  no_char "{"%char s && no_char "}"%char s.

(** Render, in the words of the specification: a declared parameter is
    missing when it is not supplied, is required and has no default; a
    parameter that is not missing contributes its supplied value in string
    form, else its default, else nothing. *)
Section Render.
Context {V : Type} (str : V -> string) (kwargs : gmap string V).

Definition is_missing (param : PromptParameter.t) : bool :=
  bool_decide (kwargs !! PromptParameter.name param = None)
  && PromptParameter.required param
  && bool_decide (PromptParameter.default param = None).

Definition replacement (param : PromptParameter.t) : option string :=
  match kwargs !! PromptParameter.name param with
  | Some v => Some (str v)
  | None => PromptParameter.default param
  end.

Definition substitute_one (text : string) (param : PromptParameter.t) : string :=
  match replacement param with
  | Some new => Str.replace (Prompt.placeholder (PromptParameter.name param)) new text
  | None => text
  end.
End Render.

Definition declared (self : Prompt.t) (key : string) : Prop :=
  key ∈ map PromptParameter.name (Prompt.parameters self).

(** "Placeholders not naming any declared parameter remain verbatim in the
    output", for one record and one mapping. *)
Definition undeclared_placeholders_remain {V} (str : V -> string)
    (self : Prompt.t) (kwargs : gmap string V) : Prop :=
  forall key out,
    ¬ declared self key ->
    Str.contains (Prompt.placeholder key) (Prompt.template self) = true ->
    Prompt.render str self kwargs = Ok out ->
    Str.contains (Prompt.placeholder key) out = true.

(** A string without a character that is not white space. *)
Fixpoint whitespace_only (s : string) : bool :=
  match s with
  | EmptyString => true
  | String c s' => Str.is_space c && whitespace_only s'
  end.

(** "A line starting with" one of the structural markers. *)
Definition line_starts_with_marker (output : string) : bool :=
  existsb (fun line => existsb (fun marker => String.prefix marker line)
                               PromptTester.markers)
          (Str.lines output).

(** The quality score in the words of the specification: the base score
    of an output with content, the length bonus and the keyword part ... *)
Definition score_before_structure {A B} (output : string)
    (expected : list A) (missing : list B) : Q :=
  let word_count := length (Str.split output) in
  (5 + (if (50 <=? word_count)%nat then 1 else 0)
     + (if (200 <=? word_count)%nat then 1 # 2 else 0)
     + (match expected with
        | [] => 0
        | _ :: _ => PromptTester.match_rate expected missing * 3
        end))%Q.

(** ... and the structure bonus, before the clamp. *)
Definition raw_score {A B} (output : string)
    (expected : list A) (missing : list B) : Q :=
  (score_before_structure output expected missing
   + (if PromptTester.has_marker output then 1 # 2 else 0))%Q.

(** "The quality score includes the +0.5 structure bonus exactly when the
    output has a line starting with" a marker. *)
Definition structure_bonus_at_line_start {A B} (output : string)
    (expected : list A) (missing : list B) : Prop :=
  (PromptTester._score_quality output expected missing
   == score_before_structure output expected missing + (1 # 2))%Q
  <-> line_starts_with_marker output = true.

(** "Every Record that the load places into the cache" has a template with
    content, a non-empty recommended model and a positive token budget. *)
Definition loaded_records_well_formed
    (prompts_dir : option (list (Path * file))) : Prop :=
  forall cache name p,
    PromptManager._load_all prompts_dir = Some cache ->
    cache !! name = Some p ->
    Str.strip (Prompt.template p) ≠ ""
    /\ PromptMetadata.recommended_model (Prompt.metadata p) ≠ ""
    /\ (0 < PromptMetadata.expected_tokens (Prompt.metadata p))%Z.

(** What a record that [_load_prompt] returns has taken from its file. *)
Definition built_from (d : list (string * pyval)) (p : Prompt.t) : Prop :=
  Py.lookup "name" d = Some (PStr (Prompt.name p))
  /\ default (PStr "") (Py.lookup "template" d) = PStr (Prompt.template p)
  /\ exists md,
       default (PDict []) (Py.lookup "metadata" d) = PDict md
       /\ default (PStr "gemini-2.5-flash-lite") (Py.lookup "recommended_model" md)
          = PStr (PromptMetadata.recommended_model (Prompt.metadata p))
       /\ default (PInt 500) (Py.lookup "expected_tokens" md)
          = PInt (PromptMetadata.expected_tokens (Prompt.metadata p)).

(** *** The format validator *)

Definition is_dict (v : pyval) : bool :=
  match v with PDict _ => true | _ => false end.

(** The field types that the validator relies on: a [template], when
    present, is a string; [parameters], when present, is a list of
    mappings. *)
Definition template_is_text (d : list (string * pyval)) : bool :=
  match Py.lookup "template" d with
  | Some (PStr _) | None => true
  | Some _ => false
  end.

Definition parameters_are_mappings (d : list (string * pyval)) : bool :=
  match Py.lookup "parameters" d with
  | None => true
  | Some (PList ps) => forallb is_dict ps
  | Some _ => false
  end.

Definition missing_fields (d : list (string * pyval)) : list string :=
  filter (fun f => Py.has_key f d = false) PromptTester.required_fields.

(** The template field is present and has no non-whitespace content. *)
Definition template_blank (d : list (string * pyval)) : bool :=
  match Py.lookup "template" d with
  | Some (PStr s) => bool_decide (Str.strip s = "")
  | _ => false
  end.

(** An entry of the parameters list that includes no [name] field. *)
Definition lacks_name (p : pyval) : bool :=
  match p with
  | PDict pd => negb (Py.has_key "name" pd)
  | _ => true
  end.

Definition parameter_entries (d : list (string * pyval)) : list pyval :=
  match Py.lookup "parameters" d with
  | Some (PList ps) => ps
  | _ => []
  end.

(** The positions, counted from [i], of the entries without a name. *)
Fixpoint offending_positions (i : nat) (ps : list pyval) : list nat :=
  match ps with
  | [] => []
  | p :: rest =>
      (if lacks_name p then [i] else []) ++ offending_positions (S i) rest
  end.

Definition parameter_issue (i : nat) : string :=
  "Parameter " +:+ Str.of_nat i +:+ " missing 'name'".

(** The issues in check order: one per missing required field, one for a
    blank template, one per offending parameter entry. *)
Definition expected_issues (d : list (string * pyval)) : list string :=
  map (fun f => "Missing required field: " +:+ f) (missing_fields d)
  ++ (if template_blank d then ["Template is empty"] else [])
  ++ map parameter_issue (offending_positions 0 (parameter_entries d)).

(** A top-level mapping that holds name, template and category, whose
    template has content and whose parameter entries all include a name. *)
Definition valid_record (d : list (string * pyval)) : Prop :=
  Py.has_key "name" d = true
  /\ Py.has_key "template" d = true
  /\ Py.has_key "category" d = true
  /\ template_blank d = false
  /\ (forall p, p ∈ parameter_entries d -> lacks_name p = false).

(** "validate_format returns an ordered issue list that is empty exactly
    when" the input is a valid record. *)
Definition validator_decides (f : file) : Prop :=
  exists issues,
    PromptTester.validate_prompt_format f = Ok issues
    /\ (issues = [] <-> exists d, f = Ok (PDict d) /\ valid_record d).

(** "validate_format returns a list (rather than raising) only when the
    template field, if present in the top-level mapping, is a string." *)
Definition list_only_for_text_template : Prop :=
  forall d issues,
    PromptTester.validate_prompt_format (Ok (PDict d)) = Ok issues ->
    forall v, Py.lookup "template" d = Some v -> exists s, v = PStr s.

(** The parsed values that have a [strip] method: text and binary data. *)
Definition has_strip (v : pyval) : bool :=
  match v with
  | PStr _ | PBytes _ => true
  | _ => false
  end.

(** *** The test harness *)

(** "Every error is captured in-band; test_prompt never raises to its
    caller, and a batch run over any directory completes with one result
    per record file." *)
Definition errors_captured_in_band (svc : genai.Service)
    (self : PromptTester.t) (prompts_dir : list (Path * file))
    (model : option string) : Prop :=
  (forall path f test_input,
     (path, f) ∈ prompts_dir ->
     returns (PromptTester.test_prompt svc self path f test_input model).1.1)
  /\ exists batch self' calls,
       PromptTester.test_batch svc self prompts_dir model = (Ok batch, self', calls)
       /\ length (BatchTestResult.results batch) = length prompts_dir.

(** "If an explicit test input is supplied, test_prompt uses it as the
    input set and inherits no expected keywords from examples." *)
Definition explicit_input_used (svc : genai.Service) (self : PromptTester.t)
    (path : Path) (f : file) (test_input : list (string * string))
    (model : option string) : Prop :=
  forall r self' calls,
    PromptTester.test_prompt svc self path f (Some test_input) model
      = (Ok r, self', calls) ->
    TestResult.test_input r = PromptTester.dict_of test_input
    /\ TestResult.expected_contains r = PList [].

(** "Without a configured credential, asking to perform a test-call raises
    a ConfigurationError to the caller of the test operation." *)
Definition missing_credential_raises (svc : genai.Service) (path : Path)
    (f : file) (test_input : option (list (string * string)))
    (model : option string) : Prop :=
  raises (PromptTester.test_prompt svc (PromptTester.__init__ None None)
            path f test_input model).1.1.

(** A record file that [test_prompt] can prepare: its metadata, when
    present, is a mapping, and the first example, when it is used, is a
    mapping whose input, when present, maps names to strings. *)
Definition metadata_is_mapping (d : list (string * pyval)) : bool :=
  match Py.lookup "metadata" d with
  | None | Some (PDict _) => true
  | Some _ => false
  end.

Definition is_text (v : pyval) : bool :=
  match v with PStr _ => true | _ => false end.

(** An expected keyword whose lower-case form does not occur in the
    lower-case output. *)
Definition keyword_missing (output : string) (kw : pyval) : bool :=
  match kw with
  | PStr k => negb (Str.contains (Str.lower k) (Str.lower output))
  | _ => false
  end.

Definition usable_example (ex : pyval) : bool :=
  match ex with
  | PDict exd =>
      match Py.lookup "input" exd with
      | None => true
      | Some (PDict items) => forallb (fun kv => is_text kv.2) items
      | Some _ => false
      end
  | _ => false
  end.

End Spec.

(* ===================================================================== *)
(** ** Concrete records, files and services used in the examples          *)
(* ===================================================================== *)

Module Ex.

Definition parameter (name : string) (required : bool) (default : option string)
    : PromptParameter.t :=
  {| PromptParameter.name := name;
     PromptParameter.type := "string";
     PromptParameter.required := required;
     PromptParameter.description := "";
     PromptParameter.default := default |}.

Definition default_metadata : PromptMetadata.t :=
  {| PromptMetadata.recommended_model := "gemini-2.5-flash-lite";
     PromptMetadata.expected_tokens := 500;
     PromptMetadata.temperature := (7 # 10)%Q;
     PromptMetadata.tags := [];
     PromptMetadata.max_tokens := None |}.

Definition record (name category template : string)
    (parameters : list PromptParameter.t) : Prompt.t :=
  {| Prompt.name := name;
     Prompt.version := "1.0";
     Prompt.category := category;
     Prompt.description := "";
     Prompt.template := template;
     Prompt.parameters := parameters;
     Prompt.metadata := default_metadata;
     Prompt.examples := [];
     Prompt.file_path := None |}.

(** The record of the specification's end-to-end example. *)
Definition executive_summary : Prompt.t :=
  record "executive_summary" "summarization" "Summarize: {document}"
         [parameter "document" true None].

(** A record with an optional parameter, a defaulted one and a placeholder
    that no parameter declares. *)
Definition briefing : Prompt.t :=
  record "briefing" "summarization" "{tone} brief of {document} for {reader}{note}"
         [parameter "document" true None;
          parameter "tone" false (Some "Neutral");
          parameter "note" false None].

(** A record whose one parameter has braces in its name. *)
Definition braces : Prompt.t :=
  record "braces" "misc" "{a}{b}" [parameter "a}{b" false (Some "X")].

Definition path (name : string) : Path :=
  {| path_str := "prompts/" +:+ name +:+ ".yaml"; stem := name |}.

(** A file that holds nothing but [name: bare]. *)
Definition bare_file : pyval := PDict [("name", PStr "bare")].

(** A file with an empty model name and a token budget of 0. *)
Definition zero_budget_file : pyval :=
  PDict [("name", PStr "zero");
         ("template", PStr "Say {w}");
         ("metadata", PDict [("recommended_model", PStr "");
                             ("expected_tokens", PInt 0)])].

(** A file as the repository ships them, cut short. *)
Definition greeting_file : pyval :=
  PDict [("name", PStr "greeting");
         ("category", PStr "content_creation");
         ("template", PStr "Say {w}");
         ("parameters", PList [PDict [("name", PStr "w")]]);
         ("examples",
          PList [PDict [("input", PDict [("w", PStr "hello")]);
                        ("expected_output_contains",
                         PList [PStr "hello"; PStr "bye"])]])].

(** A file whose parameters are listed as bare strings. *)
Definition bare_parameters_file : pyval :=
  PDict [("name", PStr "report");
         ("category", PStr "analysis");
         ("template", PStr "Report on {document_name}");
         ("parameters", PList [PStr "document_name"])].

(** A file whose template is a number. *)
Definition numeric_template_file : pyval :=
  PDict [("name", PStr "answer");
         ("category", PStr "analysis");
         ("template", PInt 42)].

(** A file whose template is the binary scalar [!!binary SGk=], the two
    bytes of "Hi". *)
Definition binary_template_file : pyval :=
  PDict [("name", PStr "blob");
         ("category", PStr "analysis");
         ("template", PBytes [Byte.x48; Byte.x69])].

(** A file with a blank template and two parameter entries without name. *)
Definition flawed_file : pyval :=
  PDict [("template", PStr "  ");
         ("parameters",
          PList [PDict [("name", PStr "a")]; PDict [];
                 PDict [("type", PStr "string")]])].

(** A service that answers every request with the same text after half a
    second. *)
Definition service : genai.Service :=
  {| genai.new_client := fun key => Ok {| genai.client_api_key := key |};
     genai.generate_content := fun _ _ =>
       Ok {| genai.text := Some "Hello there"; genai.elapsed := (1 # 2)%Q |} |}.

(** A service whose every call fails. *)
Definition failing_service : genai.Service :=
  {| genai.new_client := fun key => Ok {| genai.client_api_key := key |};
     genai.generate_content := fun _ _ =>
       Raise (LibraryError "429 RESOURCE_EXHAUSTED") |}.

Definition tester : PromptTester.t := PromptTester.__init__ (Some "secret") None.

(** A directory with a record file and an empty file, which
    [yaml.safe_load] reads as [None]. *)
Definition directory : list (Path * file) :=
  [(path "greeting", Ok greeting_file); (path "empty", Ok PNone)].

End Ex.

(* ===================================================================== *)
(** ** prompt_manager.py: the cache in insertion order and the queries    *)
(* ===================================================================== *)

(** [sorted(l, key=...)]: the stable sort, by the order [le] of the keys. *)
Module Sorting.
Section Sorted.
Context {A : Type} (le : A -> A -> bool).

Fixpoint insert (x : A) (l : list A) : list A :=
  match l with
  | [] => [x]
  | y :: l' => if le x y then x :: y :: l' else y :: insert x l'
  end.

Definition sorted (l : list A) : list A := foldr insert [] l.
End Sorted.
End Sorting.

Module Library.

(** [self._cache] as the Python [dict] it is: the items in the order of
    their insertion. *)
Definition cache : Type := list (string * Prompt.t).

(** [d[k] = v]: a key that is present keeps its place. *)
Fixpoint dict_set {V : Type} (k : string) (v : V) (d : list (string * V))
    : list (string * V) :=
  match d with
  | [] => [(k, v)]
  | (k', v') :: d' =>
      if decide (k' = k) then (k, v) :: d' else (k', v') :: dict_set k v d'
  end.

(** [d.get(k)] *)
Fixpoint dict_get {V : Type} (k : string) (d : list (string * V)) : option V :=
  match d with
  | [] => None
  | (k', v) :: d' => if decide (k' = k) then Some v else dict_get k d'
  end.

(** The loop of [_load_all], on the ordered cache. *)
Fixpoint load_files (files : list (Path * file)) (c : cache) : option cache :=
  match files with
  | [] => Some c
  | (path, f) :: rest =>
      match f ≫= PromptManager._load_prompt path with
      | Ok prompt => load_files rest (dict_set (Prompt.name prompt) prompt c)
      | Raise (OutsideModel _) => None
      | Raise _ => load_files rest c
      end
  end.

Definition _load_all (prompts_dir : option (list (Path * file))) : option cache :=
  match prompts_dir with
  | None => Some []
  | Some files => load_files files []
  end.

(** [self._cache.values()] *)
Definition values (c : cache) : list Prompt.t := map snd c.

(** [(p.category, p.name) <= (q.category, q.name)], as Python compares
    tuples: on the first component in which they differ. *)
Definition key_le (p q : Prompt.t) : bool :=
  if decide (Prompt.category p = Prompt.category q)
  then String.leb (Prompt.name p) (Prompt.name q)
  else String.leb (Prompt.category p) (Prompt.category q).

Definition list_prompts (c : cache) : list Prompt.t :=
  Sorting.sorted key_le (values c).

Definition get_prompt (c : cache) (name : string) : option Prompt.t :=
  dict_get name c.

Definition get_by_category (c : cache) (category : string) : list Prompt.t :=
  List.filter (fun p => bool_decide (Prompt.category p = category)) (values c).

(** [sorted(set(...))]: the set is the list of the distinct categories. *)
Definition get_categories (c : cache) : list string :=
  Sorting.sorted String.leb (remove_dups (map Prompt.category (values c))).

(** The condition of [search] on one record. *)
Definition matches (query_lower : string) (prompt : Prompt.t) : bool :=
  Str.contains query_lower (Str.lower (Prompt.name prompt))
  || Str.contains query_lower (Str.lower (Prompt.description prompt))
  || existsb (fun tag => Str.contains query_lower (Str.lower tag))
             (PromptMetadata.tags (Prompt.metadata prompt)).

Definition search (c : cache) (query : string) : list Prompt.t :=
  List.filter (matches (Str.lower query)) (values c).

(** The dict that [get_stats] returns; [models_used] is the list of a set,
    kept as the set. *)
Record Stats := {
  total_prompts : nat;
  categories : nat;
  category_counts : list (string * nat);
  models_used : gset string
}.

Definition get_stats (c : cache) : Stats :=
  let prompts := list_prompts c in
  let categories := get_categories c in
  {| total_prompts := length prompts;
     categories := length categories;
     category_counts :=
       map (fun cat => (cat, length (get_by_category c cat))) categories;
     models_used :=
       list_to_set
         (map (fun p => PromptMetadata.recommended_model (Prompt.metadata p))
              prompts) |}.

End Library.

(* ===================================================================== *)
(** ** prompt_tester.py: BatchTestResult.pass_rate                        *)
(* ===================================================================== *)

Module Report.

Definition pass_rate (self : BatchTestResult.t) : Q :=
  if (0 <? BatchTestResult.total self)%nat
  then (inject_Z (Z.of_nat (BatchTestResult.passed self))
        / inject_Z (Z.of_nat (BatchTestResult.total self)) * 100)%Q
  else 0%Q.

End Report.

(* ===================================================================== *)
(** ** prompt_manager.py: Prompt.to_dict                                  *)
(* ===================================================================== *)

Module Dump.

(** One element of the comprehension of ["parameters"]. *)
Definition parameter_to_dict (p : PromptParameter.t) : pyval :=
  PDict [("name", PStr (PromptParameter.name p));
         ("type", PStr (PromptParameter.type p));
         ("required", PBool (PromptParameter.required p))].

Definition to_dict (self : Prompt.t) : pyval :=
  PDict
    [("name", PStr (Prompt.name self));
     ("version", PStr (Prompt.version self));
     ("category", PStr (Prompt.category self));
     ("description", PStr (Prompt.description self));
     ("template", PStr (Prompt.template self));
     ("parameters", PList (map parameter_to_dict (Prompt.parameters self)));
     ("metadata",
      PDict
        [("recommended_model",
          PStr (PromptMetadata.recommended_model (Prompt.metadata self)));
         ("expected_tokens",
          PInt (PromptMetadata.expected_tokens (Prompt.metadata self)));
         ("temperature",
          PFloat (PromptMetadata.temperature (Prompt.metadata self)));
         ("tags", PList (map PStr (PromptMetadata.tags (Prompt.metadata self))))])].

(** What of a parameter and of a record [to_dict] keeps. *)
Definition kept_parameter (p : PromptParameter.t) : PromptParameter.t :=
  {| PromptParameter.name := PromptParameter.name p;
     PromptParameter.type := PromptParameter.type p;
     PromptParameter.required := PromptParameter.required p;
     PromptParameter.description := "";
     PromptParameter.default := None |}.

Definition kept (path : Path) (self : Prompt.t) : Prompt.t :=
  {| Prompt.name := Prompt.name self;
     Prompt.version := Prompt.version self;
     Prompt.category := Prompt.category self;
     Prompt.description := Prompt.description self;
     Prompt.template := Prompt.template self;
     Prompt.parameters := map kept_parameter (Prompt.parameters self);
     Prompt.metadata :=
       {| PromptMetadata.recommended_model :=
            PromptMetadata.recommended_model (Prompt.metadata self);
          PromptMetadata.expected_tokens :=
            PromptMetadata.expected_tokens (Prompt.metadata self);
          PromptMetadata.temperature :=
            PromptMetadata.temperature (Prompt.metadata self);
          PromptMetadata.tags := PromptMetadata.tags (Prompt.metadata self);
          PromptMetadata.max_tokens := None |};
     Prompt.examples := [];
     Prompt.file_path := Some (path_str path) |}.

End Dump.

(* ===================================================================== *)
(** * Proofs                                                              *)
(* ===================================================================== *)

(** ** The model on the examples of the specification and of the tests *)

Example replace_ex1 : Str.replace "{x}" "ab" "a{x}b{x}{y}" = "aabbab{y}".
Proof. reflexivity. Qed.
Example replace_ex2 : Str.replace "aa" "b" "aaaaa" = "bba".
Proof. reflexivity. Qed.
Example replace_ex3 : Str.replace "" "-" "abc" = "-a-b-c-".
Proof. reflexivity. Qed.
Example split_ex : Str.split "  two  words " = ["two"; "words"].
Proof. reflexivity. Qed.
Example strip_ex : Str.strip "  a b
 " = "a b".
Proof. reflexivity. Qed.
Example of_nat_ex : Str.of_nat 12 = "12" /\ Str.of_nat 0 = "0".
Proof. split; reflexivity. Qed.

Example render_executive_summary :
  Prompt.render id Ex.executive_summary {["document" := "Hello world"]}
  = Ok "Summarize: Hello world".
Proof. reflexivity. Qed.

Example score_of_test_output :
  (PromptTester._score_quality
     "This is a test output with bullet points:
- Item 1
- Item 2" ["test"; "bullet"] (@nil string) == 17 # 2)%Q.
Proof. reflexivity. Qed.

Example batch_over_nothing :
  (PromptTester.test_batch Ex.service Ex.tester [] None).1.1
  = Ok {| BatchTestResult.total := 0;
          BatchTestResult.passed := 0;
          BatchTestResult.failed := 0;
          BatchTestResult.results := [];
          BatchTestResult.avg_quality := 0%Q;
          BatchTestResult.avg_latency_ms := 0%Q |}.
Proof. reflexivity. Qed.

(** ** Strings *)

Lemma append_nil (b : string) : "" +:+ b = b.
Proof. reflexivity. Qed.

Lemma append_cons (x : ascii) (a b : string) :
  String x a +:+ b = String x (a +:+ b).
Proof. reflexivity. Qed.

Lemma append_assoc (a b c : string) : (a +:+ b) +:+ c = a +:+ (b +:+ c).
Proof.
  induction a as [|x a IH]; [reflexivity|].
  rewrite !append_cons. now rewrite IH.
Qed.

Lemma append_empty_r (a : string) : a +:+ "" = a.
Proof.
  induction a as [|x a IH]; [reflexivity|].
  rewrite append_cons. now rewrite IH.
Qed.

Lemma prefix_cons (a : string) (c : ascii) (s : string) :
  String.prefix a (String c s) =
  match a with
  | EmptyString => true
  | String x a' => if decide (x = c) then String.prefix a' s else false
  end.
Proof.
  destruct a as [|x a']; [reflexivity|]. simpl.
  destruct (ascii_dec x c), (decide (x = c)); congruence.
Qed.

Lemma prefix_empty (a : string) : String.prefix a "" = bool_decide (a = "").
Proof. destruct a; reflexivity. Qed.

Lemma prefix_length (a s : string) :
  String.prefix a s = true -> String.length a <= String.length s.
Proof.
  revert a. induction s as [|c s IH]; intros a H.
  - rewrite prefix_empty in H. apply bool_decide_eq_true in H. subst. simpl. lia.
  - rewrite prefix_cons in H. destruct a as [|x a']; simpl; [lia|].
    destruct (decide (x = c)); [|discriminate]. apply IH in H. lia.
Qed.

Lemma prefix_app_l (a s r : string) :
  String.prefix a s = true -> String.prefix a (s +:+ r) = true.
Proof.
  revert a. induction s as [|c s IH]; intros a H.
  - rewrite prefix_empty in H. apply bool_decide_eq_true in H. subst.
    destruct r; reflexivity.
  - rewrite append_cons. rewrite prefix_cons in *.
    destruct a as [|x a']; [reflexivity|].
    destruct (decide (x = c)); [auto | discriminate].
Qed.

Lemma no_char_head (c : ascii) (s : string) : Spec.no_char c (String c s) = false.
Proof. simpl. now rewrite bool_decide_eq_true_2. Qed.

Lemma no_char_cons (c d : ascii) (s : string) :
  Spec.no_char c (String d s) = true -> d ≠ c /\ Spec.no_char c s = true.
Proof.
  simpl. rewrite andb_true_iff, negb_true_iff. intros [H ?]. split; [|assumption].
  now apply bool_decide_eq_false in H.
Qed.

(** A text that lacks the character [c] cannot start before [c] and run over it. *)
Lemma prefix_stops_before (c : ascii) (a p r : string) :
  Spec.no_char c a = true ->
  String.prefix a (p +:+ String c r) = true ->
  String.prefix a p = true.
Proof.
  revert a. induction p as [|d p IH]; intros a Ha H.
  - rewrite append_nil, prefix_cons in H. destruct a as [|x a']; [reflexivity|].
    destruct (decide (x = c)) as [->|]; [|discriminate].
    rewrite no_char_head in Ha. discriminate.
  - rewrite append_cons in H. rewrite prefix_cons in *.
    destruct a as [|x a']; [reflexivity|].
    apply no_char_cons in Ha as [_ Ha].
    destruct (decide (x = d)); [eauto | discriminate].
Qed.

Lemma no_char_app (c : ascii) (a b : string) :
  Spec.no_char c (a +:+ b) = Spec.no_char c a && Spec.no_char c b.
Proof.
  induction a as [|x a IH]; [reflexivity|].
  rewrite append_cons. simpl. rewrite IH. now rewrite andb_assoc.
Qed.

Lemma replace_from_cons (k : nat) (old new : string) (c : ascii) (s : string) :
  Str.replace_from k old new (String c s) =
  match k with
  | S k' => Str.replace_from k' old new s
  | O => if String.prefix old (String c s)
         then new +:+ Str.replace_from (String.length old - 1) old new s
         else String c (Str.replace_from 0 old new s)
  end.
Proof. destruct k; reflexivity. Qed.

(** Where no occurrence of [old] that starts in [pre] runs into [rest], the
    replacement works on [pre] and on [rest] apart. *)
Lemma replace_from_app (old new rest : string) :
  (forall p, p ≠ "" -> String.prefix old (p +:+ rest) = true ->
             String.prefix old p = true) ->
  forall pre k, k <= String.length pre ->
    Str.replace_from k old new (pre +:+ rest) =
    Str.replace_from k old new pre +:+ Str.replace_from 0 old new rest.
Proof.
  intros Hin. induction pre as [|c pre IH]; intros k Hk.
  - simpl in Hk. replace k with 0 by lia. reflexivity.
  - rewrite append_cons, !replace_from_cons. destruct k as [|k].
    + destruct (String.prefix old (String c (pre +:+ rest))) eqn:E.
      * assert (E' : String.prefix old (String c pre) = true).
        { apply Hin; [discriminate|]. now rewrite append_cons. }
        rewrite E'. apply prefix_length in E'. simpl in E'.
        rewrite IH by lia. now rewrite append_assoc.
      * destruct (String.prefix old (String c pre)) eqn:E'.
        -- apply (prefix_app_l _ _ rest) in E'. rewrite append_cons in E'.
           congruence.
        -- rewrite append_cons. now rewrite IH by lia.
    + simpl in Hk. apply IH. lia.
Qed.

(** Where [old] starts at no position of [tok], [tok] is copied. *)
Lemma replace_from_keeps (old new post : string) :
  forall tok,
    (forall t1 t2, tok = t1 +:+ t2 -> t2 ≠ "" ->
                   String.prefix old (t2 +:+ post) = false) ->
    Str.replace_from 0 old new (tok +:+ post) =
    tok +:+ Str.replace_from 0 old new post.
Proof.
  induction tok as [|c tok IH]; intros H; [reflexivity|].
  rewrite !append_cons, replace_from_cons.
  rewrite <- append_cons.
  rewrite (H "" (String c tok) eq_refl) by discriminate.
  f_equal. apply IH. intros t1 t2 -> Hne.
  apply (H (String c t1) t2); [reflexivity | exact Hne].
Qed.

Lemma prefix_refl (a : string) : String.prefix a a = true.
Proof.
  induction a as [|c a IH]; [reflexivity|].
  rewrite prefix_cons. destruct (decide (c = c)); [exact IH | congruence].
Qed.

Lemma replace_from_skip (old new y : string) :
  forall u, Str.replace_from (String.length u) old new (u +:+ y) =
            Str.replace_from 0 old new y.
Proof.
  induction u as [|c u IH]; [reflexivity|].
  rewrite append_cons, replace_from_cons. exact IH.
Qed.

(** An occurrence of [old] at the head of the text is replaced by [new]. *)
Lemma replace_from_head (old new y : string) :
  old ≠ "" ->
  Str.replace_from 0 old new (old +:+ y) = new +:+ Str.replace_from 0 old new y.
Proof.
  intros Hne. destruct old as [|c old]; [congruence|].
  rewrite append_cons, replace_from_cons, <- append_cons.
  rewrite (prefix_app_l _ _ y (prefix_refl _)).
  replace (String.length (String c old) - 1) with (String.length old)
    by (simpl; lia).
  now rewrite replace_from_skip.
Qed.

(** ** Placeholder tokens *)

Lemma placeholder_unfold (key : string) :
  Prompt.placeholder key = String "{"%char (key +:+ "}").
Proof. reflexivity. Qed.

Lemma replace_placeholder (key new text : string) :
  Str.replace (Prompt.placeholder key) new text =
  Str.replace_from 0 (Prompt.placeholder key) new text.
Proof.
  unfold Str.replace. rewrite placeholder_unfold.
  destruct (decide (String "{"%char (key +:+ "}") = "")); [discriminate | reflexivity].
Qed.

Lemma brace_free_inv (s : string) :
  Spec.brace_free s = true ->
  Spec.no_char "{"%char s = true /\ Spec.no_char "}"%char s = true.
Proof. unfold Spec.brace_free. now rewrite andb_true_iff. Qed.

(** Two names without a closing brace that agree up to their closing brace
    are the same name. *)
Lemma prefix_closed_name (a b x r : string) :
  Spec.no_char "}"%char a = true ->
  Spec.no_char "}"%char b = true ->
  String.prefix (a +:+ String "}"%char x) (b +:+ String "}"%char r) = true ->
  a = b.
Proof.
  revert b. induction a as [|c a IH]; intros b Ha Hb H.
  - destruct b as [|d b]; [reflexivity|].
    rewrite append_nil, append_cons, prefix_cons in H.
    destruct (decide ("}"%char = d)) as [<-|]; [|discriminate].
    rewrite no_char_head in Hb. discriminate.
  - rewrite append_cons in H. apply no_char_cons in Ha as [Hc Ha].
    destruct b as [|d b].
    + rewrite append_nil, prefix_cons in H.
      destruct (decide (c = "}"%char)); [congruence | discriminate].
    + rewrite append_cons, prefix_cons in H.
      apply no_char_cons in Hb as [_ Hb].
      destruct (decide (c = d)) as [->|]; [|discriminate].
      f_equal. now apply IH.
Qed.

Lemma suffix_head (c : ascii) (t1 t2 : string) :
  Spec.no_char c (t1 +:+ t2) = true -> t2 ≠ "" ->
  exists d t2', t2 = String d t2' /\ d ≠ c.
Proof.
  rewrite no_char_app, andb_true_iff. intros [_ H] Hne.
  destruct t2 as [|d t2']; [congruence|]. exists d, t2'. split; [reflexivity|].
  now apply no_char_cons in H as [H _].
Qed.

(** An occurrence of [{a}] that starts left of a [{] ends left of it. *)
Lemma placeholder_stays_left (a r p : string) :
  Spec.brace_free a = true -> p ≠ "" ->
  String.prefix (Prompt.placeholder a) (p +:+ String "{"%char r) = true ->
  String.prefix (Prompt.placeholder a) p = true.
Proof.
  intros [Ha _]%brace_free_inv Hp H. destruct p as [|c p]; [congruence|].
  rewrite append_cons in H. rewrite placeholder_unfold, prefix_cons in *.
  destruct (decide ("{"%char = c)); [|discriminate].
  apply (prefix_stops_before "{"%char _ _ r); [|exact H].
  rewrite no_char_app, Ha. reflexivity.
Qed.

(** [{a}] starts at no position of [{b}] when the brace-free names differ. *)
Lemma placeholder_not_inside (a b post t1 t2 : string) :
  Spec.brace_free a = true -> Spec.brace_free b = true -> a ≠ b ->
  Prompt.placeholder b = t1 +:+ t2 -> t2 ≠ "" ->
  String.prefix (Prompt.placeholder a) (t2 +:+ post) = false.
Proof.
  intros [_ Ha]%brace_free_inv [Hb Hb']%brace_free_inv Hab E Hne.
  destruct t1 as [|c t1].
  - rewrite append_nil in E. subst t2.
    rewrite !placeholder_unfold, append_cons, prefix_cons.
    destruct (decide ("{"%char = "{"%char)); [|congruence].
    rewrite append_assoc.
    destruct (String.prefix _ _) eqn:P; [|reflexivity].
    apply prefix_closed_name in P; [congruence | assumption | assumption].
  - rewrite placeholder_unfold, append_cons in E. injection E as Ec E. subst c.
    destruct (suffix_head "{"%char t1 t2) as (d & t2' & -> & Hd); [|exact Hne|].
    + rewrite <- E, no_char_app, Hb. reflexivity.
    + rewrite placeholder_unfold, append_cons, prefix_cons.
      destruct (decide ("{"%char = d)); [congruence | reflexivity].
Qed.

(** Replacing [{a}] leaves an occurrence of [{b}] where it is and works on
    the text before it and on the text after it. *)
Lemma replace_placeholder_frame (a b new pre post : string) :
  Spec.brace_free a = true -> Spec.brace_free b = true -> a ≠ b ->
  Str.replace (Prompt.placeholder a) new (pre +:+ Prompt.placeholder b +:+ post) =
  Str.replace (Prompt.placeholder a) new pre
    +:+ Prompt.placeholder b
    +:+ Str.replace (Prompt.placeholder a) new post.
Proof.
  intros Ha Hb Hab. rewrite !replace_placeholder.
  rewrite replace_from_app; [|
    intros p Hp; rewrite (placeholder_unfold b), append_cons;
    now apply placeholder_stays_left | lia].
  f_equal. apply replace_from_keeps.
  intros t1 t2 E Hne. now apply (placeholder_not_inside a b post t1 t2).
Qed.

(** Every occurrence of [{a}] is replaced: the text around an occurrence is
    worked on apart. *)
Lemma replace_placeholder_occurrence (a new pre post : string) :
  Spec.brace_free a = true ->
  Str.replace (Prompt.placeholder a) new (pre +:+ Prompt.placeholder a +:+ post) =
  Str.replace (Prompt.placeholder a) new pre
    +:+ new
    +:+ Str.replace (Prompt.placeholder a) new post.
Proof.
  intros Ha. rewrite !replace_placeholder.
  rewrite replace_from_app; [|
    intros p Hp; rewrite (placeholder_unfold a) at 2; rewrite append_cons;
    now apply placeholder_stays_left | lia].
  f_equal. apply replace_from_head. now rewrite placeholder_unfold.
Qed.

(** ** Prompt.render *)

Section RenderProofs.
Context {V : Type} (str : V -> string) (kwargs : gmap string V).

Lemma render_loop_cons (param : PromptParameter.t)
    (rest : list PromptParameter.t) (text : string) :
  Prompt.render_loop str (param :: rest) kwargs text =
  if Spec.is_missing kwargs param
  then Raise (ValueError ("Missing required parameter: "
                            +:+ PromptParameter.name param))
  else Prompt.render_loop str rest kwargs (Spec.substitute_one str kwargs text param).
Proof.
  unfold Spec.is_missing, Spec.substitute_one, Spec.replacement. simpl.
  destruct (kwargs !! PromptParameter.name param) as [v|]; simpl; [reflexivity|].
  destruct (PromptParameter.required param); simpl;
    destruct (PromptParameter.default param); reflexivity.
Qed.

Lemma render_loop_ok (params : list PromptParameter.t) (text : string) :
  (forall param, param ∈ params -> Spec.is_missing kwargs param = false) ->
  Prompt.render_loop str params kwargs text =
  Ok (foldl (Spec.substitute_one str kwargs) text params).
Proof.
  revert text. induction params as [|param rest IH]; intros text H.
  - reflexivity.
  - rewrite render_loop_cons, H by (left).
    simpl. apply IH. intros q Hq. apply H. now right.
Qed.

Lemma render_loop_missing (before after : list PromptParameter.t)
    (param : PromptParameter.t) (text : string) :
  (forall q, q ∈ before -> Spec.is_missing kwargs q = false) ->
  Spec.is_missing kwargs param = true ->
  Prompt.render_loop str (before ++ param :: after) kwargs text =
  Raise (ValueError ("Missing required parameter: " +:+ PromptParameter.name param)).
Proof.
  revert text. induction before as [|q before IH]; intros text H Hm.
  - simpl app. now rewrite render_loop_cons, Hm.
  - simpl app. rewrite render_loop_cons, H by (left).
    apply IH; [|exact Hm]. intros q' Hq'. apply H. now right.
Qed.

Lemma substitute_one_frame (param : PromptParameter.t) (key pre post : string) :
  Spec.brace_free (PromptParameter.name param) = true ->
  Spec.brace_free key = true ->
  PromptParameter.name param ≠ key ->
  Spec.substitute_one str kwargs (pre +:+ Prompt.placeholder key +:+ post) param =
  Spec.substitute_one str kwargs pre param
    +:+ Prompt.placeholder key
    +:+ Spec.substitute_one str kwargs post param.
Proof.
  intros Hp Hk Hne. unfold Spec.substitute_one.
  destruct (Spec.replacement str kwargs param); [|reflexivity].
  now apply replace_placeholder_frame.
Qed.

Lemma substitute_one_occurrence (param : PromptParameter.t)
    (new pre post : string) :
  Spec.brace_free (PromptParameter.name param) = true ->
  Spec.replacement str kwargs param = Some new ->
  Spec.substitute_one str kwargs
    (pre +:+ Prompt.placeholder (PromptParameter.name param) +:+ post) param =
  Spec.substitute_one str kwargs pre param
    +:+ new
    +:+ Spec.substitute_one str kwargs post param.
Proof.
  intros Hp Hr. unfold Spec.substitute_one. rewrite Hr.
  now apply replace_placeholder_occurrence.
Qed.

Lemma render_loop_frame (params : list PromptParameter.t) (key pre post : string) :
  Spec.brace_free key = true ->
  (forall q, q ∈ params ->
     Spec.brace_free (PromptParameter.name q) = true /\ PromptParameter.name q ≠ key) ->
  Prompt.render_loop str params kwargs (pre +:+ Prompt.placeholder key +:+ post) =
  (x ← Prompt.render_loop str params kwargs pre;
   y ← Prompt.render_loop str params kwargs post;
   Ok (x +:+ Prompt.placeholder key +:+ y)).
Proof.
  intros Hk. revert pre post.
  induction params as [|param rest IH]; intros pre post H; [reflexivity|].
  rewrite !render_loop_cons.
  destruct (Spec.is_missing kwargs param); [reflexivity|].
  destruct (H param) as [Hp Hne]; [left|].
  rewrite substitute_one_frame by assumption.
  apply IH. intros q Hq. apply H. now right.
Qed.
End RenderProofs.

(** C1 (as amended). [render] goes through the declared parameters in
    declaration order. When no declared parameter is missing (not supplied,
    required, without default), it returns the template in which, parameter
    after parameter, every occurrence of the token [{name}] has been replaced
    by the string form of the supplied value, else by the default, and left
    alone when there is neither. Otherwise it raises the error that names the
    first missing parameter and returns no text. A placeholder [{key}] whose
    brace-free name no parameter declares stays in the output where it was,
    between the renderings of the text before it and of the text after it,
    provided the declared names are brace-free too. For a parameter with a
    brace-free name, each occurrence of its token gives way to the
    replacement, the text on either side being worked on in the same way. *)
Theorem render_declared_parameters {V : Type} (str : V -> string)
    (self : Prompt.t) (kwargs : gmap string V) :
  ((forall param, param ∈ Prompt.parameters self ->
      Spec.is_missing kwargs param = false) ->
   Prompt.render str self kwargs =
   Ok (foldl (Spec.substitute_one str kwargs) (Prompt.template self)
             (Prompt.parameters self)))
  /\ (forall before param after,
        Prompt.parameters self = before ++ param :: after ->
        (forall q, q ∈ before -> Spec.is_missing kwargs q = false) ->
        Spec.is_missing kwargs param = true ->
        Prompt.render str self kwargs =
        Raise (ValueError ("Missing required parameter: "
                             +:+ PromptParameter.name param)))
  /\ (forall key pre post,
        Prompt.template self = pre +:+ Prompt.placeholder key +:+ post ->
        Spec.brace_free key = true ->
        (forall q, q ∈ Prompt.parameters self ->
           Spec.brace_free (PromptParameter.name q) = true
           /\ PromptParameter.name q ≠ key) ->
        Prompt.render str self kwargs =
        (x ← Prompt.render_loop str (Prompt.parameters self) kwargs pre;
         y ← Prompt.render_loop str (Prompt.parameters self) kwargs post;
         Ok (x +:+ Prompt.placeholder key +:+ y)))
  /\ (forall param new pre post,
        Spec.brace_free (PromptParameter.name param) = true ->
        Spec.replacement str kwargs param = Some new ->
        Spec.substitute_one str kwargs
          (pre +:+ Prompt.placeholder (PromptParameter.name param) +:+ post) param =
        Spec.substitute_one str kwargs pre param
          +:+ new
          +:+ Spec.substitute_one str kwargs post param).
Proof.
  unfold Prompt.render. split; [|split; [|split]].
  - apply render_loop_ok.
  - intros before param after -> Hb Hm. now apply render_loop_missing.
  - intros key pre post -> Hk Hq. now apply render_loop_frame.
  - intros param new pre post. apply substitute_one_occurrence.
Qed.

Lemma render_declared_parameters_witness :
  Prompt.render id Ex.briefing {["document" := "Q3 report"]} =
    Ok "Neutral brief of Q3 report for {reader}{note}"
  /\ Prompt.render id Ex.executive_summary (∅ : gmap string string) =
       Raise (ValueError "Missing required parameter: document")
  /\ Prompt.render id Ex.briefing {["document" := "Q3 report"]} =
       Ok ("Neutral brief of Q3 report for " +:+ Prompt.placeholder "reader" +:+ "{note}").
Proof.
  destruct (render_declared_parameters id Ex.briefing {["document" := "Q3 report"]})
    as (H1 & _ & H3 & _).
  destruct (render_declared_parameters id Ex.executive_summary (∅ : gmap string string))
    as (_ & H2 & _).
  split; [|split].
  - rewrite H1; [reflexivity|].
    intros param Hin. repeat (apply elem_of_cons in Hin as [->|Hin]);
      try reflexivity. now apply elem_of_nil in Hin.
  - rewrite (H2 [] (Ex.parameter "document" true None) []); try reflexivity.
    intros q Hq. now apply elem_of_nil in Hq.
  - rewrite (H3 "reader" "{tone} brief of {document} for " "{note}");
      try reflexivity.
    intros q Hin. repeat (apply elem_of_cons in Hin as [->|Hin]);
      try (split; [reflexivity | discriminate]). now apply elem_of_nil in Hin.
Defined.

(** C1 (as stated) fails: with a declared parameter named [a}{b], the
    placeholder [{b}] of the template [{a}{b}] names no declared parameter,
    and the output [X] has lost it. *)
Lemma render_undeclared_placeholder_lost :
  ¬ Spec.undeclared_placeholders_remain id Ex.braces (∅ : gmap string string).
Proof.
  intros H. specialize (H "b" "X").
  assert (E : Str.contains (Prompt.placeholder "b") "X" = true).
  { apply H; try reflexivity.
    unfold Spec.declared. simpl. intros Hin.
    apply elem_of_cons in Hin as [Hin|Hin]; [discriminate|].
    now apply elem_of_nil in Hin. }
  discriminate E.
Qed.

(** ** Whitespace *)

Lemma rstrip_empty (s : string) :
  Str.rstrip s = "" <-> Spec.whitespace_only s = true.
Proof.
  induction s as [|c s IH]; simpl; [tauto|].
  rewrite andb_true_iff, <- IH.
  destruct (Str.rstrip s); destruct (Str.is_space c); split;
    try discriminate; try tauto; try (now intros [? ?]); auto.
Qed.

Lemma whitespace_only_lstrip (s : string) :
  Spec.whitespace_only (Str.lstrip s) = Spec.whitespace_only s.
Proof.
  induction s as [|c s IH]; simpl; [reflexivity|].
  destruct (Str.is_space c) eqn:E; simpl; [exact IH | now rewrite E].
Qed.

Lemma strip_empty (s : string) :
  Str.strip s = "" <-> Spec.whitespace_only s = true.
Proof. unfold Str.strip. now rewrite rstrip_empty, whitespace_only_lstrip. Qed.

(** ** PromptTester._score_quality *)

Section Score.
Context {A B : Type}.
Implicit Types (expected : list A) (missing : list B).

Lemma score_empty (output : string) expected missing :
  Str.strip output = "" ->
  PromptTester._score_quality output expected missing = 0%Q.
Proof.
  intros H. unfold PromptTester._score_quality.
  destruct (decide (Str.strip output = "")); [reflexivity | contradiction].
Qed.

Lemma score_raw (output : string) expected missing :
  Str.strip output ≠ "" ->
  (PromptTester._score_quality output expected missing
   == Qmin (Spec.raw_score output expected missing) 10)%Q.
Proof.
  intros H.
  unfold PromptTester._score_quality, Spec.raw_score, Spec.score_before_structure.
  destruct (decide (Str.strip output = "")); [contradiction|].
  apply Q.min_compat; [|reflexivity].
  destruct (50 <=? _)%nat, (200 <=? _)%nat, expected,
    (PromptTester.has_marker output); ring.
Qed.

Lemma match_rate_le_1 expected missing :
  expected ≠ [] -> (PromptTester.match_rate expected missing <= 1)%Q.
Proof.
  intros H. unfold PromptTester.match_rate.
  assert (0 < length expected) by (destruct expected; [congruence | simpl; lia]).
  apply Qle_shift_div_r.
  - change 0%Q with (inject_Z 0). rewrite <- Zlt_Qlt. lia.
  - rewrite Qmult_1_l, <- Zle_Qle. lia.
Qed.

Lemma match_rate_ge_0 expected missing :
  length missing <= length expected ->
  (0 <= PromptTester.match_rate expected missing)%Q.
Proof.
  intros H. unfold PromptTester.match_rate.
  destruct (decide (length expected = 0)) as [E|E].
  - rewrite E. simpl. unfold Qdiv. rewrite Qmult_0_r. apply Qle_refl.
  - apply Qle_shift_div_l.
    + change 0%Q with (inject_Z 0). rewrite <- Zlt_Qlt. lia.
    + rewrite Qmult_0_l. change 0%Q with (inject_Z 0). rewrite <- Zle_Qle. lia.
Qed.

Lemma match_rate_lt_1 expected missing :
  expected ≠ [] -> missing ≠ [] ->
  (PromptTester.match_rate expected missing < 1)%Q.
Proof.
  intros H Hm. unfold PromptTester.match_rate.
  assert (0 < length expected) by (destruct expected; [congruence | simpl; lia]).
  assert (0 < length missing) by (destruct missing; [congruence | simpl; lia]).
  apply Qlt_shift_div_r.
  - change 0%Q with (inject_Z 0). rewrite <- Zlt_Qlt. lia.
  - rewrite Qmult_1_l, <- Zlt_Qlt. lia.
Qed.

Lemma match_rate_full expected :
  expected ≠ [] -> (PromptTester.match_rate expected (@nil B) == 1)%Q.
Proof.
  intros H. unfold PromptTester.match_rate. simpl length.
  rewrite Z.sub_0_r. apply Qmult_inv_r.
  assert (0 < length expected) by (destruct expected; [congruence | simpl; lia]).
  intros E. apply (Qeq_sym) in E.
  apply Qlt_not_eq in E; [exact E|].
  change 0%Q with (inject_Z 0). rewrite <- Zlt_Qlt. lia.
Qed.

Lemma raw_score_le_10 (output : string) expected missing :
  (Spec.raw_score output expected missing <= 10)%Q.
Proof.
  unfold Spec.raw_score, Spec.score_before_structure.
  destruct expected as [|a expected].
  - destruct (50 <=? _)%nat, (200 <=? _)%nat, (PromptTester.has_marker output); lra.
  - pose proof (match_rate_le_1 (a :: expected) missing ltac:(discriminate)) as H.
    destruct (50 <=? _)%nat, (200 <=? _)%nat, (PromptTester.has_marker output); lra.
Qed.

Lemma raw_score_ge_5 (output : string) expected missing :
  length missing <= length expected ->
  (5 <= Spec.raw_score output expected missing)%Q.
Proof.
  intros Hl. unfold Spec.raw_score, Spec.score_before_structure.
  pose proof (match_rate_ge_0 expected missing Hl) as H.
  destruct expected as [|a expected];
    destruct (50 <=? _)%nat, (200 <=? _)%nat, (PromptTester.has_marker output); lra.
Qed.

(** The clamp at 10 is never reached from above. *)
Lemma score_unclamped (output : string) expected missing :
  Str.strip output ≠ "" ->
  (PromptTester._score_quality output expected missing
   == Spec.raw_score output expected missing)%Q.
Proof.
  intros H. rewrite score_raw by assumption.
  apply Q.min_l, raw_score_le_10.
Qed.
End Score.

(** C4. For an output, the expected keywords and a sublist of them as the
    missing ones: the score of an empty or whitespace-only output is exactly
    0; the score of any other output is at least 5 and at most 10. *)
Theorem score_bounds {A : Type} (output : string) (expected missing : list A) :
  missing `sublist_of` expected ->
  (Spec.whitespace_only output = true ->
     PromptTester._score_quality output expected missing = 0%Q)
  /\ (Spec.whitespace_only output = false ->
        (5 <= PromptTester._score_quality output expected missing)%Q
        /\ (PromptTester._score_quality output expected missing <= 10)%Q).
Proof.
  intros Hsub%sublist_length. split; intros Hw.
  - apply score_empty. now apply strip_empty.
  - assert (Hne : Str.strip output ≠ "").
    { intros E%strip_empty. congruence. }
    rewrite score_unclamped by assumption.
    split; [now apply raw_score_ge_5 | apply raw_score_le_10].
Qed.

Lemma score_bounds_witness :
  PromptTester._score_quality "  " ["test"; "missing"] ["missing"] = 0%Q
  /\ (5 <= PromptTester._score_quality "test output" ["test"; "missing"] ["missing"])%Q
  /\ (PromptTester._score_quality "test output" ["test"; "missing"] ["missing"] <= 10)%Q.
Proof.
  assert (Hsub : ["missing"] `sublist_of` ["test"; "missing"]).
  { apply sublist_cons, sublist_skip, sublist_nil. }
  destruct (score_bounds "  " ["test"; "missing"] ["missing"] Hsub) as [H0 _].
  destruct (score_bounds "test output" ["test"; "missing"] ["missing"] Hsub)
    as [_ H1].
  split; [apply H0; reflexivity | apply H1; reflexivity].
Defined.

(** C5. For an output with content and a non-empty list of expected keywords,
    the score with no missing keyword is strictly greater than the score with
    at least one: the clamp at 10 does not level them. *)
Theorem score_strictly_higher_without_missing {A B : Type} (output : string)
    (expected : list A) (missing : list B) :
  Str.strip output ≠ "" ->
  expected ≠ [] ->
  missing ≠ [] ->
  (PromptTester._score_quality output expected missing
   < PromptTester._score_quality output expected (@nil B))%Q.
Proof.
  intros Hout Hexp Hmiss.
  rewrite !score_unclamped by assumption.
  unfold Spec.raw_score, Spec.score_before_structure.
  pose proof (match_rate_lt_1 expected missing Hexp Hmiss) as Hlt.
  pose proof (match_rate_full (B:=B) expected Hexp) as Hfull.
  destruct expected as [|a expected]; [congruence|].
  rewrite Hfull.
  destruct (50 <=? _)%nat, (200 <=? _)%nat, (PromptTester.has_marker output); lra.
Qed.

Lemma score_strictly_higher_without_missing_witness :
  (PromptTester._score_quality "test output" ["test"; "missing"] ["missing"]
   < PromptTester._score_quality "test output" ["test"; "missing"] (@nil string))%Q.
Proof.
  apply score_strictly_higher_without_missing; discriminate.
Defined.

(** ** The structure bonus *)

Lemma contains_cons (sub : string) (c : ascii) (s : string) :
  Str.contains sub (String c s) = String.prefix sub (String c s) || Str.contains sub s.
Proof. reflexivity. Qed.

Lemma contains_prefix (sub s : string) :
  String.prefix sub s = true -> Str.contains sub s = true.
Proof.
  intros H. destruct s as [|c s].
  - change (Str.contains sub "") with (String.prefix sub "" || false).
    now rewrite H.
  - now rewrite contains_cons, H.
Qed.

Lemma contains_app_r (sub u v : string) :
  Str.contains sub v = true -> Str.contains sub (u +:+ v) = true.
Proof.
  intros H. induction u as [|c u IH]; [exact H|].
  rewrite append_cons, contains_cons, IH. apply orb_true_r.
Qed.

Lemma lines_go_substring (s : string) :
  forall cur line, In line (Str.lines_go cur s) ->
    exists u v, cur +:+ s = u +:+ line +:+ v.
Proof.
  induction s as [|c s IH]; intros cur line Hin.
  - destruct Hin as [<-|[]]. exists "", "". now rewrite append_nil.
  - simpl in Hin. destruct (decide (c = "010"%char)).
    + destruct Hin as [<-|Hin].
      * exists "", (String c s). now rewrite append_nil.
      * apply IH in Hin as (u & v & E). rewrite append_nil in E.
        exists (cur +:+ String c u), v.
        rewrite append_assoc, append_cons, <- E. reflexivity.
    + apply IH in Hin as (u & v & E). exists u, v.
      rewrite <- E, append_assoc. reflexivity.
Qed.

Lemma line_start_has_marker (output : string) :
  Spec.line_starts_with_marker output = true ->
  PromptTester.has_marker output = true.
Proof.
  unfold Spec.line_starts_with_marker, PromptTester.has_marker.
  rewrite !existsb_exists. intros (line & Hline & Hm).
  apply existsb_exists in Hm as (marker & Hin & Hp).
  exists marker. split; [exact Hin|].
  apply (lines_go_substring output "" line) in Hline as (u & v & E).
  rewrite append_nil in E. rewrite E.
  apply contains_app_r, contains_prefix, prefix_app_l, Hp.
Qed.

(** C6 (as amended). For an output with content, the score is the score
    before the structure bonus plus 0.5 exactly when one of the markers
    occurs anywhere in the output, at the start of a line or not, and is the
    score before the bonus otherwise; a line that starts with a marker is one
    way to earn it. *)
Theorem structure_bonus_iff_marker_occurs {A B : Type} (output : string)
    (expected : list A) (missing : list B) :
  Str.strip output ≠ "" ->
  (PromptTester._score_quality output expected missing
   == Spec.score_before_structure output expected missing
      + (if PromptTester.has_marker output then 1 # 2 else 0))%Q
  /\ (PromptTester.has_marker output = true <->
      exists marker, marker ∈ PromptTester.markers
                     /\ Str.contains marker output = true)
  /\ (Spec.line_starts_with_marker output = true ->
      PromptTester.has_marker output = true).
Proof.
  intros Hout. split; [|split].
  - now rewrite score_unclamped.
  - unfold PromptTester.has_marker. rewrite existsb_exists.
    split; intros (marker & Hin & Hc); exists marker;
      (split; [now apply list_elem_of_In | exact Hc]).
  - apply line_start_has_marker.
Qed.

Lemma structure_bonus_iff_marker_occurs_witness :
  (PromptTester._score_quality "a - b" (@nil string) (@nil string)
   == Spec.score_before_structure "a - b" (@nil string) (@nil string) + (1 # 2))%Q.
Proof.
  destruct (structure_bonus_iff_marker_occurs "a - b" (@nil string) (@nil string))
    as (H & _ & _); [discriminate|].
  exact H.
Defined.

(** C6 (as stated) fails: in [a - b] no line starts with a marker, and the
    score includes the bonus. *)
Lemma structure_bonus_without_line_start :
  ¬ Spec.structure_bonus_at_line_start "a - b" (@nil string) (@nil string).
Proof.
  intros [H _].
  assert (E : Spec.line_starts_with_marker "a - b" = true)
    by (apply H; reflexivity).
  discriminate E.
Qed.

(** ** The [result] monad *)

Lemma bind_Ok {A B : Type} (m : result A) (f : A -> result B) (b : B) :
  m ≫= f = Ok b -> exists a, m = Ok a /\ f a = Ok b.
Proof. destruct m as [a|e]; [eauto | discriminate]. Qed.

Lemma bind_Raise {A B : Type} (m : result A) (f : A -> result B) (e : exn) :
  m ≫= f = Raise e -> m = Raise e \/ exists a, m = Ok a /\ f a = Raise e.
Proof. destruct m as [a|e']; [eauto | intros [= ->]; now left]. Qed.

Ltac inv_bind :=
  repeat match goal with
         | H : _ ≫= _ = Ok _ |- _ =>
             let a := fresh "v" in
             let E := fresh "E" in
             apply bind_Ok in H as (a & E & H)
         end.

Lemma get_Ok (obj : pyval) (k : string) (dflt v : pyval) :
  Py.get obj k dflt = Ok v ->
  exists d, obj = PDict d /\ v = default dflt (Py.lookup k d).
Proof. destruct obj; try discriminate. intros [= <-]. eauto. Qed.

Lemma getitem_Ok (obj : pyval) (k : string) (v : pyval) :
  Py.getitem obj k = Ok v ->
  exists d, obj = PDict d /\ Py.lookup k d = Some v.
Proof.
  destruct obj; try discriminate. simpl.
  destruct (Py.lookup k d) eqn:E; [|discriminate]. intros [= <-]. eauto.
Qed.

Lemma typed_Ok {A : Type} (what : string) (decode : pyval -> option A)
    (v : pyval) (a : A) :
  PromptManager.typed what decode v = Ok a -> decode v = Some a.
Proof. unfold PromptManager.typed. destruct (decode v); [congruence | discriminate]. Qed.

Lemma typed_not_raised {A : Type} (what : string) (decode : pyval -> option A)
    (v : pyval) (e : exn) :
  PromptManager.typed what decode v = Raise e -> e = OutsideModel what.
Proof. unfold PromptManager.typed. destruct (decode v); [discriminate | congruence]. Qed.

Lemma as_str_Some (v : pyval) (s : string) :
  PromptManager.as_str v = Some s -> v = PStr s.
Proof. destruct v; try discriminate. now intros [= ->]. Qed.

Lemma as_int_Some (v : pyval) (n : Z) :
  PromptManager.as_int v = Some n -> v = PInt n.
Proof. destruct v; try discriminate. now intros [= ->]. Qed.

(** ** PromptManager: the loader *)

Lemma load_prompt_built_from (path : Path) (data : pyval) (p : Prompt.t) :
  PromptManager._load_prompt path data = Ok p ->
  exists d, data = PDict d /\ Spec.built_from d p.
Proof.
  unfold PromptManager._load_prompt. intros H. inv_bind.
  injection H as <-.
  repeat match goal with
         | H : PromptManager.typed _ _ _ = Ok _ |- _ => apply typed_Ok in H
         | H : PromptManager.as_str _ = Some _ |- _ => apply as_str_Some in H
         | H : PromptManager.as_int _ = Some _ |- _ => apply as_int_Some in H
         end.
  repeat match goal with
         | H : Py.get _ _ _ = Ok _ |- _ =>
             let d := fresh "d" in apply get_Ok in H as (d & ? & ?)
         | H : Py.getitem _ _ = Ok _ |- _ =>
             let d := fresh "d" in apply getitem_Ok in H as (d & ? & ?)
         end.
  subst. repeat match goal with H : PDict _ = PDict _ |- _ => injection H as -> end.
  eexists. split; [reflexivity|]. unfold Spec.built_from. simpl.
  split; [assumption|]. split; [congruence|].
  eexists. split; [eassumption|]. split; congruence.
Qed.

Lemma load_files_sound (files : list (Path * file)) :
  forall cache0 cache name p,
    PromptManager.load_files files cache0 = Some cache ->
    cache !! name = Some p ->
    cache0 !! name = Some p
    \/ exists path data,
         (path, Ok data) ∈ files
         /\ PromptManager._load_prompt path data = Ok p
         /\ Prompt.name p = name.
Proof.
  induction files as [|[path f] files IH]; intros cache0 cache name p H Hp.
  - injection H as <-. now left.
  - simpl in H.
    destruct (f ≫= PromptManager._load_prompt path) as [q|e] eqn:E.
    + destruct (IH _ _ _ _ H Hp) as [H0|(path' & data & Hin & Hl & Hn)].
      * rewrite lookup_insert in H0. case_decide as Hk.
        -- injection H0 as ->. right.
           apply bind_Ok in E as (data & -> & E). exists path, data.
           split; [left | split; assumption].
        -- now left.
      * right. exists path', data. split; [now right | split; assumption].
    + assert (H' : PromptManager.load_files files cache0 = Some cache)
        by (destruct e; first [discriminate H | exact H]).
      destruct (IH _ _ _ _ H' Hp) as [H0|(path' & data & Hin & Hl & Hn)];
        [now left|].
      right. exists path', data. split; [now right | split; assumption].
Qed.

(** C3 (as amended). Every record that the load places into the cache was
    built from one of the files of the directory, a mapping with a [name],
    under which it is cached; it carries the file's [template], or the empty
    string when the file has none, the file's [metadata.recommended_model],
    or "gemini-2.5-flash-lite", and the file's [metadata.expected_tokens], or
    500. So a record whose file leaves the two metadata fields out has a
    non-empty model and a positive token budget; the loader checks none of
    the three properties. *)
Theorem loaded_records_built_from_files
    (prompts_dir : option (list (Path * file)))
    (cache : gmap string Prompt.t) (name : string) (p : Prompt.t) :
  PromptManager._load_all prompts_dir = Some cache ->
  cache !! name = Some p ->
  exists files path d,
    prompts_dir = Some files
    /\ (path, Ok (PDict d)) ∈ files
    /\ Prompt.name p = name
    /\ Spec.built_from d p
    /\ (forall md, default (PDict []) (Py.lookup "metadata" d) = PDict md ->
          (Py.lookup "recommended_model" md = None ->
             PromptMetadata.recommended_model (Prompt.metadata p) ≠ "")
          /\ (Py.lookup "expected_tokens" md = None ->
                (0 < PromptMetadata.expected_tokens (Prompt.metadata p))%Z)).
Proof.
  intros H Hp. destruct prompts_dir as [files|].
  - simpl in H.
    destruct (load_files_sound _ _ _ _ _ H Hp)
      as [H0|(path & data & Hin & Hl & Hn)].
    + rewrite lookup_empty in H0. discriminate.
    + apply load_prompt_built_from in Hl as (d & -> & Hb).
      exists files, path, d.
      split; [reflexivity|]. split; [assumption|]. split; [assumption|].
      split; [assumption|].
      intros md Hmd. destruct Hb as (_ & _ & md' & Hmd' & Hrm & Het).
      rewrite Hmd in Hmd'. injection Hmd' as <-.
      split; intros Hnone; rewrite Hnone in *; simpl in *.
      * injection Hrm as <-. discriminate.
      * injection Het as <-. reflexivity.
  - injection H as <-. rewrite lookup_empty in Hp. discriminate.
Qed.

Lemma loaded_records_built_from_files_witness :
  exists p,
    PromptManager._load_all
      (Some [(Ex.path "broken", Ok PNone); (Ex.path "greeting", Ok Ex.greeting_file)])
    = Some {["greeting" := p]}
    /\ Prompt.template p = "Say {w}"
    /\ PromptMetadata.expected_tokens (Prompt.metadata p) = 500%Z.
Proof.
  eexists. split; [reflexivity|].
  destruct (loaded_records_built_from_files
              (Some [(Ex.path "broken", Ok PNone);
                     (Ex.path "greeting", Ok Ex.greeting_file)])
              _ "greeting" _ eq_refl (lookup_insert_eq _ _ _))
    as (files & path & d & _ & _ & _ & _ & _).
  split; reflexivity.
Defined.

(** C3 (as stated) fails: a file that holds only a name is loaded, and its
    record has the empty template. *)
Lemma loaded_record_with_empty_template :
  ¬ Spec.loaded_records_well_formed
      (Some [(Ex.path "zero", Ok Ex.zero_budget_file);
             (Ex.path "bare", Ok Ex.bare_file)]).
Proof.
  intros H.
  destruct (H _ "bare" _ eq_refl (lookup_insert_eq _ _ _)) as (Ht & _).
  apply Ht. reflexivity.
Qed.

(** ** PromptTester.validate_prompt_format *)

Lemma has_key_true (k : string) (d : list (string * pyval)) :
  Py.has_key k d = true <-> exists v, Py.lookup k d = Some v.
Proof. unfold Py.has_key. now rewrite bool_decide_eq_true. Qed.

Lemma has_key_false (k : string) (d : list (string * pyval)) :
  Py.has_key k d = false <-> Py.lookup k d = None.
Proof.
  unfold Py.has_key. rewrite bool_decide_eq_false, <- eq_None_not_Some. reflexivity.
Qed.

Lemma check_parameters_mappings (ps : list pyval) :
  forall i issues,
    forallb Spec.is_dict ps = true ->
    PromptTester.check_parameters i ps issues =
    Ok (issues ++ map Spec.parameter_issue (Spec.offending_positions i ps)).
Proof.
  induction ps as [|p ps IH]; intros i issues H.
  - simpl. now rewrite app_nil_r.
  - simpl in H. apply andb_true_iff in H as [Hp H].
    destruct p as [| | | | | |pd|]; try discriminate.
    simpl. rewrite IH by assumption.
    destruct (Py.has_key "name" pd); simpl; [reflexivity|].
    now rewrite <- app_assoc.
Qed.

Lemma required_issues_filter (d : list (string * pyval)) :
  flat_map (fun f => if Py.has_key f d then []
                     else ["Missing required field: " +:+ f])
           PromptTester.required_fields
  = map (fun f => "Missing required field: " +:+ f) (Spec.missing_fields d).
Proof.
  unfold Spec.missing_fields, PromptTester.required_fields. simpl.
  rewrite !filter_cons, filter_nil.
  destruct (Py.has_key "name" d), (Py.has_key "template" d),
    (Py.has_key "category" d); reflexivity.
Qed.

Lemma missing_fields_nil (d : list (string * pyval)) :
  Spec.missing_fields d = [] <->
  Py.has_key "name" d = true /\ Py.has_key "template" d = true
  /\ Py.has_key "category" d = true.
Proof.
  unfold Spec.missing_fields, PromptTester.required_fields.
  rewrite !filter_cons, filter_nil.
  destruct (Py.has_key "name" d), (Py.has_key "template" d),
    (Py.has_key "category" d); simpl; split;
    first [discriminate | reflexivity | tauto | (intros (? & ? & ?); discriminate)
          | (repeat split; reflexivity) ].
Qed.

Lemma offending_positions_nil (ps : list pyval) :
  forall i, Spec.offending_positions i ps = [] <->
            (forall p, p ∈ ps -> Spec.lacks_name p = false).
Proof.
  induction ps as [|p ps IH]; intros i; simpl.
  - split; [|reflexivity]. intros _ q Hq. now apply elem_of_nil in Hq.
  - split.
    + intros H q Hq. apply app_eq_nil in H as [Hp H].
      apply elem_of_cons in Hq as [->|Hq].
      * destruct (Spec.lacks_name p); [discriminate | reflexivity].
      * now apply (IH (S i)).
    + intros H. rewrite (H p) by left. simpl. apply IH.
      intros q Hq. apply H. now right.
Qed.

Lemma validate_mapping (d : list (string * pyval)) :
  Spec.template_is_text d = true ->
  Spec.parameters_are_mappings d = true ->
  PromptTester.validate_prompt_format (Ok (PDict d)) = Ok (Spec.expected_issues d).
Proof.
  unfold Spec.template_is_text, Spec.parameters_are_mappings.
  unfold PromptTester.validate_prompt_format, Spec.expected_issues,
    Spec.template_blank, Spec.parameter_entries.
  intros Ht Hp. rewrite required_issues_filter.
  set (missing := map _ (Spec.missing_fields d)).
  unfold Py.has_key. simpl.
  destruct (Py.lookup "template" d) as [[| | | |s| | |]|] eqn:Et; try discriminate;
    destruct (Py.lookup "parameters" d) as [[| | | | |ps| |]|] eqn:Ep;
    try discriminate; simpl.
  - rewrite check_parameters_mappings by assumption.
    destruct (bool_decide (Str.strip s = "")); simpl;
      [now rewrite <- app_assoc | reflexivity].
  - destruct (bool_decide (Str.strip s = "")); simpl;
      [reflexivity | now rewrite !app_nil_r].
  - now rewrite check_parameters_mappings by assumption.
  - now rewrite !app_nil_r.
Qed.

Lemma expected_issues_nil (d : list (string * pyval)) :
  Spec.expected_issues d = [] <-> Spec.valid_record d.
Proof.
  unfold Spec.expected_issues, Spec.valid_record. split.
  - intros H. apply app_eq_nil in H as [Hm H]. apply app_eq_nil in H as [Ht Hp].
    apply map_eq_nil in Hm, Hp.
    apply missing_fields_nil in Hm as (? & ? & ?).
    pose proof (proj1 (offending_positions_nil _ _) Hp) as Hp'.
    repeat split; try assumption.
    destruct (Spec.template_blank d); [discriminate | reflexivity].
  - intros (Hn & Ht & Hc & Hb & Hp).
    assert (Hm : Spec.missing_fields d = []) by (apply missing_fields_nil; auto).
    pose proof (proj2 (offending_positions_nil _ 0) Hp) as Hp'.
    now rewrite Hm, Hb, Hp'.
Qed.

(** C9 (as amended). An input that does not parse, or whose top level is no
    mapping, yields one issue at once. For a top-level mapping whose
    template, when present, is a string and whose parameters, when present,
    are a list of mappings, [validate_prompt_format] returns the issues in
    check order: one per missing required field, one for a template without
    content, one per parameter entry without a name, with its position; the
    list is empty exactly when name, template and category are present, the
    template has content and every parameter entry includes a name. *)
Theorem validate_prompt_format_issues (f : file) :
  (forall e, f = Raise e ->
     PromptTester.validate_prompt_format f = Ok ["Invalid YAML: " +:+ str_exn e])
  /\ (forall data, f = Ok data -> Spec.is_dict data = false ->
        PromptTester.validate_prompt_format f = Ok ["Root element must be a mapping"])
  /\ (forall d, f = Ok (PDict d) ->
        Spec.template_is_text d = true ->
        Spec.parameters_are_mappings d = true ->
        PromptTester.validate_prompt_format f = Ok (Spec.expected_issues d)
        /\ (Spec.expected_issues d = [] <-> Spec.valid_record d)).
Proof.
  split; [|split].
  - intros e ->. reflexivity.
  - intros data -> H. destruct data; first [reflexivity | discriminate H].
  - intros d -> Ht Hp. split; [now apply validate_mapping | apply expected_issues_nil].
Qed.

Lemma validate_prompt_format_issues_witness :
  PromptTester.validate_prompt_format (Raise (LibraryError "mapping values are not allowed here"))
    = Ok ["Invalid YAML: mapping values are not allowed here"]
  /\ PromptTester.validate_prompt_format (Ok (PList [])) = Ok ["Root element must be a mapping"]
  /\ PromptTester.validate_prompt_format (Ok Ex.flawed_file)
     = Ok ["Missing required field: name"; "Missing required field: category";
           "Template is empty"; "Parameter 1 missing 'name'";
           "Parameter 2 missing 'name'"]
  /\ PromptTester.validate_prompt_format (Ok Ex.greeting_file) = Ok [].
Proof.
  split; [|split; [|split]].
  - destruct (validate_prompt_format_issues
                (Raise (LibraryError "mapping values are not allowed here")))
      as (H & _ & _).
    now rewrite (H _ eq_refl).
  - destruct (validate_prompt_format_issues (Ok (PList []))) as (_ & H & _).
    now rewrite (H _ eq_refl eq_refl).
  - destruct (validate_prompt_format_issues (Ok Ex.flawed_file)) as (_ & _ & H).
    destruct (H _ eq_refl eq_refl eq_refl) as [-> _]. reflexivity.
  - destruct (validate_prompt_format_issues (Ok Ex.greeting_file)) as (_ & _ & H).
    destruct (H _ eq_refl eq_refl eq_refl) as [-> _]. reflexivity.
Defined.

(** C9 (as stated) fails: for a file whose parameters are listed as the bare
    string [document_name], the validator returns no issue, since the text
    "name" occurs in that string, though the entry includes no name field. *)
Lemma validate_accepts_bare_parameter :
  ¬ Spec.validator_decides (Ok Ex.bare_parameters_file).
Proof.
  intros (issues & Hv & Hiff). injection Hv as <-.
  destruct (proj1 Hiff eq_refl) as (d & [= <-] & (_ & _ & _ & _ & Hp)).
  specialize (Hp (PStr "document_name")).
  assert (E : Spec.lacks_name (PStr "document_name") = false)
    by (apply Hp; unfold Spec.parameter_entries; simpl; left).
  discriminate E.
Qed.

(** C10 (as amended). [validate_prompt_format] returns a list only when the
    template field, if the top-level mapping has one, is a value with a
    [strip] method, a string or binary data; for every other template value
    the call to [strip] raises an [AttributeError] that reaches the caller,
    and no issue is reported: so for a mapping whose template is the number
    42. *)
Theorem validate_needs_text_template :
  (forall d issues,
     PromptTester.validate_prompt_format (Ok (PDict d)) = Ok issues ->
     forall v, Py.lookup "template" d = Some v -> Spec.has_strip v = true)
  /\ (forall d v,
        Py.lookup "template" d = Some v ->
        Spec.has_strip v = false ->
        PromptTester.validate_prompt_format (Ok (PDict d))
        = Raise (Py.no_attribute v "strip"))
  /\ PromptTester.validate_prompt_format (Ok Ex.numeric_template_file)
     = Raise (AttributeError "'int' object has no attribute 'strip'").
Proof.
  assert (Hraise : forall d v,
            Py.lookup "template" d = Some v ->
            Spec.has_strip v = false ->
            PromptTester.validate_prompt_format (Ok (PDict d))
            = Raise (Py.no_attribute v "strip")).
  { intros d v Hv Hs. unfold PromptTester.validate_prompt_format.
    assert (Hk : Py.has_key "template" d = true) by (apply has_key_true; eauto).
    rewrite Hk. simpl. rewrite Hv. simpl.
    destruct v; first [discriminate Hs | reflexivity]. }
  split; [|split; [exact Hraise | reflexivity]].
  intros d issues H v Hv.
  destruct (Spec.has_strip v) eqn:Hs; [reflexivity|].
  rewrite (Hraise d v Hv Hs) in H. discriminate H.
Qed.

Lemma validate_needs_text_template_witness :
  Spec.has_strip (PStr "Say {w}") = true
  /\ PromptTester.validate_prompt_format
       (Ok (PDict [("name", PStr "listing"); ("template", PList [PStr "Say {w}"])]))
     = Raise (AttributeError "'list' object has no attribute 'strip'").
Proof.
  destruct validate_needs_text_template as (H1 & H2 & _). split.
  - apply (H1 [("name", PStr "greeting"); ("category", PStr "content_creation");
               ("template", PStr "Say {w}")] [] eq_refl (PStr "Say {w}") eq_refl).
  - apply (H2 [("name", PStr "listing"); ("template", PList [PStr "Say {w}"])]
              (PList [PStr "Say {w}"]) eq_refl eq_refl).
Defined.

(** C10 (as stated) fails: for a file whose template is a binary scalar,
    which the parser reads as [bytes], [strip] succeeds and the validator
    returns a list, here the empty one, though the template is no string. *)
Lemma validate_accepts_binary_template :
  PromptTester.validate_prompt_format (Ok Ex.binary_template_file) = Ok []
  /\ ¬ Spec.list_only_for_text_template.
Proof.
  split; [reflexivity|]. intros H.
  destruct (H [("name", PStr "blob"); ("category", PStr "analysis");
               ("template", PBytes [Byte.x48; Byte.x69])] [] eq_refl
              _ eq_refl) as [s Hs].
  discriminate Hs.
Qed.

(** ** PromptTester.test_prompt and test_batch *)

Lemma test_prompt_unprepared (svc : genai.Service) (self : PromptTester.t)
    (path : Path) (f : file) (test_input : option (list (string * string)))
    (model : option string) (e : exn) :
  (f ≫= fun data => PromptTester.prepare path data test_input model) = Raise e ->
  PromptTester.test_prompt svc self path f test_input model = (Raise e, self, []).
Proof. intros H. unfold PromptTester.test_prompt. now rewrite H. Qed.

Lemma test_prompt_prepared (svc : genai.Service) (self : PromptTester.t)
    (path : Path) (f : file) (test_input : option (list (string * string)))
    (model : option string) (prep : PromptTester.Prepared) :
  (f ≫= fun data => PromptTester.prepare path data test_input model) = Ok prep ->
  PromptTester.test_prompt svc self path f test_input model =
  (Ok match (PromptTester.try_block svc self prep).1.1 with
      | Ok r => r
      | Raise e => PromptTester.on_exception prep e
      end,
   (PromptTester.try_block svc self prep).1.2,
   (PromptTester.try_block svc self prep).2).
Proof.
  intros H. unfold PromptTester.test_prompt. rewrite H.
  destruct (PromptTester.try_block svc self prep) as [[[r|e] self'] calls];
    reflexivity.
Qed.

Lemma run_batch_completes (svc : genai.Service) (model : option string)
    (files : list (Path * file)) :
  (forall path f, (path, f) ∈ files ->
     returns (f ≫= fun data => PromptTester.prepare path data None model)) ->
  forall self, exists results self' calls,
    PromptTester.run_batch svc self files model = (Ok results, self', calls)
    /\ length results = length files.
Proof.
  induction files as [|[path f] files IH]; intros H self.
  - exists [], self, []. split; reflexivity.
  - destruct (H path f) as [prep Hprep]; [left|].
    simpl. rewrite (test_prompt_prepared _ _ _ _ _ _ _ Hprep).
    destruct (IH (fun p' f' Hin => H p' f' (list_elem_of_further _ _ _ Hin))
                 (PromptTester.try_block svc self prep).1.2)
      as (results & self' & calls & -> & Hlen).
    eexists _, _, _. split; [reflexivity|]. simpl. now rewrite Hlen.
Qed.

Lemma prepare_Ok (path : Path) (data : pyval)
    (test_input : option (list (string * string))) (model : option string)
    (prep : PromptTester.Prepared) :
  PromptTester.prepare path data test_input model = Ok prep ->
  exists template examples md,
    Py.get data "template" (PStr "") = Ok template
    /\ Py.get data "examples" (PList []) = Ok examples
    /\ PromptTester.metadata prep = PDict md
    /\ PromptTester.resolve_input test_input examples
       = Ok (PromptTester.input_data prep)
    /\ PromptTester.resolve_expected test_input examples
       = Ok (PromptTester.expected_contains prep)
    /\ (Py.items (PromptTester.input_data prep)
          ≫= fun items => PromptTester.substitute items template)
       = Ok (PromptTester.rendered prep).
Proof.
  unfold PromptTester.prepare. intros H. inv_bind. injection H as <-. simpl.
  match goal with
  | H : Py.get ?m "temperature" _ = Ok _ |- _ =>
      apply get_Ok in H as (md & -> & _)
  end.
  eexists _, _, md. repeat split; try eassumption.
  match goal with
  | H1 : Py.items _ = Ok _, H2 : PromptTester.substitute _ _ = Ok _ |- _ =>
      now rewrite H1
  end.
Qed.

Lemma try_block_calls (svc : genai.Service) (self : PromptTester.t)
    (prep : PromptTester.Prepared) :
  forall req, req ∈ (PromptTester.try_block svc self prep).2 ->
              genai.contents req = PromptTester.rendered prep.
Proof.
  intros req. unfold PromptTester.try_block.
  destruct (PromptTester._get_client svc self) as [[client|e] self'];
    [|intros []%elem_of_nil].
  destruct (Py.get _ _ _); [|intros []%elem_of_nil].
  simpl. intros [->|[]%elem_of_nil]%elem_of_cons. reflexivity.
Qed.

Lemma try_block_Ok (svc : genai.Service) (self : PromptTester.t)
    (prep : PromptTester.Prepared) (r : TestResult.t) :
  (PromptTester.try_block svc self prep).1.1 = Ok r ->
  TestResult.test_input r = PromptTester.input_data prep
  /\ TestResult.expected_contains r = PromptTester.expected_contains prep
  /\ TestResult.error r = None
  /\ exists kws output,
       Py.iter (PromptTester.expected_contains prep) = Ok kws
       /\ PromptTester.missing_of kws output = Ok (TestResult.missing_keywords r).
Proof.
  unfold PromptTester.try_block.
  destruct (PromptTester._get_client svc self) as [[client|e] self'];
    [|discriminate].
  destruct (Py.get _ _ _); [|discriminate].
  simpl. intros H. apply bind_Ok in H as (response & _ & H).
  unfold PromptTester.on_response in H. inv_bind. injection H as <-. simpl.
  repeat split. eauto.
Qed.

(** C2 (as amended). Once [test_prompt] has read, parsed and prepared the
    record, every error of the [try] block (the credential check, the
    construction of the client, the call of the service, the scoring) comes
    back in-band: a [TestResult] with score 0, latency 0, token count 0,
    [passed = false] and the description of the failure in its error field;
    in particular a service whose call fails yields such a result. An error
    of the read, of the parser or of the preparation is raised to the
    caller. A batch run over a directory all of whose files can be prepared
    completes with one result per file. *)
Theorem call_errors_captured_in_band (svc : genai.Service)
    (self : PromptTester.t) (model : option string) :
  (forall path f test_input,
     (forall e,
        (f ≫= fun data => PromptTester.prepare path data test_input model) = Raise e ->
        PromptTester.test_prompt svc self path f test_input model = (Raise e, self, []))
     /\ (forall prep,
           (f ≫= fun data => PromptTester.prepare path data test_input model) = Ok prep ->
           (exists r self' calls,
              PromptTester.test_prompt svc self path f test_input model
                = (Ok r, self', calls)
              /\ (forall e,
                    (PromptTester.try_block svc self prep).1.1 = Raise e ->
                    r = PromptTester.on_exception prep e
                    /\ TestResult.quality_score r = 0%Q
                    /\ TestResult.latency_ms r = 0%Q
                    /\ TestResult.token_count r = 0
                    /\ TestResult.passed r = false
                    /\ TestResult.error r = Some (str_exn e)))
           /\ (forall client self1 e,
                 PromptTester._get_client svc self = (Ok client, self1) ->
                 (forall req, genai.generate_content svc client req = Raise e) ->
                 exists req,
                   PromptTester.test_prompt svc self path f test_input model
                     = (Ok (PromptTester.on_exception prep e), self1, [req]))))
  /\ (forall prompts_dir,
        (forall path f, (path, f) ∈ prompts_dir ->
           returns (f ≫= fun data => PromptTester.prepare path data None model)) ->
        exists batch self' calls,
          PromptTester.test_batch svc self prompts_dir model = (Ok batch, self', calls)
          /\ BatchTestResult.total batch = length prompts_dir
          /\ length (BatchTestResult.results batch) = length prompts_dir).
Proof.
  split.
  - intros path f test_input. split; [apply test_prompt_unprepared|].
    intros prep Hprep. split.
    + eexists _, _, _.
      split; [exact (test_prompt_prepared _ _ _ _ _ _ _ Hprep)|].
      intros e ->. repeat split.
    + intros client self1 e Hc Hg.
      rewrite (test_prompt_prepared _ _ _ _ _ _ _ Hprep).
      apply bind_Ok in Hprep as (data & _ & Hprep).
      apply prepare_Ok in Hprep as (_ & _ & md & _ & _ & Hmd & _).
      unfold PromptTester.try_block. rewrite Hc, Hmd. simpl. rewrite Hg. simpl.
      eexists. reflexivity.
  - intros files H.
    destruct (run_batch_completes svc model files H self)
      as (results & self' & calls & E & Hlen).
    unfold PromptTester.test_batch. rewrite E.
    eexists _, _, _. split; [reflexivity|]. split; exact Hlen.
Qed.

Lemma call_errors_captured_in_band_witness :
  (exists r self' calls,
     PromptTester.test_prompt Ex.failing_service Ex.tester (Ex.path "greeting")
       (Ok Ex.greeting_file) None None = (Ok r, self', calls)
     /\ TestResult.error r = Some "429 RESOURCE_EXHAUSTED"
     /\ TestResult.passed r = false)
  /\ PromptTester.test_prompt Ex.service Ex.tester (Ex.path "empty") (Ok PNone) None None
     = (Raise (AttributeError "'NoneType' object has no attribute 'get'"), Ex.tester, [])
  /\ exists batch self' calls,
       PromptTester.test_batch Ex.failing_service Ex.tester
         [(Ex.path "greeting", Ok Ex.greeting_file)] None = (Ok batch, self', calls)
       /\ BatchTestResult.total batch = 1.
Proof.
  destruct (call_errors_captured_in_band Ex.failing_service Ex.tester None)
    as [H1 H2].
  destruct (call_errors_captured_in_band Ex.service Ex.tester None) as [H3 _].
  split; [|split].
  - destruct (H1 (Ex.path "greeting") (Ok Ex.greeting_file) None) as [_ H].
    destruct (H _ eq_refl) as [_ Hs].
    destruct (Hs _ _ (LibraryError "429 RESOURCE_EXHAUSTED") eq_refl
                 (fun _ => eq_refl)) as [req ->].
    eexists _, _, _. repeat split.
  - destruct (H3 (Ex.path "empty") (Ok PNone) None) as [H _].
    now apply H.
  - destruct (H2 [(Ex.path "greeting", Ok Ex.greeting_file)])
      as (batch & self' & calls & E & Ht & _).
    + intros path f [[= -> ->]|[]%elem_of_nil]%elem_of_cons.
      eexists. reflexivity.
    + exists batch, self', calls. split; [exact E | exact Ht].
Defined.

(** C2 (as stated) fails: an empty file, which the parser reads as [None],
    makes [test_prompt] raise to its caller, and the batch run over the
    directory that holds it is aborted. *)
Lemma test_prompt_raises_on_empty_file :
  ¬ Spec.errors_captured_in_band Ex.service Ex.tester Ex.directory None.
Proof.
  intros [H _].
  destruct (H (Ex.path "empty") (Ok PNone) None) as [r Hr].
  - right. left.
  - discriminate Hr.
Qed.

(** C8 (as amended). Without a credential (no [api_key] argument and no
    environment credential, or empty ones), [_get_client] raises the
    configuration error, whatever the service. [test_prompt] calls it inside
    its [try] block: when the record file can be read, parsed and prepared,
    the error is caught and the caller of the test operation gets a failed
    [TestResult] whose error field is the message; when the read, the parse
    or the preparation raises, that earlier error reaches the caller
    instead. In both cases no request has been sent and the tester is as it
    was. *)
Theorem missing_credential_captured (svc : genai.Service)
    (api_key environ : option string) (path : Path) (f : file)
    (test_input : option (list (string * string))) (model : option string) :
  PromptTester.nonempty api_key = false ->
  PromptTester.nonempty environ = false ->
  let self := PromptTester.__init__ api_key environ in
  PromptTester._get_client svc self
    = (Raise (ValueError PromptTester.key_not_set), self)
  /\ (forall prep,
        (f ≫= fun data => PromptTester.prepare path data test_input model) = Ok prep ->
        exists r,
          PromptTester.test_prompt svc self path f test_input model = (Ok r, self, [])
          /\ r = PromptTester.on_exception prep (ValueError PromptTester.key_not_set)
          /\ TestResult.error r = Some PromptTester.key_not_set
          /\ TestResult.passed r = false
          /\ TestResult.quality_score r = 0%Q)
  /\ (forall e,
        (f ≫= fun data => PromptTester.prepare path data test_input model) = Raise e ->
        PromptTester.test_prompt svc self path f test_input model = (Raise e, self, []))
  /\ (PromptTester.test_prompt svc self path f test_input model).2 = []
  /\ (PromptTester.test_prompt svc self path f test_input model).1.2 = self.
Proof.
  intros Hk He self.
  assert (Hc : PromptTester._get_client svc self
               = (Raise (ValueError PromptTester.key_not_set), self)).
  { unfold self, PromptTester.__init__, PromptTester._get_client. rewrite Hk. simpl.
    destruct environ as [key|]; [|reflexivity].
    simpl in He. apply negb_false_iff in He. now rewrite He. }
  assert (Hprepared : forall prep,
            (f ≫= fun data => PromptTester.prepare path data test_input model)
              = Ok prep ->
            PromptTester.test_prompt svc self path f test_input model
            = (Ok (PromptTester.on_exception prep
                     (ValueError PromptTester.key_not_set)), self, [])).
  { intros prep Hprep. rewrite (test_prompt_prepared _ _ _ _ _ _ _ Hprep).
    unfold PromptTester.try_block. now rewrite Hc. }
  split; [exact Hc|]. split; [|split; [apply test_prompt_unprepared|]].
  - intros prep Hprep. eexists. split; [exact (Hprepared prep Hprep)|].
    repeat split.
  - destruct (f ≫= fun data => PromptTester.prepare path data test_input model)
      as [prep|e] eqn:Hprep.
    + rewrite (Hprepared prep eq_refl). now split.
    + rewrite (test_prompt_unprepared _ _ _ _ _ _ e Hprep). now split.
Qed.

Lemma missing_credential_captured_witness :
  (exists r,
     PromptTester.test_prompt Ex.service (PromptTester.__init__ None (Some ""))
       (Ex.path "greeting") (Ok Ex.greeting_file) None None
       = (Ok r, PromptTester.__init__ None (Some ""), [])
     /\ TestResult.error r = Some PromptTester.key_not_set)
  /\ PromptTester.test_prompt Ex.service (PromptTester.__init__ None None)
       (Ex.path "empty") (Ok PNone) None None
     = (Raise (AttributeError "'NoneType' object has no attribute 'get'"),
        PromptTester.__init__ None None, []).
Proof.
  split.
  - destruct (missing_credential_captured Ex.service None (Some "")
                (Ex.path "greeting") (Ok Ex.greeting_file) None None
                eq_refl eq_refl) as (_ & H & _).
    destruct (H _ eq_refl) as (r & Hr & _ & Herr & _).
    exists r. split; [exact Hr | exact Herr].
  - destruct (missing_credential_captured Ex.service None None
                (Ex.path "empty") (Ok PNone) None None
                eq_refl eq_refl) as (_ & _ & H & _).
    now apply H.
Defined.

(** C8 (as stated) fails: without a credential, [test_prompt] returns a
    result to its caller and raises nothing. *)
Lemma missing_credential_not_raised :
  ¬ Spec.missing_credential_raises Ex.service (Ex.path "greeting")
      (Ok Ex.greeting_file) None None.
Proof. intros [e He]. discriminate He. Qed.

Lemma test_prompt_Ok (svc : genai.Service) (self : PromptTester.t)
    (path : Path) (data : pyval) (test_input : option (list (string * string)))
    (model : option string) (r : TestResult.t) (self' : PromptTester.t)
    (calls : list genai.Request) :
  PromptTester.test_prompt svc self path (Ok data) test_input model
    = (Ok r, self', calls) ->
  exists prep,
    PromptTester.prepare path data test_input model = Ok prep
    /\ calls = (PromptTester.try_block svc self prep).2
    /\ TestResult.test_input r = PromptTester.input_data prep
    /\ (TestResult.error r = None ->
        TestResult.expected_contains r = PromptTester.expected_contains prep)
    /\ (PromptTester.expected_contains prep = PList [] ->
        TestResult.expected_contains r = PList []
        /\ TestResult.missing_keywords r = []).
Proof.
  intros H.
  destruct (PromptTester.prepare path data test_input model) as [prep|e] eqn:Hprep.
  - rewrite (test_prompt_prepared svc self path (Ok data) test_input model
               prep Hprep) in H.
    injection H as <- _ <-. exists prep.
    split; [reflexivity|]. split; [reflexivity|].
    destruct ((PromptTester.try_block svc self prep).1.1) as [r|e] eqn:Hr.
    + apply try_block_Ok in Hr as (Hi & He & _ & kws & output & Hk & Hm).
      split; [exact Hi|]. split; [now intros _|].
      intros Hnil. rewrite Hnil in *. split; [exact He|].
      injection Hk as <-. now injection Hm as <-.
    + simpl. split; [reflexivity|]. split; [discriminate|]. now intros _.
  - rewrite (test_prompt_unprepared svc self path (Ok data) test_input model
               e Hprep) in H.
    discriminate H.
Qed.

Lemma substitute_text (items : list (string * pyval)) :
  forallb (fun kv => Spec.is_text kv.2) items = true ->
  forall t, exists t', PromptTester.substitute items (PStr t) = Ok (PStr t').
Proof.
  induction items as [|[key value] items IH]; intros H t; [now exists t|].
  simpl in H. apply andb_true_iff in H as [Hv H].
  destruct value; try discriminate. simpl. apply IH, H.
Qed.

Lemma dict_of_text (input : list (string * string)) :
  forallb (fun kv => Spec.is_text kv.2)
          (map (fun kv => (kv.1, PStr kv.2)) input) = true.
Proof. induction input as [|kv input IH]; [reflexivity | exact IH]. Qed.

Lemma prepare_returns (path : Path) (d : list (string * pyval))
    (test_input : option (list (string * string))) (model : option string) :
  Spec.template_is_text d = true ->
  Spec.metadata_is_mapping d = true ->
  (PromptTester.supplied test_input = true
   \/ default (PList []) (Py.lookup "examples" d) = PList []
   \/ exists ex rest,
        default (PList []) (Py.lookup "examples" d) = PList (ex :: rest)
        /\ Spec.usable_example ex = true) ->
  returns (PromptTester.prepare path (PDict d) test_input model).
Proof.
  unfold Spec.template_is_text, Spec.metadata_is_mapping. intros Ht Hm Hcase.
  assert (Htext : exists t, default (PStr "") (Py.lookup "template" d) = PStr t).
  { destruct (Py.lookup "template" d) as [[| | | |t| | |]|];
      try discriminate; simpl; eauto. }
  assert (Hmeta : exists md, default (PDict []) (Py.lookup "metadata" d) = PDict md).
  { destruct (Py.lookup "metadata" d) as [[| | | | | |md|]|];
      try discriminate; simpl; eauto. }
  destruct Htext as [t Et], Hmeta as [md Em].
  assert (Hin : exists items,
            PromptTester.resolve_input test_input
              (default (PList []) (Py.lookup "examples" d)) = Ok (PDict items)
            /\ forallb (fun kv => Spec.is_text kv.2) items = true
            /\ returns (PromptTester.resolve_expected test_input
                          (default (PList []) (Py.lookup "examples" d)))).
  { unfold PromptTester.resolve_input, PromptTester.resolve_expected.
    destruct (PromptTester.supplied test_input) eqn:Hs.
    - eexists. split; [reflexivity|]. split; [apply dict_of_text|].
      rewrite andb_false_r. now eexists.
    - destruct Hcase as [Hc|[Hc|(ex & rest & Hc & Hu)]]; [discriminate| |];
        rewrite Hc; simpl.
      + exists []. repeat split. now eexists.
      + destruct ex as [| | | | | |exd|]; try discriminate. simpl in *.
        destruct (Py.lookup "input" exd) as [[| | | | | |items|]|];
          try discriminate; simpl.
        * exists items. repeat split; [exact Hu | now eexists].
        * exists []. repeat split. now eexists. }
  destruct Hin as (items & Hri & Hitems & [expected Hre]).
  destruct (substitute_text items Hitems t) as [t' Hsub].
  unfold PromptTester.prepare. simpl. rewrite Et, Em, Hri, Hre. simpl.
  rewrite Hsub. destruct (PromptTester.nonempty model); simpl; now eexists.
Qed.

(** C7 (as amended). When a non-empty explicit test input is supplied,
    [test_prompt] uses it as the input set and takes no expected keyword
    from the examples. When none is supplied, or the supplied mapping is
    empty, and the record has at least one example, the input and the
    [expected_output_contains] list of the first example are used. When
    there is neither, the input set is empty and no keyword is expected. The
    text of every request is the template with the resolved input set
    substituted. And [test_prompt] does return a result for a record whose
    template is text and whose metadata is a mapping, when the input is
    supplied, when there is no example, and when the first example is a
    mapping with an input of strings. *)
Theorem test_prompt_resolves_inputs (svc : genai.Service)
    (self : PromptTester.t) (path : Path) (data : pyval)
    (test_input : option (list (string * string))) (model : option string) :
  (forall r self' calls,
     PromptTester.test_prompt svc self path (Ok data) test_input model
       = (Ok r, self', calls) ->
     exists template examples,
       Py.get data "template" (PStr "") = Ok template
       /\ Py.get data "examples" (PList []) = Ok examples
       /\ (PromptTester.supplied test_input = true ->
           TestResult.test_input r = PromptTester.dict_of (default [] test_input)
           /\ TestResult.expected_contains r = PList []
           /\ TestResult.missing_keywords r = [])
       /\ (PromptTester.supplied test_input = false ->
           forall ex rest, examples = PList (ex :: rest) ->
             Py.get ex "input" (PDict []) = Ok (TestResult.test_input r)
             /\ (TestResult.error r = None ->
                 Py.get ex "expected_output_contains" (PList [])
                   = Ok (TestResult.expected_contains r)))
       /\ (PromptTester.supplied test_input = false ->
           examples = PList [] ->
           TestResult.test_input r = PDict []
           /\ TestResult.expected_contains r = PList []
           /\ TestResult.missing_keywords r = [])
       /\ (forall req, req ∈ calls ->
             exists items,
               Py.items (TestResult.test_input r) = Ok items
               /\ PromptTester.substitute items template = Ok (genai.contents req)))
  /\ (forall d,
        data = PDict d ->
        Spec.template_is_text d = true ->
        Spec.metadata_is_mapping d = true ->
        (PromptTester.supplied test_input = true
         \/ default (PList []) (Py.lookup "examples" d) = PList []
         \/ exists ex rest,
              default (PList []) (Py.lookup "examples" d) = PList (ex :: rest)
              /\ Spec.usable_example ex = true) ->
        exists r self' calls,
          PromptTester.test_prompt svc self path (Ok data) test_input model
            = (Ok r, self', calls)).
Proof.
  split.
  - intros r self' calls H.
    apply test_prompt_Ok in H as (prep & Hprep & -> & Hin & Hexp & Hnil).
    apply prepare_Ok in Hprep
      as (template & examples & md & Ht & Hex & _ & Hri & Hre & Hsub).
    exists template, examples. split; [exact Ht|]. split; [exact Hex|].
    unfold PromptTester.resolve_input, PromptTester.resolve_expected in *.
    rewrite Hin. split; [|split; [|split]].
    + intros Hs. rewrite Hs, andb_false_r in *.
      injection Hri as <-. injection Hre as Hre. split; [reflexivity|].
      apply Hnil. now symmetry.
    + intros Hs ex rest ->. rewrite Hs in *. simpl in Hri, Hre.
      split; [exact Hri|]. intros He. rewrite (Hexp He). exact Hre.
    + intros Hs ->. rewrite Hs in *. simpl in Hri, Hre.
      injection Hri as <-. injection Hre as Hre. split; [reflexivity|].
      apply Hnil. now symmetry.
    + intros req Hreq. apply try_block_calls in Hreq. rewrite Hreq.
      apply bind_Ok in Hsub as (items & Hi & Hs). eauto.
  - intros d -> Ht Hm Hcase.
    destruct (prepare_returns path d test_input model Ht Hm Hcase) as [prep Hprep].
    eexists _, _, _.
    exact (test_prompt_prepared svc self path (Ok (PDict d)) test_input model
             prep Hprep).
Qed.

Lemma test_prompt_resolves_inputs_witness :
  exists r self' calls,
    PromptTester.test_prompt Ex.service Ex.tester (Ex.path "greeting")
      (Ok Ex.greeting_file) (Some [("w", "goodbye")]) None = (Ok r, self', calls)
    /\ TestResult.test_input r = PDict [("w", PStr "goodbye")]
    /\ TestResult.expected_contains r = PList []
    /\ TestResult.missing_keywords r = [].
Proof.
  destruct (test_prompt_resolves_inputs Ex.service Ex.tester (Ex.path "greeting")
              Ex.greeting_file (Some [("w", "goodbye")]) None) as [H1 H2].
  destruct (H2 _ eq_refl eq_refl eq_refl (or_introl eq_refl))
    as (r & self' & calls & E).
  exists r, self', calls. split; [exact E|].
  destruct (H1 r self' calls E) as (template & examples & _ & _ & H & _).
  apply H. reflexivity.
Defined.

(** C7 (as stated) fails for the empty mapping: supplied explicitly, it is
    not used as the input set; the result carries the input of the first
    example and inherits its expected keywords. *)
Lemma empty_test_input_not_used :
  ¬ Spec.explicit_input_used Ex.service Ex.tester (Ex.path "greeting")
      (Ok Ex.greeting_file) [] None.
Proof.
  intros H. destruct (H _ _ _ eq_refl) as [Hi _]. discriminate Hi.
Qed.

(* ===================================================================== *)
(** * Further properties of the code                                      *)
(* ===================================================================== *)

(** ** The stable sort *)

Section SortingProofs.
Context {A : Type} (le : A -> A -> bool).
Hypothesis le_total : forall x y, le x y = true \/ le y x = true.

Lemma insert_Permutation (x : A) (l : list A) :
  Sorting.insert le x l ≡ₚ x :: l.
Proof.
  induction l as [|y l IH]; simpl; [reflexivity|].
  destruct (le x y); [reflexivity|].
  rewrite IH. apply Permutation_swap.
Qed.

Lemma sorted_cons (x : A) (l : list A) :
  Sorting.sorted le (x :: l) = Sorting.insert le x (Sorting.sorted le l).
Proof. reflexivity. Qed.

Lemma sorted_Permutation (l : list A) : Sorting.sorted le l ≡ₚ l.
Proof.
  induction l as [|x l IH]; [reflexivity|].
  now rewrite sorted_cons, insert_Permutation, IH.
Qed.

Lemma insert_HdRel (a x : A) (l : list A) :
  le a x = true ->
  HdRel (fun u v => le u v = true) a l ->
  HdRel (fun u v => le u v = true) a (Sorting.insert le x l).
Proof.
  intros Hax Hl. destruct l as [|y l]; simpl; [now constructor|].
  destruct (le x y); constructor; [assumption|]. now inversion Hl.
Qed.

Lemma insert_Sorted (x : A) (l : list A) :
  Sorted (fun u v => le u v = true) l ->
  Sorted (fun u v => le u v = true) (Sorting.insert le x l).
Proof.
  induction 1 as [|y l Hs IH Hhd]; simpl; [repeat constructor|].
  destruct (le x y) eqn:E.
  - constructor; [now constructor | now constructor].
  - constructor; [exact IH|]. apply insert_HdRel; [|exact Hhd].
    destruct (le_total x y); congruence.
Qed.

Lemma sorted_Sorted (l : list A) :
  Sorted (fun u v => le u v = true) (Sorting.sorted le l).
Proof.
  induction l as [|x l IH]; [constructor|].
  rewrite sorted_cons. now apply insert_Sorted.
Qed.

(** The sort is stable: it leaves a sorted list as it is. *)
Lemma insert_below (x : A) (l : list A) :
  HdRel (fun u v => le u v = true) x l -> Sorting.insert le x l = x :: l.
Proof. destruct 1 as [|y l H]; simpl; [reflexivity | now rewrite H]. Qed.

Lemma sorted_of_Sorted (l : list A) :
  Sorted (fun u v => le u v = true) l -> Sorting.sorted le l = l.
Proof.
  induction 1 as [|x l Hs IH Hhd]; [reflexivity|].
  rewrite sorted_cons, IH. now apply insert_below.
Qed.
End SortingProofs.

(** ** The cache as an ordered dict *)

Lemma dict_get_set_eq {V : Type} (k : string) (v : V) (d : list (string * V)) :
  Library.dict_get k (Library.dict_set k v d) = Some v.
Proof.
  induction d as [|[k' v'] d IH]; simpl.
  - destruct (decide (k = k)); congruence.
  - destruct (decide (k' = k)) as [->|Hne]; simpl.
    + destruct (decide (k = k)); congruence.
    + destruct (decide (k' = k)); [contradiction | exact IH].
Qed.

Lemma dict_get_set_ne {V : Type} (k k' : string) (v : V) (d : list (string * V)) :
  k ≠ k' ->
  Library.dict_get k' (Library.dict_set k v d) = Library.dict_get k' d.
Proof.
  intros Hne. induction d as [|[k0 v0] d IH]; simpl.
  - destruct (decide (k = k')); [contradiction | reflexivity].
  - destruct (decide (k0 = k)) as [->|Hk]; simpl.
    + destruct (decide (k = k')); [contradiction | reflexivity].
    + destruct (decide (k0 = k')); [reflexivity | exact IH].
Qed.

Lemma dict_get_list_to_map {V : Type} (k : string) (d : list (string * V)) :
  Library.dict_get k d = (list_to_map d : gmap string V) !! k.
Proof.
  induction d as [|[k' v] d IH]; simpl; [now rewrite lookup_empty|].
  rewrite lookup_insert. destruct (decide (k' = k)); [reflexivity | exact IH].
Qed.

Lemma list_to_map_dict_set {V : Type} (k : string) (v : V) (d : list (string * V)) :
  (list_to_map (Library.dict_set k v d) : gmap string V)
  = <[k := v]> (list_to_map d).
Proof.
  apply map_eq. intros k'. rewrite <- dict_get_list_to_map, lookup_insert.
  destruct (decide (k = k')) as [->|Hne].
  - apply dict_get_set_eq.
  - rewrite dict_get_set_ne by assumption. apply dict_get_list_to_map.
Qed.

Lemma dict_set_elem {V : Type} (k : string) (v : V) (d : list (string * V))
    (k' : string) (v' : V) :
  (k', v') ∈ Library.dict_set k v d ->
  (k' = k /\ v' = v) \/ (k', v') ∈ d.
Proof.
  induction d as [|[k0 v0] d IH]; simpl.
  - intros [[= -> ->]|[]%elem_of_nil]%elem_of_cons. now left.
  - destruct (decide (k0 = k)) as [->|Hne].
    + intros [[= -> ->]|Hin]%elem_of_cons; [now left | right; now right].
    + intros [[= -> ->]|Hin]%elem_of_cons; [right; left|].
      destruct (IH Hin) as [?|?]; [now left | right; now right].
Qed.

Lemma dict_set_keys {V : Type} (k : string) (v : V) (d : list (string * V)) :
  (Library.dict_set k v d).*1 = if decide (k ∈ d.*1) then d.*1 else d.*1 ++ [k].
Proof.
  induction d as [|[k0 v0] d IH]; [reflexivity|].
  cbn [Library.dict_set]. destruct (decide (k0 = k)) as [->|Hne].
  - rewrite !fmap_cons. cbn [fst].
    destruct (decide (k ∈ k :: d.*1)) as [|Hn]; [reflexivity|].
    exfalso. apply Hn. left.
  - rewrite !fmap_cons, IH. cbn [fst].
    destruct (decide (k ∈ d.*1)) as [Hin|Hin];
      destruct (decide (k ∈ k0 :: d.*1)) as [Hin'|Hin']; try reflexivity; exfalso.
    + apply Hin'. now right.
    + apply elem_of_cons in Hin' as [?|?]; [congruence | contradiction].
Qed.

Lemma dict_set_NoDup {V : Type} (k : string) (v : V) (d : list (string * V)) :
  NoDup d.*1 -> NoDup (Library.dict_set k v d).*1.
Proof.
  intros H. rewrite dict_set_keys. destruct (decide (k ∈ d.*1)); [exact H|].
  apply NoDup_app. split; [exact H|]. split.
  - intros x Hx [->|[]%elem_of_nil]%elem_of_cons. contradiction.
  - apply NoDup_singleton.
Qed.

Lemma dict_get_Some_elem {V : Type} (k : string) (v : V) (d : list (string * V)) :
  Library.dict_get k d = Some v -> (k, v) ∈ d.
Proof.
  induction d as [|[k0 v0] d IH]; simpl; [discriminate|].
  destruct (decide (k0 = k)) as [->|]; [intros [= ->]; left | right; auto].
Qed.

Lemma dict_get_elem {V : Type} (k : string) (v : V) (d : list (string * V)) :
  NoDup d.*1 -> (k, v) ∈ d -> Library.dict_get k d = Some v.
Proof.
  induction d as [|[k0 v0] d IH]; simpl; intros Hnd Hin.
  - now apply elem_of_nil in Hin.
  - apply NoDup_cons in Hnd as [Hk0 Hnd].
    apply elem_of_cons in Hin as [[= -> ->]|Hin].
    + destruct (decide (k0 = k0)); congruence.
    + destruct (decide (k0 = k)) as [->|]; [|auto].
      exfalso. apply Hk0. apply list_elem_of_fmap. exists (k, v). now split.
Qed.

(** ** PromptManager: loading, on the ordered cache *)

Lemma library_load_files_refines (files : list (Path * file)) :
  forall c,
    PromptManager.load_files files (list_to_map c)
    = list_to_map <$> Library.load_files files c.
Proof.
  induction files as [|[path f] files IH]; intros c; [reflexivity|].
  simpl. destruct (f ≫= PromptManager._load_prompt path) as [p|e].
  - rewrite <- list_to_map_dict_set. apply IH.
  - destruct e; first [reflexivity | apply IH].
Qed.

Lemma library_load_files_invariant (files : list (Path * file)) :
  forall c c',
    Library.load_files files c = Some c' ->
    NoDup c.*1 -> (forall k p, (k, p) ∈ c -> Prompt.name p = k) ->
    NoDup c'.*1 /\ (forall k p, (k, p) ∈ c' -> Prompt.name p = k).
Proof.
  induction files as [|[path f] files IH]; intros c c' H Hnd Hk.
  - injection H as <-. now split.
  - simpl in H. destruct (f ≫= PromptManager._load_prompt path) as [p|e].
    + apply (IH _ _ H); [now apply dict_set_NoDup|].
      intros k q [[-> ->]|Hin]%dict_set_elem; [reflexivity | now apply Hk].
    + assert (H' : Library.load_files files c = Some c')
        by (destruct e; first [discriminate H | exact H]).
      now apply (IH _ _ H').
Qed.

Lemma library_load_files_app (files1 files2 : list (Path * file)) :
  forall c,
    Library.load_files (files1 ++ files2) c
    = Library.load_files files1 c ≫= Library.load_files files2.
Proof.
  induction files1 as [|[path f] files1 IH]; intros c; [reflexivity|].
  simpl. destruct (f ≫= PromptManager._load_prompt path) as [p|e].
  - apply IH.
  - destruct e; first [reflexivity | apply IH].
Qed.

(** X1. A file whose read, parse or construction raises is skipped: the
    cache after the load is the cache of the directory without that file,
    whatever comes before and after it. *)
Theorem load_skips_failing_file (before after : list (Path * file))
    (path : Path) (f : file) (e : exn) (c : Library.cache) :
  f ≫= PromptManager._load_prompt path = Raise e ->
  (forall what, e ≠ OutsideModel what) ->
  Library.load_files (before ++ (path, f) :: after) c
  = Library.load_files (before ++ after) c.
Proof.
  intros Hf He. rewrite !library_load_files_app.
  destruct (Library.load_files before c) as [c1|]; [|reflexivity].
  simpl. rewrite Hf. destruct e; try reflexivity. now destruct (He msg).
Qed.

Lemma load_skips_failing_file_witness :
  Library.load_files
    [(Ex.path "greeting", Ok Ex.greeting_file);
     (Ex.path "broken", Raise (LibraryError "while scanning a simple key"));
     (Ex.path "bare", Ok Ex.bare_file)] []
  = Library.load_files
      [(Ex.path "greeting", Ok Ex.greeting_file); (Ex.path "bare", Ok Ex.bare_file)] [].
Proof.
  apply (load_skips_failing_file [(Ex.path "greeting", Ok Ex.greeting_file)]
           [(Ex.path "bare", Ok Ex.bare_file)] (Ex.path "broken")
           (Raise (LibraryError "while scanning a simple key"))
           (LibraryError "while scanning a simple key")).
  - reflexivity.
  - discriminate.
Defined.

(** X2. The record loaded last wins: after a directory whose last file
    gives the record [p], [get_prompt (name p)] is [p], whatever the files
    before it declared under that name; the cache holds that name once, at
    the place of its first insertion. *)
Theorem last_loaded_wins (files : list (Path * file)) (path : Path)
    (data : pyval) (p : Prompt.t) (c0 : Library.cache) :
  Library.load_files files [] = Some c0 ->
  PromptManager._load_prompt path data = Ok p ->
  exists c,
    Library.load_files (files ++ [(path, Ok data)]) [] = Some c
    /\ Library.get_prompt c (Prompt.name p) = Some p
    /\ c.*1 = (if decide (Prompt.name p ∈ c0.*1) then c0.*1
               else c0.*1 ++ [Prompt.name p])
    /\ (forall name, name ≠ Prompt.name p ->
          Library.get_prompt c name = Library.get_prompt c0 name).
Proof.
  intros H0 Hp. exists (Library.dict_set (Prompt.name p) p c0).
  split; [|split; [|split]].
  - rewrite library_load_files_app, H0. simpl.
    change (Ok data ≫= PromptManager._load_prompt path)
      with (PromptManager._load_prompt path data).
    now rewrite Hp.
  - apply dict_get_set_eq.
  - apply dict_set_keys.
  - intros name Hne. apply dict_get_set_ne. congruence.
Qed.

Lemma last_loaded_wins_witness :
  exists c p,
    Library.load_files
      [(Ex.path "first", Ok Ex.greeting_file); (Ex.path "bare", Ok Ex.bare_file);
       (Ex.path "second",
        Ok (PDict [("name", PStr "greeting"); ("template", PStr "Hi {w}")]))] []
    = Some c
    /\ Library.get_prompt c "greeting" = Some p
    /\ Prompt.template p = "Hi {w}"
    /\ c.*1 = ["greeting"; "bare"].
Proof.
  destruct (last_loaded_wins
              [(Ex.path "first", Ok Ex.greeting_file); (Ex.path "bare", Ok Ex.bare_file)]
              (Ex.path "second")
              (PDict [("name", PStr "greeting"); ("template", PStr "Hi {w}")])
              _ _ eq_refl eq_refl) as (c & Hc & Hg & Hk & _).
  eexists c, _. split; [exact Hc|]. split; [exact Hg|].
  split; [reflexivity | exact Hk].
Defined.

(** X3. In a loaded cache the names are pairwise distinct, and
    [get_prompt name] returns a record exactly when that record is cached
    and carries this name; for any other name it returns [None]. The cache
    read as a finite map is the one of [PromptManager._load_all]. *)
Theorem get_prompt_of_loaded (prompts_dir : option (list (Path * file)))
    (c : Library.cache) :
  Library._load_all prompts_dir = Some c ->
  NoDup (Prompt.name <$> Library.values c)
  /\ (forall name p,
        Library.get_prompt c name = Some p
        <-> p ∈ Library.values c /\ Prompt.name p = name)
  /\ (forall name,
        name ∉ (Prompt.name <$> Library.values c) ->
        Library.get_prompt c name = None)
  /\ PromptManager._load_all prompts_dir = Some (list_to_map c).
Proof.
  intros H.
  assert (Hinv : NoDup c.*1 /\ (forall k p, (k, p) ∈ c -> Prompt.name p = k)).
  { destruct prompts_dir as [files|]; simpl in H.
    - apply (library_load_files_invariant files [] c H); [constructor|].
      intros k p []%elem_of_nil.
    - injection H as <-. split; [constructor | intros k p []%elem_of_nil]. }
  destruct Hinv as [Hnd Hk].
  assert (Hkeys : Prompt.name <$> Library.values c = c.*1).
  { unfold Library.values. rewrite <- list_fmap_compose.
    apply Forall_fmap_ext_1, Forall_forall. intros [k p] Hin. simpl.
    now apply Hk. }
  assert (Hiff : forall name p,
            Library.get_prompt c name = Some p
            <-> p ∈ Library.values c /\ Prompt.name p = name).
  { intros name p. unfold Library.get_prompt. split.
    - intros Hg%dict_get_Some_elem. split; [|now apply Hk].
      apply list_elem_of_fmap. exists (name, p). now split.
    - intros [Hin <-]. apply dict_get_elem; [exact Hnd|].
      apply list_elem_of_fmap in Hin as ([k q] & -> & Hin). simpl.
      now rewrite (Hk _ _ Hin). }
  split; [now rewrite Hkeys|]. split; [exact Hiff|]. split.
  - intros name Hn. destruct (Library.get_prompt c name) as [p|] eqn:E;
      [|reflexivity].
    apply Hiff in E as [Hin <-]. exfalso. apply Hn.
    apply list_elem_of_fmap. now exists p.
  - destruct prompts_dir as [files|]; simpl in *.
    + change (∅ : gmap string Prompt.t) with (list_to_map [] : gmap string Prompt.t).
      now rewrite library_load_files_refines, H.
    + now injection H as <-.
Qed.

Lemma get_prompt_of_loaded_witness :
  exists c,
    Library._load_all
      (Some [(Ex.path "greeting", Ok Ex.greeting_file); (Ex.path "empty", Ok PNone)])
    = Some c
    /\ Library.get_prompt c "nonexistent_prompt_xyz" = None.
Proof.
  eexists. split; [reflexivity|].
  apply (get_prompt_of_loaded
           (Some [(Ex.path "greeting", Ok Ex.greeting_file); (Ex.path "empty", Ok PNone)])
           _ eq_refl).
  intros [[= ]|[]%elem_of_nil]%elem_of_cons.
Defined.

(** ** PromptManager: the queries *)

Lemma leb_refl (a : string) : String.leb a a = true.
Proof. apply Is_true_true. change (String.le a a). reflexivity. Qed.

Lemma leb_trans (a b c : string) :
  String.leb a b = true -> String.leb b c = true -> String.leb a c = true.
Proof.
  intros H1%Is_true_true H2%Is_true_true. apply Is_true_true.
  change (String.le a c). now transitivity b.
Qed.

Lemma key_le_total (p q : Prompt.t) :
  Library.key_le p q = true \/ Library.key_le q p = true.
Proof.
  unfold Library.key_le.
  destruct (decide (Prompt.category p = Prompt.category q)) as [E|E];
    destruct (decide (Prompt.category q = Prompt.category p)) as [E'|E'];
    try congruence; apply String.leb_total.
Qed.

Lemma key_le_trans (p q r : Prompt.t) :
  Library.key_le p q = true -> Library.key_le q r = true ->
  Library.key_le p r = true.
Proof.
  unfold Library.key_le.
  destruct (decide (Prompt.category p = Prompt.category q)) as [Epq|Epq];
    destruct (decide (Prompt.category q = Prompt.category r)) as [Eqr|Eqr];
    destruct (decide (Prompt.category p = Prompt.category r)) as [Epr|Epr];
    try congruence; intros H1 H2.
  - now apply (leb_trans _ (Prompt.name q)).
  - exfalso. apply Epq. apply String.leb_antisym; [exact H1|].
    now rewrite Epr.
  - now apply (leb_trans _ (Prompt.category q)).
Qed.

Lemma key_le_antisym (p q : Prompt.t) :
  Library.key_le p q = true -> Library.key_le q p = true ->
  Prompt.category p = Prompt.category q /\ Prompt.name p = Prompt.name q.
Proof.
  unfold Library.key_le.
  destruct (decide (Prompt.category p = Prompt.category q)) as [E|E];
    destruct (decide (Prompt.category q = Prompt.category p)) as [E'|E'];
    try congruence; intros H1 H2.
  - split; [exact E | now apply String.leb_antisym].
  - exfalso. apply E. now apply String.leb_antisym.
Qed.

Lemma list_prompts_Permutation (c : Library.cache) :
  Library.list_prompts c ≡ₚ Library.values c.
Proof. apply sorted_Permutation. Qed.

Lemma list_prompts_StronglySorted (c : Library.cache) :
  StronglySorted (fun p q => Library.key_le p q = true) (Library.list_prompts c).
Proof.
  apply Sorted_StronglySorted; [intros p q r; apply key_le_trans|].
  apply sorted_Sorted, key_le_total.
Qed.

(** X4. [list_prompts] returns the cached records, each once, none besides,
    in ascending order of (category, name): every record of the list is
    below every later one. *)
Theorem list_prompts_sorted (c : Library.cache) :
  Library.list_prompts c ≡ₚ Library.values c
  /\ StronglySorted (fun p q => Library.key_le p q = true) (Library.list_prompts c).
Proof.
  split; [apply list_prompts_Permutation | apply list_prompts_StronglySorted].
Qed.

Lemma name_determines (l : list Prompt.t) (p q : Prompt.t) :
  NoDup (Prompt.name <$> l) -> p ∈ l -> q ∈ l ->
  Prompt.name p = Prompt.name q -> p = q.
Proof.
  induction l as [|x l IH]; intros Hnd Hp Hq E; [now apply elem_of_nil in Hp|].
  rewrite fmap_cons in Hnd. apply NoDup_cons in Hnd as [Hx Hnd].
  apply elem_of_cons in Hp as [->|Hp]; apply elem_of_cons in Hq as [->|Hq].
  - reflexivity.
  - exfalso. apply Hx. rewrite E. apply list_elem_of_fmap. now exists q.
  - exfalso. apply Hx. rewrite <- E. apply list_elem_of_fmap. now exists p.
  - now apply IH.
Qed.

(** X5. The listing does not depend on the order in which the records were
    loaded: two caches that hold the same records, under pairwise distinct
    names, give the same [list_prompts]. *)
Theorem list_prompts_order_independent (c1 c2 : Library.cache) :
  NoDup (Prompt.name <$> Library.values c1) ->
  Library.values c1 ≡ₚ Library.values c2 ->
  Library.list_prompts c1 = Library.list_prompts c2.
Proof.
  intros Hnd Hperm.
  pose proof (list_prompts_Permutation c1) as P1.
  pose proof (list_prompts_Permutation c2) as P2.
  pose proof (list_prompts_StronglySorted c1) as S1.
  pose proof (list_prompts_StronglySorted c2) as S2.
  apply (StronglySorted_unique_strong (fun p q => Library.key_le p q = true));
    [|assumption|assumption|now rewrite P1, P2].
  intros p q Hp Hq H1 H2. apply (name_determines (Library.values c1)).
  - exact Hnd.
  - now rewrite <- P1.
  - now rewrite Hperm, <- P2.
  - now apply key_le_antisym.
Qed.

Lemma list_prompts_order_independent_witness :
  Library.list_prompts
    [("b", Ex.record "b" "analysis" "" []); ("a", Ex.record "a" "analysis" "" [])]
  = Library.list_prompts
      [("a", Ex.record "a" "analysis" "" []); ("b", Ex.record "b" "analysis" "" [])].
Proof.
  apply list_prompts_order_independent.
  - apply (bool_decide_unpack _). vm_compute. exact I.
  - apply Permutation_swap.
Defined.

Lemma get_by_category_elem (c : Library.cache) (category : string) (p : Prompt.t) :
  p ∈ Library.get_by_category c category
  <-> p ∈ Library.values c /\ Prompt.category p = category.
Proof.
  unfold Library.get_by_category.
  rewrite !list_elem_of_In, filter_In, bool_decide_eq_true. reflexivity.
Qed.

Lemma get_categories_elem (c : Library.cache) (cat : string) :
  cat ∈ Library.get_categories c
  <-> exists p, p ∈ Library.values c /\ Prompt.category p = cat.
Proof.
  unfold Library.get_categories.
  rewrite sorted_Permutation, elem_of_remove_dups, list_elem_of_In, in_map_iff.
  split; intros (p & H1 & H2); exists p; split;
    first [assumption | now apply list_elem_of_In].
Qed.

Lemma get_categories_NoDup (c : Library.cache) :
  NoDup (Library.get_categories c).
Proof.
  unfold Library.get_categories. rewrite sorted_Permutation.
  apply NoDup_remove_dups.
Qed.

Lemma get_categories_inhabited (c : Library.cache) (cat : string) :
  cat ∈ Library.get_categories c <-> Library.get_by_category c cat ≠ [].
Proof.
  rewrite get_categories_elem. split.
  - intros (p & Hp & Hc) E.
    assert (Hin : p ∈ Library.get_by_category c cat)
      by now apply get_by_category_elem.
    rewrite E in Hin. now apply elem_of_nil in Hin.
  - intros Hne. destruct (Library.get_by_category c cat) as [|p l] eqn:E;
      [congruence|].
    exists p. apply get_by_category_elem. rewrite E. left.
Qed.

(** X6. [get_categories] lists each category of the cache once, in
    ascending order, and a category is listed exactly when
    [get_by_category] finds a record for it; [get_by_category] returns the
    cached records of that category and no other. *)
Theorem get_categories_sorted_distinct (c : Library.cache) :
  NoDup (Library.get_categories c)
  /\ StronglySorted (fun a b => String.leb a b = true) (Library.get_categories c)
  /\ (forall cat, cat ∈ Library.get_categories c
                  <-> Library.get_by_category c cat ≠ [])
  /\ (forall cat p, p ∈ Library.get_by_category c cat
                    <-> p ∈ Library.values c /\ Prompt.category p = cat).
Proof.
  split; [|split; [|split]].
  - apply get_categories_NoDup.
  - apply Sorted_StronglySorted; [intros a b d; apply leb_trans|].
    apply sorted_Sorted, String.leb_total.
  - apply get_categories_inhabited.
  - intros cat p. apply get_by_category_elem.
Qed.

Lemma sum_list_indicator (cats : list string) (cat : string) :
  NoDup cats -> cat ∈ cats ->
  sum_list (map (fun x => if bool_decide (cat = x) then 1 else 0) cats) = 1.
Proof.
  induction cats as [|x cats IH]; intros Hnd Hin; [now apply elem_of_nil in Hin|].
  apply NoDup_cons in Hnd as [Hx Hnd]. simpl.
  destruct (bool_decide_reflect (cat = x)) as [->|Hne].
  - f_equal. clear IH Hin. induction cats as [|y cats IH]; [reflexivity|].
    simpl. apply not_elem_of_cons in Hx as [Hxy Hx].
    rewrite bool_decide_eq_false_2 by assumption.
    apply NoDup_cons in Hnd as [_ Hnd]. now apply IH.
  - apply elem_of_cons in Hin as [?|Hin]; [contradiction|]. now apply IH.
Qed.

Lemma counts_cons (p : Prompt.t) (l : list Prompt.t) (cats : list string) :
  sum_list
    (map (fun cat =>
            length (List.filter (fun q => bool_decide (Prompt.category q = cat))
                                (p :: l)))
         cats)
  = sum_list (map (fun x => if bool_decide (Prompt.category p = x) then 1 else 0)
                  cats)
    + sum_list
        (map (fun cat =>
                length (List.filter (fun q => bool_decide (Prompt.category q = cat)) l))
             cats).
Proof.
  induction cats as [|x cats IH]; [reflexivity|].
  rewrite !map_cons.
  change (sum_list (?a :: ?r)) with (a + sum_list r).
  rewrite IH. cbn [List.filter].
  destruct (bool_decide (Prompt.category p = x)); simpl; lia.
Qed.

Lemma counts_add_up (l : list Prompt.t) (cats : list string) :
  NoDup cats ->
  (forall p, p ∈ l -> Prompt.category p ∈ cats) ->
  sum_list
    (map (fun cat =>
            length (List.filter (fun p => bool_decide (Prompt.category p = cat)) l))
         cats)
  = length l.
Proof.
  intros Hnd. induction l as [|p l IH]; intros Hin.
  - clear. induction cats as [|x cats IHc]; [reflexivity | exact IHc].
  - rewrite counts_cons, IH by (intros q Hq; apply Hin; now right).
    rewrite (sum_list_indicator cats (Prompt.category p) Hnd) by (apply Hin; left).
    reflexivity.
Qed.

Lemma pairs_snd {A B : Type} (g : A -> B) (l : list A) :
  (map (fun a => (a, g a)) l).*2 = map g l.
Proof. induction l as [|a l IH]; [reflexivity|]. simpl. f_equal. exact IH. Qed.

Lemma pairs_fst {A B : Type} (g : A -> B) (l : list A) :
  (map (fun a => (a, g a)) l).*1 = l.
Proof. induction l as [|a l IH]; [reflexivity|]. simpl. f_equal. exact IH. Qed.

(** X7. The statistics are consistent: the total is the number of cached
    records and the sum of the counts per category; there is one count per
    category, and every count is at least 1. *)
Theorem get_stats_counts_add_up (c : Library.cache) :
  Library.total_prompts (Library.get_stats c) = length c
  /\ Library.total_prompts (Library.get_stats c)
     = sum_list (Library.category_counts (Library.get_stats c)).*2
  /\ Library.categories (Library.get_stats c)
     = length (Library.category_counts (Library.get_stats c))
  /\ (Library.category_counts (Library.get_stats c)).*1 = Library.get_categories c
  /\ (forall cat n, (cat, n) ∈ Library.category_counts (Library.get_stats c) ->
        0 < n).
Proof.
  pose proof (list_prompts_Permutation c) as Hperm.
  pose proof (get_categories_NoDup c) as Hnd.
  pose proof (get_categories_inhabited c) as Hcat.
  assert (Hvalues : length (Library.values c) = length c)
    by apply length_map.
  assert (Hlen : length (Library.list_prompts c) = length c)
    by now rewrite Hperm.
  unfold Library.get_stats. cbn [Library.total_prompts Library.categories
                                 Library.category_counts].
  split; [exact Hlen|]. split; [|split; [|split]].
  - rewrite Hlen, pairs_snd, <- Hvalues. symmetry.
    apply (counts_add_up (Library.values c)); [exact Hnd|].
    intros p Hp. apply get_categories_elem. now exists p.
  - now rewrite length_map.
  - apply pairs_fst.
  - intros cat n Hin. apply list_elem_of_In, in_map_iff in Hin
      as (cat' & [= -> <-] & Hin%list_elem_of_In).
    apply Hcat in Hin. destruct (Library.get_by_category c cat); [congruence|].
    simpl. lia.
Qed.

(** ** PromptManager.search *)

Lemma lower_char_idemp (a : ascii) :
  Str.lower_char (Str.lower_char a) = Str.lower_char a.
Proof. destruct a as [[] [] [] [] [] [] [] []]; reflexivity. Qed.

Lemma lower_idemp (s : string) : Str.lower (Str.lower s) = Str.lower s.
Proof.
  induction s as [|a s IH]; [reflexivity|].
  simpl. now rewrite lower_char_idemp, IH.
Qed.

Lemma contains_refl (s : string) : Str.contains s s = true.
Proof. apply contains_prefix, prefix_refl. Qed.

Lemma contains_empty (s : string) : Str.contains "" s = true.
Proof. apply contains_prefix. now destruct s. Qed.

Lemma search_elem (c : Library.cache) (query : string) (p : Prompt.t) :
  p ∈ Library.search c query
  <-> p ∈ Library.values c /\ Library.matches (Str.lower query) p = true.
Proof. unfold Library.search. now rewrite !list_elem_of_In, filter_In. Qed.

(** X8. [search] ignores the letter case of the query; the empty query
    returns every cached record, in cache order; a cached record is found
    by its own name and by each of its tags, in any letter case. *)
Theorem search_finds (c : Library.cache) :
  Library.search c "" = Library.values c
  /\ (forall query, Library.search c (Str.lower query) = Library.search c query)
  /\ (forall p query,
        p ∈ Library.values c ->
        Str.lower query = Str.lower (Prompt.name p)
        \/ (exists tag, tag ∈ PromptMetadata.tags (Prompt.metadata p)
                        /\ Str.lower query = Str.lower tag) ->
        p ∈ Library.search c query).
Proof.
  split; [|split].
  - unfold Library.search. simpl.
    induction (Library.values c) as [|p l IH]; [reflexivity|].
    simpl. unfold Library.matches at 1. rewrite contains_empty. simpl.
    now rewrite IH.
  - intros query. unfold Library.search. now rewrite lower_idemp.
  - intros p query Hp Hq. apply search_elem. split; [exact Hp|].
    unfold Library.matches. destruct Hq as [->|(tag & Htag & ->)].
    + now rewrite contains_refl.
    + apply orb_true_iff. right. apply existsb_exists. exists tag.
      split; [now apply list_elem_of_In | apply contains_refl].
Qed.

Lemma search_finds_witness :
  Ex.executive_summary
    ∈ Library.search [("executive_summary", Ex.executive_summary)] "Executive_Summary".
Proof.
  destruct (search_finds [("executive_summary", Ex.executive_summary)])
    as (_ & _ & H).
  apply H; [left | left; reflexivity].
Defined.

(** ** The two substitution paths *)

Lemma replace_from_absent (old new : string) :
  forall s, Str.contains old s = false -> Str.replace_from 0 old new s = s.
Proof.
  induction s as [|c s IH]; intros H; [reflexivity|].
  rewrite contains_cons in H. apply orb_false_iff in H as [Hp Hc].
  rewrite replace_from_cons, Hp. f_equal. now apply IH.
Qed.

(** A token that does not occur is not replaced. *)
Lemma replace_absent (key new text : string) :
  Str.contains (Prompt.placeholder key) text = false ->
  Str.replace (Prompt.placeholder key) new text = text.
Proof. intros H. rewrite replace_placeholder. now apply replace_from_absent. Qed.

Lemma render_loop_agrees (params : list PromptParameter.t) :
  forall (input : list (string * string)) (kwargs : gmap string string)
         (text : string),
    input.*1 = PromptParameter.name <$> params ->
    (forall k v, (k, v) ∈ input -> kwargs !! k = Some v) ->
    exists out,
      Prompt.render_loop id params kwargs text = Ok out
      /\ PromptTester.substitute (map (fun kv => (kv.1, PStr kv.2)) input) (PStr text)
         = Ok (PStr out).
Proof.
  induction params as [|param params IH]; intros input kwargs text Hk Hv.
  - destruct input; [|discriminate]. exists text. now split.
  - destruct input as [|[k v] input]; [discriminate|].
    rewrite !fmap_cons in Hk. injection Hk as Hk0 Hk. simpl in Hk0. subst k.
    destruct (IH input kwargs
                (Str.replace (Prompt.placeholder (PromptParameter.name param)) v text)
                Hk (fun k' v' Hin => Hv k' v' (list_elem_of_further _ _ _ Hin)))
      as (out & Hr & Hs).
    exists out. simpl. rewrite (Hv _ v) by left. split; [exact Hr | exact Hs].
Qed.

(** X9. The strict rendering and the substitution of the test harness
    agree when the input names exactly the declared parameters, in their
    order and each once: [render] then returns, without error, the text
    that [test_prompt] sends. *)
Theorem render_paths_agree (self : Prompt.t) (input : list (string * string)) :
  input.*1 = PromptParameter.name <$> Prompt.parameters self ->
  NoDup input.*1 ->
  exists out,
    Prompt.render id self (list_to_map input) = Ok out
    /\ (Py.items (PromptTester.dict_of input)
          ≫= fun items => PromptTester.substitute items (PStr (Prompt.template self)))
       = Ok (PStr out).
Proof.
  intros Hk Hnd. unfold Prompt.render, PromptTester.dict_of. simpl.
  apply render_loop_agrees; [exact Hk|].
  intros k v Hin. now apply elem_of_list_to_map_1.
Qed.

Lemma render_paths_agree_witness :
  exists out,
    Prompt.render id Ex.executive_summary (list_to_map [("document", "Hello world")])
      = Ok out
    /\ (Py.items (PromptTester.dict_of [("document", "Hello world")])
          ≫= fun items =>
               PromptTester.substitute items
                 (PStr (Prompt.template Ex.executive_summary)))
       = Ok (PStr out).
Proof.
  apply render_paths_agree; [reflexivity|].
  apply NoDup_singleton.
Defined.

(** X10. The substitution of the test harness never fails on a text
    template and an input of strings, whatever the keys; an input none of
    whose tokens occurs in the template leaves the text as it is. *)
Theorem harness_substitution_permissive (template : string)
    (input : list (string * string)) :
  (exists out,
     (Py.items (PromptTester.dict_of input)
        ≫= fun items => PromptTester.substitute items (PStr template))
     = Ok (PStr out))
  /\ ((forall k v, (k, v) ∈ input ->
         Str.contains (Prompt.placeholder k) template = false) ->
      (Py.items (PromptTester.dict_of input)
         ≫= fun items => PromptTester.substitute items (PStr template))
      = Ok (PStr template)).
Proof.
  unfold PromptTester.dict_of. simpl. split.
  - apply substitute_text, dict_of_text.
  - induction input as [|[k v] input IH]; intros H; [reflexivity|].
    simpl. rewrite replace_absent by (apply (H k v); left).
    apply IH. intros k' v' Hin. apply (H k' v'). now right.
Qed.

Lemma harness_substitution_permissive_witness :
  (Py.items (PromptTester.dict_of [("audience", "board")])
     ≫= fun items => PromptTester.substitute items (PStr "Summarize: {document}"))
  = Ok (PStr "Summarize: {document}").
Proof.
  destruct (harness_substitution_permissive "Summarize: {document}"
              [("audience", "board")]) as [_ H].
  apply H. intros k v [[= -> ->]|[]%elem_of_nil]%elem_of_cons. reflexivity.
Defined.

(** X11. [render] reads the keyword arguments at the declared names only:
    two mappings that agree on the declared parameters give the same
    result, text or error. *)
Theorem render_ignores_undeclared {V : Type} (str : V -> string)
    (self : Prompt.t) (kwargs1 kwargs2 : gmap string V) :
  (forall param, param ∈ Prompt.parameters self ->
     kwargs1 !! PromptParameter.name param = kwargs2 !! PromptParameter.name param) ->
  Prompt.render str self kwargs1 = Prompt.render str self kwargs2.
Proof.
  unfold Prompt.render. generalize (Prompt.template self) as text.
  induction (Prompt.parameters self) as [|param params IH]; intros text H;
    [reflexivity|].
  simpl. rewrite <- (H param) by left.
  assert (IH' : forall t, Prompt.render_loop str params kwargs1 t
                          = Prompt.render_loop str params kwargs2 t).
  { intros t. apply IH. intros q Hq. apply H. now right. }
  destruct (kwargs1 !! PromptParameter.name param); [apply IH'|].
  destruct (_ && _); [reflexivity|].
  destruct (PromptParameter.default param); apply IH'.
Qed.

Lemma render_ignores_undeclared_witness :
  Prompt.render id Ex.executive_summary
    {["document" := "Hello world"; "audience" := "board"]}
  = Prompt.render id Ex.executive_summary {["document" := "Hello world"]}.
Proof.
  apply render_ignores_undeclared.
  intros param [->|[]%elem_of_nil]%elem_of_cons. reflexivity.
Defined.

(** ** Results of test_prompt *)

Lemma missing_of_spec (output : string) (kws : list pyval) :
  forall ms,
    PromptTester.missing_of kws output = Ok ms ->
    ms `sublist_of` kws
    /\ (forall kw, kw ∈ kws ->
          exists k, kw = PStr k
                    /\ (Str.contains (Str.lower k) (Str.lower output) = false ->
                        kw ∈ ms))
    /\ (forall kw, kw ∈ ms ->
          exists k, kw = PStr k
                    /\ Str.contains (Str.lower k) (Str.lower output) = false).
Proof.
  induction kws as [|kw kws IH]; intros ms H.
  - injection H as <-. split; [constructor|].
    split; intros kw []%elem_of_nil.
  - simpl in H. apply bind_Ok in H as (k & Hk & H).
    apply bind_Ok in H as (found & Hf & H).
    apply bind_Ok in H as (ms' & Hms & H). injection H as <-.
    destruct kw; try discriminate Hk; injection Hk as <-; try discriminate Hf.
    injection Hf as <-.
    destruct (IH ms' Hms) as (Hsub & Hin & Hout).
    destruct (Str.contains (Str.lower s) (Str.lower output)) eqn:E.
    + split; [now apply sublist_cons|]. split.
      * intros kw [->|Hkw]%elem_of_cons; [exists s; split; [reflexivity | congruence]|].
        now apply Hin.
      * exact Hout.
    + split; [now apply sublist_skip|]. split.
      * intros kw [->|Hkw]%elem_of_cons.
        -- exists s. split; [reflexivity | intros _; left].
        -- destruct (Hin kw Hkw) as (k & -> & Hk). exists k.
           split; [reflexivity | intros ?; right; auto].
      * intros kw [->|Hkw]%elem_of_cons; [now exists s | now apply Hout].
Qed.

(** The comprehension returns, when it returns, the keywords that are
    missing, each as often as it is expected. *)
Lemma missing_of_filter (output : string) (kws : list pyval) :
  forall ms,
    PromptTester.missing_of kws output = Ok ms ->
    ms = List.filter (Spec.keyword_missing output) kws.
Proof.
  induction kws as [|kw kws IH]; intros ms H.
  - now injection H as <-.
  - simpl in H. apply bind_Ok in H as (k & Hk & H).
    apply bind_Ok in H as (found & Hf & H).
    apply bind_Ok in H as (ms' & Hms & H). injection H as <-.
    destruct kw; try discriminate Hk; injection Hk as <-; try discriminate Hf.
    injection Hf as <-. rewrite (IH ms' Hms). simpl.
    now destruct (Str.contains (Str.lower s) (Str.lower output)).
Qed.

(** What the [try] block returns when it returns. *)
Lemma try_block_result (svc : genai.Service) (self : PromptTester.t)
    (prep : PromptTester.Prepared) (r : TestResult.t) :
  (PromptTester.try_block svc self prep).1.1 = Ok r ->
  exists kws,
    Py.iter (PromptTester.expected_contains prep) = Ok kws
    /\ TestResult.expected_contains r = PromptTester.expected_contains prep
    /\ PromptTester.missing_of kws (TestResult.output r)
       = Ok (TestResult.missing_keywords r)
    /\ TestResult.quality_score r
       = PromptTester._score_quality (TestResult.output r) kws
           (TestResult.missing_keywords r)
    /\ TestResult.passed r
       = ((length (TestResult.missing_keywords r) =? 0)%nat
          && (0 <? String.length (Str.strip (TestResult.output r)))%nat)
    /\ TestResult.token_count r = length (Str.split (TestResult.output r))
    /\ TestResult.error r = None.
Proof.
  unfold PromptTester.try_block.
  destruct (PromptTester._get_client svc self) as [[client|e] self'];
    [|discriminate].
  destruct (Py.get _ _ _); [|discriminate].
  simpl. intros H. apply bind_Ok in H as (response & _ & H).
  unfold PromptTester.on_response in H.
  apply bind_Ok in H as (kws & Hk & H). apply bind_Ok in H as (ms & Hm & H).
  injection H as <-. simpl. exists kws. repeat split; assumption.
Qed.

(** Every result that [test_prompt] returns is the one of the handler or one
    of the [try] block. *)
Lemma test_prompt_result (svc : genai.Service) (self : PromptTester.t)
    (path : Path) (f : file) (test_input : option (list (string * string)))
    (model : option string) (r : TestResult.t) (self' : PromptTester.t)
    (calls : list genai.Request) :
  PromptTester.test_prompt svc self path f test_input model = (Ok r, self', calls) ->
  exists prep,
    self' = (PromptTester.try_block svc self prep).1.2
    /\ calls = (PromptTester.try_block svc self prep).2
    /\ ((exists e, r = PromptTester.on_exception prep e)
        \/ (PromptTester.try_block svc self prep).1.1 = Ok r).
Proof.
  intros H.
  destruct (f ≫= fun data => PromptTester.prepare path data test_input model)
    as [prep|e] eqn:Hprep.
  - rewrite (test_prompt_prepared _ _ _ _ _ _ prep Hprep) in H.
    injection H as <- <- <-. exists prep. split; [reflexivity|].
    split; [reflexivity|].
    destruct ((PromptTester.try_block svc self prep).1.1) as [r|e];
      [now right | left; now exists e].
  - rewrite (test_prompt_unprepared _ _ _ _ _ _ e Hprep) in H. discriminate H.
Qed.

Lemma score_range {A B : Type} (output : string) (expected : list A)
    (missing : list B) :
  length missing <= length expected ->
  (0 <= PromptTester._score_quality output expected missing)%Q
  /\ (PromptTester._score_quality output expected missing <= 10)%Q.
Proof.
  intros Hl. destruct (decide (Str.strip output = "")) as [E|E].
  - rewrite (score_empty _ _ _ E). split; [apply Qle_refl | discriminate].
  - rewrite score_unclamped by assumption.
    pose proof (raw_score_ge_5 output expected missing Hl).
    pose proof (raw_score_le_10 output expected missing). split; lra.
Qed.

Lemma test_prompt_quality_range (svc : genai.Service) (self : PromptTester.t)
    (path : Path) (f : file) (test_input : option (list (string * string)))
    (model : option string) (r : TestResult.t) (self' : PromptTester.t)
    (calls : list genai.Request) :
  PromptTester.test_prompt svc self path f test_input model = (Ok r, self', calls) ->
  (0 <= TestResult.quality_score r)%Q /\ (TestResult.quality_score r <= 10)%Q.
Proof.
  intros H. apply test_prompt_result in H as (prep & _ & _ & [[e ->]|H]).
  - simpl. split; [apply Qle_refl | discriminate].
  - apply try_block_result in H as (kws & _ & _ & Hm & -> & _).
    apply missing_of_spec in Hm as [Hsub%sublist_length _].
    now apply score_range.
Qed.

Lemma strip_length_pos (s : string) :
  (0 <? String.length (Str.strip s))%nat = true <-> Str.strip s ≠ "".
Proof.
  rewrite Nat.ltb_lt. destruct (Str.strip s); simpl; split;
    first [lia | congruence | discriminate].
Qed.

(** X12. A result passes exactly when it carries no error, no expected
    keyword is missing and the output has content; a passed result scores
    at least 5, and at least 8 when keywords were expected. A result with
    an error has not passed and has the empty output, score 0 and token
    count 0. *)
Theorem passed_result (svc : genai.Service) (self : PromptTester.t)
    (path : Path) (f : file) (test_input : option (list (string * string)))
    (model : option string) (r : TestResult.t) (self' : PromptTester.t)
    (calls : list genai.Request) :
  PromptTester.test_prompt svc self path f test_input model = (Ok r, self', calls) ->
  (TestResult.passed r = true
   <-> TestResult.error r = None
       /\ TestResult.missing_keywords r = []
       /\ Str.strip (TestResult.output r) ≠ "")
  /\ (TestResult.passed r = true ->
      (5 <= TestResult.quality_score r)%Q
      /\ (forall kws, Py.iter (TestResult.expected_contains r) = Ok kws ->
            kws ≠ [] -> (8 <= TestResult.quality_score r)%Q))
  /\ (TestResult.error r ≠ None ->
      TestResult.passed r = false
      /\ TestResult.output r = ""
      /\ TestResult.quality_score r = 0%Q
      /\ TestResult.token_count r = 0).
Proof.
  intros H. apply test_prompt_result in H as (prep & _ & _ & [[e ->]|H]).
  - simpl. split; [|split].
    + split; [discriminate | now intros [? _]].
    + discriminate.
    + now intros _.
  - apply try_block_result in H as (kws & Hk & He & Hm & Hq & Hp & _ & Herr).
    assert (Hiff : TestResult.passed r = true
                   <-> TestResult.error r = None
                       /\ TestResult.missing_keywords r = []
                       /\ Str.strip (TestResult.output r) ≠ "").
    { rewrite Hp, andb_true_iff, strip_length_pos, Nat.eqb_eq.
      split.
      - intros [Hl Hs]. repeat split; try assumption.
        now destruct (TestResult.missing_keywords r).
      - intros (_ & -> & Hs). now split. }
    split; [exact Hiff|]. split; [|now rewrite Herr].
    intros (_ & Hmiss & Hs)%Hiff. rewrite Hq, Hmiss.
    rewrite score_unclamped by assumption. split.
    + apply raw_score_ge_5. simpl. lia.
    + intros kws' Hk' Hne. rewrite He, Hk in Hk'. injection Hk' as <-.
      rewrite score_unclamped by assumption.
      unfold Spec.raw_score, Spec.score_before_structure.
      pose proof (match_rate_full (B:=pyval) kws Hne) as Hfull.
      destruct kws as [|kw kws]; [congruence|]. lazy beta iota. rewrite Hfull.
      destruct (50 <=? _)%nat, (200 <=? _)%nat, (PromptTester.has_marker _); lra.
Qed.

Lemma passed_result_witness :
  exists r self' calls,
    PromptTester.test_prompt Ex.service Ex.tester (Ex.path "greeting")
      (Ok Ex.greeting_file) (Some [("w", "goodbye")]) None = (Ok r, self', calls)
    /\ TestResult.passed r = true
    /\ (5 <= TestResult.quality_score r)%Q.
Proof.
  eexists _, _, _. split; [reflexivity|].
  destruct (passed_result Ex.service Ex.tester (Ex.path "greeting")
              (Ok Ex.greeting_file) (Some [("w", "goodbye")]) None _ _ _ eq_refl)
    as (_ & H & _).
  split; [reflexivity | now apply H].
Defined.

(** X13. In a result without error every expected keyword is a string, and
    the missing keywords are exactly the expected keywords whose lower-case
    form does not occur in the lower-case output: the list of the expected
    keywords filtered by that test, in their order and each as often as it
    is expected. *)
Theorem missing_keywords_exact (svc : genai.Service) (self : PromptTester.t)
    (path : Path) (f : file) (test_input : option (list (string * string)))
    (model : option string) (r : TestResult.t) (self' : PromptTester.t)
    (calls : list genai.Request) :
  PromptTester.test_prompt svc self path f test_input model = (Ok r, self', calls) ->
  TestResult.error r = None ->
  exists kws,
    Py.iter (TestResult.expected_contains r) = Ok kws
    /\ (forall kw, kw ∈ kws -> exists k, kw = PStr k)
    /\ TestResult.missing_keywords r
       = List.filter (Spec.keyword_missing (TestResult.output r)) kws.
Proof.
  intros H Herr. apply test_prompt_result in H as (prep & _ & _ & [[e ->]|H]);
    [discriminate Herr|].
  apply try_block_result in H as (kws & Hk & He & Hm & _).
  exists kws. rewrite He. split; [exact Hk|]. split.
  - apply missing_of_spec in Hm as (_ & Hin & _).
    intros kw Hkw. destruct (Hin kw Hkw) as (k & -> & _). now exists k.
  - now apply missing_of_filter.
Qed.

Lemma missing_keywords_exact_witness :
  exists r self' calls,
    PromptTester.test_prompt Ex.service Ex.tester (Ex.path "greeting")
      (Ok Ex.greeting_file) None None = (Ok r, self', calls)
    /\ TestResult.missing_keywords r = [PStr "bye"].
Proof.
  eexists _, _, _. split; [reflexivity|].
  destruct (missing_keywords_exact Ex.service Ex.tester (Ex.path "greeting")
              (Ok Ex.greeting_file) None None _ _ _ eq_refl eq_refl)
    as (kws & Hk & _ & Hm).
  injection Hk as <-. exact Hm.
Defined.

(** ** Batches *)

Lemma try_block_calls_length (svc : genai.Service) (self : PromptTester.t)
    (prep : PromptTester.Prepared) :
  length (PromptTester.try_block svc self prep).2 <= 1.
Proof.
  unfold PromptTester.try_block.
  destruct (PromptTester._get_client svc self) as [[client|e] self']; simpl;
    [|lia].
  destruct (Py.get _ _ _); simpl; lia.
Qed.

Lemma test_prompt_calls_length (svc : genai.Service) (self : PromptTester.t)
    (path : Path) (f : file) (test_input : option (list (string * string)))
    (model : option string) :
  length (PromptTester.test_prompt svc self path f test_input model).2 <= 1
  /\ (raises (PromptTester.test_prompt svc self path f test_input model).1.1 ->
      (PromptTester.test_prompt svc self path f test_input model).2 = []).
Proof.
  destruct (f ≫= fun data => PromptTester.prepare path data test_input model)
    as [prep|e] eqn:Hprep.
  - rewrite (test_prompt_prepared _ _ _ _ _ _ prep Hprep). simpl.
    split; [apply try_block_calls_length|]. intros [e He]. discriminate He.
  - rewrite (test_prompt_unprepared _ _ _ _ _ _ e Hprep). simpl. split; [lia|].
    reflexivity.
Qed.

Lemma run_batch_results (svc : genai.Service) (model : option string)
    (files : list (Path * file)) :
  forall self results self' calls,
    PromptTester.run_batch svc self files model = (Ok results, self', calls) ->
    length results = length files
    /\ length calls <= length files
    /\ Forall (fun r => (0 <= TestResult.quality_score r)%Q
                        /\ (TestResult.quality_score r <= 10)%Q) results.
Proof.
  induction files as [|[path f] files IH]; intros self results self' calls H.
  - injection H as <- _ <-. repeat split; [simpl; lia | constructor].
  - simpl in H.
    pose proof (test_prompt_calls_length svc self path f None model) as [Hc _].
    destruct (PromptTester.test_prompt svc self path f None model)
      as [[[r|e] self1] calls1] eqn:Ht; [|discriminate].
    destruct (PromptTester.run_batch svc self1 files model)
      as [[[rs|e] self2] calls2] eqn:Hb; [|discriminate].
    injection H as <- _ <-.
    destruct (IH _ _ _ _ Hb) as (Hl & Hcs & Hq).
    apply test_prompt_quality_range in Ht.
    simpl in *. rewrite length_app. repeat split; [lia | lia |].
    constructor; assumption.
Qed.

Lemma inject_nat_succ (n : nat) :
  (inject_Z (Z.of_nat (S n)) == inject_Z (Z.of_nat n) + 1)%Q.
Proof. rewrite Nat2Z.inj_succ, <- Z.add_1_r, inject_Z_plus. reflexivity. Qed.

Lemma Qsum_range (l : list Q) :
  Forall (fun x => (0 <= x)%Q /\ (x <= 10)%Q) l ->
  (0 <= PromptTester.Qsum l)%Q
  /\ (PromptTester.Qsum l <= 10 * inject_Z (Z.of_nat (length l)))%Q.
Proof.
  induction 1 as [|x l [H0 H10] _ [IH0 IH10]]; simpl.
  - split; [apply Qle_refl | discriminate].
  - change (length (x :: l)) with (S (length l)) in *.
    rewrite inject_nat_succ. split; lra.
Qed.

Lemma passed_count_le (results : list TestResult.t) :
  length (filter (fun r => TestResult.passed r = true) results) <= length results.
Proof. apply length_filter. Qed.

Lemma passed_count_all (results : list TestResult.t) :
  length (filter (fun r => TestResult.passed r = true) results) = length results
  <-> forall r, r ∈ results -> TestResult.passed r = true.
Proof.
  split.
  - intros H r Hr. destruct (decide (TestResult.passed r = true)) as [|Hn];
      [assumption|].
    pose proof (length_filter_lt (fun r => TestResult.passed r = true)
                  results r Hr Hn). lia.
  - induction results as [|r results IH]; intros H; [reflexivity|].
    rewrite filter_cons_True by (apply H; left). simpl. f_equal.
    apply IH. intros r' Hr'. apply H. now right.
Qed.

(** X14. The report of a batch is consistent: [total] is the number of
    files of the directory and of results, [passed] counts the results that
    passed, [passed + failed = total], nothing has failed exactly when every
    result passed, and the pass rate lies between 0 and 100. *)
Theorem batch_report_consistent (svc : genai.Service) (self : PromptTester.t)
    (prompts_dir : list (Path * file)) (model : option string)
    (batch : BatchTestResult.t) (self' : PromptTester.t)
    (calls : list genai.Request) :
  PromptTester.test_batch svc self prompts_dir model = (Ok batch, self', calls) ->
  BatchTestResult.total batch = length prompts_dir
  /\ length (BatchTestResult.results batch) = BatchTestResult.total batch
  /\ BatchTestResult.passed batch
     = length (filter (fun r => TestResult.passed r = true)
                      (BatchTestResult.results batch))
  /\ BatchTestResult.passed batch + BatchTestResult.failed batch
     = BatchTestResult.total batch
  /\ (BatchTestResult.failed batch = 0
      <-> forall r, r ∈ BatchTestResult.results batch -> TestResult.passed r = true)
  /\ (0 <= Report.pass_rate batch)%Q /\ (Report.pass_rate batch <= 100)%Q.
Proof.
  unfold PromptTester.test_batch.
  destruct (PromptTester.run_batch svc self prompts_dir model)
    as [[[results|e] self1] calls1] eqn:Hb; [|discriminate].
  intros [= <- _ _]. apply run_batch_results in Hb as (Hl & _ & _).
  pose proof (passed_count_le results) as Hle.
  unfold PromptTester.aggregate, Report.pass_rate. simpl.
  split; [exact Hl|]. split; [reflexivity|]. split; [reflexivity|].
  split; [lia|]. split.
  - split.
    + intros H0. apply passed_count_all. lia.
    + intros Hall%passed_count_all. lia.
  - destruct (0 <? length results)%nat eqn:Hpos.
    + apply Nat.ltb_lt in Hpos.
      assert (Hn : (0 < inject_Z (Z.of_nat (length results)))%Q).
      { change 0%Q with (inject_Z 0). rewrite <- Zlt_Qlt. lia. }
      set (k := length (filter _ results)) in *.
      assert (Hk0 : (0 <= inject_Z (Z.of_nat k) / inject_Z (Z.of_nat (length results)))%Q).
      { apply Qle_shift_div_l; [exact Hn|]. rewrite Qmult_0_l.
        change 0%Q with (inject_Z 0). rewrite <- Zle_Qle. lia. }
      assert (Hk1 : (inject_Z (Z.of_nat k) / inject_Z (Z.of_nat (length results)) <= 1)%Q).
      { apply Qle_shift_div_r; [exact Hn|]. rewrite Qmult_1_l, <- Zle_Qle. lia. }
      split; lra.
    + split; [apply Qle_refl | discriminate].
Qed.

Lemma batch_report_consistent_witness :
  exists batch self' calls,
    PromptTester.test_batch Ex.service Ex.tester
      [(Ex.path "greeting", Ok Ex.greeting_file);
       (Ex.path "bare", Ok Ex.bare_file)] None = (Ok batch, self', calls)
    /\ BatchTestResult.total batch = 2
    /\ BatchTestResult.passed batch + BatchTestResult.failed batch = 2.
Proof.
  eexists _, _, _. split; [reflexivity|].
  destruct (batch_report_consistent Ex.service Ex.tester
              [(Ex.path "greeting", Ok Ex.greeting_file);
               (Ex.path "bare", Ok Ex.bare_file)] None _ _ _ eq_refl)
    as (H1 & _ & _ & H2 & _).
  split; [exact H1|]. rewrite H2. exact H1.
Defined.

(** X15. Every quality score that [test_prompt] returns lies between 0 and
    10, and so does the mean quality of a batch. *)
Theorem quality_within_scale (svc : genai.Service) (self : PromptTester.t)
    (model : option string) :
  (forall path f test_input r self' calls,
     PromptTester.test_prompt svc self path f test_input model
       = (Ok r, self', calls) ->
     (0 <= TestResult.quality_score r)%Q /\ (TestResult.quality_score r <= 10)%Q)
  /\ (forall prompts_dir batch self' calls,
        PromptTester.test_batch svc self prompts_dir model
          = (Ok batch, self', calls) ->
        (0 <= BatchTestResult.avg_quality batch)%Q
        /\ (BatchTestResult.avg_quality batch <= 10)%Q).
Proof.
  split.
  - intros path f test_input r self' calls. apply test_prompt_quality_range.
  - intros prompts_dir batch self' calls. unfold PromptTester.test_batch.
    destruct (PromptTester.run_batch svc self prompts_dir model)
      as [[[results|e] self1] calls1] eqn:Hb; [|discriminate].
    intros [= <- _ _]. apply run_batch_results in Hb as (_ & _ & Hq).
    unfold PromptTester.aggregate. simpl.
    destruct results as [|r results]; [split; [apply Qle_refl | discriminate]|].
    assert (Hq' : Forall (fun x => (0 <= x)%Q /\ (x <= 10)%Q)
                    (map TestResult.quality_score (r :: results))).
    { apply Forall_forall. intros x Hx. apply list_elem_of_In, in_map_iff in Hx
        as (r' & <- & Hr'%list_elem_of_In).
      now apply (proj1 (Forall_forall _ _) Hq). }
    apply Qsum_range in Hq' as [H0 H10]. rewrite length_map in H10.
    assert (Hn : (0 < inject_Z (Z.of_nat (length (r :: results))))%Q).
    { change 0%Q with (inject_Z 0). rewrite <- Zlt_Qlt. simpl. lia. }
    split.
    + apply Qle_shift_div_l; [exact Hn|]. now rewrite Qmult_0_l.
    + apply Qle_shift_div_r; [exact Hn | exact H10].
Qed.

Lemma quality_within_scale_witness :
  exists batch self' calls,
    PromptTester.test_batch Ex.service Ex.tester
      [(Ex.path "greeting", Ok Ex.greeting_file)] None = (Ok batch, self', calls)
    /\ (BatchTestResult.avg_quality batch <= 10)%Q.
Proof.
  eexists _, _, _. split; [reflexivity|].
  destruct (quality_within_scale Ex.service Ex.tester None) as [_ H].
  now apply (H [(Ex.path "greeting", Ok Ex.greeting_file)] _ _ _ eq_refl).
Defined.

(** X16. [test_prompt] sends at most one request to the service, and none
    when it raises; a batch sends at most one request per file. *)
Theorem requests_bounded (svc : genai.Service) (self : PromptTester.t)
    (model : option string) :
  (forall path f test_input,
     length (PromptTester.test_prompt svc self path f test_input model).2 <= 1
     /\ (raises (PromptTester.test_prompt svc self path f test_input model).1.1 ->
         (PromptTester.test_prompt svc self path f test_input model).2 = []))
  /\ (forall prompts_dir batch self' calls,
        PromptTester.test_batch svc self prompts_dir model
          = (Ok batch, self', calls) ->
        length calls <= length prompts_dir).
Proof.
  split.
  - intros path f test_input. apply test_prompt_calls_length.
  - intros prompts_dir batch self' calls. unfold PromptTester.test_batch.
    destruct (PromptTester.run_batch svc self prompts_dir model)
      as [[[results|e] self1] calls1] eqn:Hb; [|discriminate].
    intros [= _ _ <-]. now apply run_batch_results in Hb as (_ & Hc & _).
Qed.

Lemma requests_bounded_witness :
  (PromptTester.test_prompt Ex.service Ex.tester (Ex.path "empty")
     (Ok PNone) None None).2 = [].
Proof.
  destruct (requests_bounded Ex.service Ex.tester None) as [H _].
  apply (H (Ex.path "empty") (Ok PNone) None). eexists. reflexivity.
Defined.

(** ** The client of the tester *)

Lemma get_client_kept (svc : genai.Service) (self self' : PromptTester.t)
    (client : genai.Client) :
  PromptTester._get_client svc self = (Ok client, self') ->
  PromptTester._client self' = Some client
  /\ PromptTester.api_key self' = PromptTester.api_key self.
Proof.
  unfold PromptTester._get_client.
  destruct (PromptTester._client self) as [c|] eqn:Ec.
  - intros [= <- <-]. now split.
  - destruct (PromptTester.api_key self) as [key|]; [|discriminate].
    destruct (bool_decide (key = "")); [discriminate|].
    destruct (genai.new_client svc key); [|discriminate].
    intros [= <- <-]. now split.
Qed.

Lemma get_client_key (svc : genai.Service) (self : PromptTester.t) :
  PromptTester.api_key (PromptTester._get_client svc self).2
  = PromptTester.api_key self.
Proof.
  unfold PromptTester._get_client.
  destruct (PromptTester._client self); [reflexivity|].
  destruct (PromptTester.api_key self) as [key|] eqn:Ek; [|exact Ek].
  destruct (bool_decide (key = "")); [exact Ek|].
  destruct (genai.new_client svc key); simpl; congruence.
Qed.

Lemma get_client_cached (svc : genai.Service) (self : PromptTester.t)
    (client : genai.Client) :
  PromptTester._client self = Some client ->
  PromptTester._get_client svc self = (Ok client, self).
Proof. intros H. unfold PromptTester._get_client. now rewrite H. Qed.

(** X17. The client is built once: when [_get_client] has returned a
    client, every later call returns that client and leaves the tester as it
    is, without calling the constructor; a tester that holds a client runs
    [test_prompt] without the constructor and holds the same client
    afterwards, and [test_prompt] never changes the key. *)
Theorem client_built_once (svc : genai.Service) (self : PromptTester.t) :
  (forall client self',
     PromptTester._get_client svc self = (Ok client, self') ->
     forall svc', PromptTester._get_client svc' self' = (Ok client, self'))
  /\ (forall path f test_input model,
        PromptTester.api_key
          (PromptTester.test_prompt svc self path f test_input model).1.2
        = PromptTester.api_key self)
  /\ (forall client path f test_input model,
        PromptTester._client self = Some client ->
        PromptTester._client
          (PromptTester.test_prompt svc self path f test_input model).1.2
        = Some client
        /\ forall svc',
             genai.generate_content svc' = genai.generate_content svc ->
             PromptTester.test_prompt svc' self path f test_input model
             = PromptTester.test_prompt svc self path f test_input model).
Proof.
  split; [|split].
  - intros client self' H svc'. apply get_client_cached.
    now apply get_client_kept in H as [H _].
  - intros path f test_input model.
    destruct (f ≫= fun data => PromptTester.prepare path data test_input model)
      as [prep|e] eqn:Hprep.
    + rewrite (test_prompt_prepared _ _ _ _ _ _ prep Hprep). simpl.
      unfold PromptTester.try_block.
      pose proof (get_client_key svc self) as Hk.
      destruct (PromptTester._get_client svc self) as [[client|e] self'];
        [destruct (Py.get _ _ _)|]; exact Hk.
    + now rewrite (test_prompt_unprepared _ _ _ _ _ _ e Hprep).
  - intros client path f test_input model Hc.
    assert (Hb : forall svc0 prep,
              PromptTester.try_block svc0 self prep
              = match Py.get (PromptTester.metadata prep) "max_tokens" (PInt 1024) with
                | Raise e => (Raise e, self, [])
                | Ok max_tokens =>
                    let request :=
                      {| genai.model := PromptTester.model_name prep;
                         genai.contents := PromptTester.rendered prep;
                         genai.temperature := PromptTester.temperature prep;
                         genai.max_output_tokens := max_tokens |} in
                    (genai.generate_content svc0 client request
                       ≫= PromptTester.on_response prep, self, [request])
                end).
    { intros svc0 prep. unfold PromptTester.try_block.
      now rewrite (get_client_cached svc0 self client Hc). }
    destruct (f ≫= fun data => PromptTester.prepare path data test_input model)
      as [prep|e] eqn:Hprep.
    + split.
      * rewrite (test_prompt_prepared _ _ _ _ _ _ prep Hprep). simpl.
        rewrite Hb. now destruct (Py.get _ _ _).
      * intros svc' Hg.
        rewrite !(test_prompt_prepared _ _ _ _ _ _ prep Hprep), !Hb, Hg.
        reflexivity.
    + split.
      * now rewrite (test_prompt_unprepared _ _ _ _ _ _ e Hprep).
      * intros svc' _. now rewrite !(test_prompt_unprepared _ _ _ _ _ _ e Hprep).
Qed.

Lemma client_built_once_witness :
  exists client self',
    PromptTester._get_client Ex.service Ex.tester = (Ok client, self')
    /\ PromptTester._get_client Ex.failing_service self' = (Ok client, self').
Proof.
  eexists _, _. split; [reflexivity|].
  destruct (client_built_once Ex.service Ex.tester) as [H _].
  now apply H.
Defined.

(** ** More on the quality score *)

(** X18. The more keywords are missing, the lower the score: for the same
    output and expected keywords, a longer list of missing keywords never
    scores higher. *)
Theorem score_antitone_in_missing {A B C : Type} (output : string)
    (expected : list A) (missing1 : list B) (missing2 : list C) :
  length missing1 <= length missing2 ->
  (PromptTester._score_quality output expected missing2
   <= PromptTester._score_quality output expected missing1)%Q.
Proof.
  intros Hl. destruct (decide (Str.strip output = "")) as [E|E].
  - rewrite !(score_empty _ _ _ E). apply Qle_refl.
  - rewrite !score_unclamped by assumption.
    unfold Spec.raw_score, Spec.score_before_structure.
    destruct expected as [|a expected]; [apply Qle_refl|].
    assert (Hm : (PromptTester.match_rate (a :: expected) missing2
                  <= PromptTester.match_rate (a :: expected) missing1)%Q).
    { unfold PromptTester.match_rate, Qdiv. apply Qmult_le_compat_r.
      - rewrite <- Zle_Qle. lia.
      - apply Qinv_le_0_compat. change 0%Q with (inject_Z 0).
        rewrite <- Zle_Qle. lia. }
    destruct (50 <=? _)%nat, (200 <=? _)%nat, (PromptTester.has_marker _); lra.
Qed.

Lemma score_antitone_in_missing_witness :
  (PromptTester._score_quality "test output" ["a"; "b"; "c"] ["a"; "b"]
   <= PromptTester._score_quality "test output" ["a"; "b"; "c"] ["c"])%Q.
Proof. apply score_antitone_in_missing. simpl. lia. Defined.

(** ** What the loader requires, and the validator *)

Lemma mapM_Ok_inv {A B : Type} (f : A -> result B) (l : list A) :
  forall r, mapM f l = Ok r -> Forall2 (fun x y => f x = Ok y) l r.
Proof.
  induction l as [|x l IH]; intros r H.
  - injection H as <-. constructor.
  - simpl in H. apply bind_Ok in H as (y & Hy & H).
    apply bind_Ok in H as (ys & Hys & H). injection H as <-.
    constructor; [exact Hy | now apply IH].
Qed.

Lemma load_parameter_Ok (entry : pyval) (param : PromptParameter.t) :
  PromptManager.load_parameter entry = Ok param ->
  exists pd, entry = PDict pd /\ Py.has_key "name" pd = true.
Proof.
  unfold PromptManager.load_parameter. intros H.
  apply bind_Ok in H as (name & H & _). apply bind_Ok in H as (v & H & _).
  apply getitem_Ok in H as (pd & -> & Hl). exists pd. split; [reflexivity|].
  apply has_key_true. eauto.
Qed.

Lemma load_example_Ok (entry : pyval) (ex : PromptExample.t) :
  PromptManager.load_example entry = Ok ex -> Spec.is_dict entry = true.
Proof.
  unfold PromptManager.load_example. intros H.
  apply bind_Ok in H as (input & H & _). apply bind_Ok in H as (v & H & _).
  now apply get_Ok in H as (d & -> & _).
Qed.

Lemma load_prompt_entries (path : Path) (data : pyval) (p : Prompt.t) :
  PromptManager._load_prompt path data = Ok p ->
  exists d,
    data = PDict d
    /\ Py.lookup "name" d = Some (PStr (Prompt.name p))
    /\ Spec.metadata_is_mapping d = true
    /\ Spec.template_is_text d = true
    /\ (exists entries,
          (Py.get data "parameters" (PList []) ≫= Py.iter) = Ok entries
          /\ length (Prompt.parameters p) = length entries
          /\ forall entry, entry ∈ entries ->
               exists pd, entry = PDict pd /\ Py.has_key "name" pd = true)
    /\ (exists entries,
          (Py.get data "examples" (PList []) ≫= Py.iter) = Ok entries
          /\ length (Prompt.examples p) = length entries
          /\ forall entry, entry ∈ entries -> Spec.is_dict entry = true)
    /\ Prompt.file_path p = Some (path_str path).
Proof.
  intros H.
  destruct (load_prompt_built_from path data p H)
    as (d & -> & Hname & Htemplate & md & Hmd & _).
  exists d. split; [reflexivity|]. split; [exact Hname|].
  split.
  { unfold Spec.metadata_is_mapping.
    destruct (Py.lookup "metadata" d) as [[| | | | | |?|]|];
      first [reflexivity | discriminate Hmd]. }
  split.
  { unfold Spec.template_is_text.
    destruct (Py.lookup "template" d) as [[| | | |?| | |]|];
      first [reflexivity | discriminate Htemplate]. }
  unfold PromptManager._load_prompt in H.
  apply bind_Ok in H as (parameters & Hps & H).
  apply bind_Ok in Hps as (entries & Hentries & Hps).
  apply mapM_Ok_inv in Hps.
  repeat match goal with
         | H : _ ≫= _ = Ok p |- _ =>
             let a := fresh "v" in
             let E := fresh "E" in
             apply bind_Ok in H as (a & E & H)
         end.
  match goal with
  | E : (_ ≫= Py.iter) ≫= mapM PromptManager.load_example = Ok ?exs |- _ =>
      apply bind_Ok in E as (examples & Hexamples & Hexs);
      apply mapM_Ok_inv in Hexs
  end.
  injection H as <-. simpl. split; [|split; [|reflexivity]].
  - exists entries. split; [exact Hentries|].
    split; [symmetry; eapply Forall2_length; eassumption|].
    intros entry [i Hi]%list_elem_of_lookup.
    destruct (Forall2_lookup_l _ _ _ _ _ Hps Hi) as (param & _ & Hparam).
    now apply load_parameter_Ok in Hparam.
  - exists examples. split; [exact Hexamples|].
    split; [symmetry; eapply Forall2_length; eassumption|].
    intros entry [i Hi]%list_elem_of_lookup.
    destruct (Forall2_lookup_l _ _ _ _ _ Hexs Hi) as (ex & _ & Hex).
    now apply load_example_Ok in Hex.
Qed.

(** X19. A file is loaded only if it is a mapping with a name, every entry
    of its parameters is a mapping with a name, every example is a mapping
    and the metadata, when present, is a mapping; the record then has one
    parameter per entry and one example per entry, and its [file_path] is
    the path of the file. *)
Theorem load_prompt_requires (path : Path) (data : pyval) (p : Prompt.t) :
  PromptManager._load_prompt path data = Ok p ->
  exists d,
    data = PDict d
    /\ Py.has_key "name" d = true
    /\ Spec.metadata_is_mapping d = true
    /\ (exists entries,
          (Py.get data "parameters" (PList []) ≫= Py.iter) = Ok entries
          /\ length (Prompt.parameters p) = length entries
          /\ forall entry, entry ∈ entries ->
               exists pd, entry = PDict pd /\ Py.has_key "name" pd = true)
    /\ (exists entries,
          (Py.get data "examples" (PList []) ≫= Py.iter) = Ok entries
          /\ length (Prompt.examples p) = length entries
          /\ forall entry, entry ∈ entries -> Spec.is_dict entry = true)
    /\ Prompt.file_path p = Some (path_str path).
Proof.
  intros H.
  destruct (load_prompt_entries path data p H)
    as (d & -> & Hname & Hmd & _ & Hps & Hexs & Hpath).
  exists d. split; [reflexivity|].
  split; [apply has_key_true; eauto|].
  split; [exact Hmd|]. split; [exact Hps|]. split; [exact Hexs | exact Hpath].
Qed.

Lemma load_prompt_requires_witness :
  exists p d,
    PromptManager._load_prompt (Ex.path "greeting") Ex.greeting_file = Ok p
    /\ Ex.greeting_file = PDict d
    /\ length (Prompt.parameters p) = 1
    /\ Prompt.file_path p = Some "prompts/greeting.yaml".
Proof.
  eexists _, _. split; [reflexivity|].
  destruct (load_prompt_requires (Ex.path "greeting") Ex.greeting_file _ eq_refl)
    as (d & Hd & _ & _ & _ & _ & Hpath).
  split; [reflexivity|]. split; [reflexivity | exact Hpath].
Defined.

Lemma check_parameters_named (entries : list pyval) :
  (forall entry, entry ∈ entries ->
     exists pd, entry = PDict pd /\ Py.has_key "name" pd = true) ->
  forall i issues, PromptTester.check_parameters i entries issues = Ok issues.
Proof.
  induction entries as [|entry entries IH]; intros H i issues; [reflexivity|].
  destruct (H entry) as (pd & -> & Hn); [left|].
  simpl. rewrite Hn. apply IH. intros e He. apply H. now right.
Qed.

Lemma missing_fields_named (d : list (string * pyval)) (issue : string) :
  Py.has_key "name" d = true ->
  issue ∈ map (fun f => "Missing required field: " +:+ f) (Spec.missing_fields d) ->
  issue = "Missing required field: template"
  \/ issue = "Missing required field: category".
Proof.
  intros Hn (f & <- & Hf%list_elem_of_In)%list_elem_of_In%in_map_iff.
  unfold Spec.missing_fields in Hf. apply list_elem_of_filter in Hf as [Hk Hf].
  unfold PromptTester.required_fields in Hf.
  repeat (apply elem_of_cons in Hf as [->|Hf]);
    [congruence | now left | now right | now apply elem_of_nil in Hf].
Qed.

(** X20. A file that the loader accepts, with a template that is text
    when present (the type [Prompt.template] is annotated with), never makes
    the validator raise, and the validator can only object to its template
    or category: its issues are among "Missing required field: template",
    "Missing required field: category" and "Template is empty", and there
    is none when the file has a category and a template with content. *)
Theorem loaded_file_validates (path : Path) (d : list (string * pyval))
    (p : Prompt.t) :
  PromptManager._load_prompt path (PDict d) = Ok p ->
  Spec.template_is_text d = true ->
  exists issues,
    PromptTester.validate_prompt_format (Ok (PDict d)) = Ok issues
    /\ (forall issue, issue ∈ issues ->
          issue ∈ ["Missing required field: template";
                   "Missing required field: category"; "Template is empty"])
    /\ (Str.strip (Prompt.template p) ≠ "" ->
        Py.has_key "category" d = true ->
        issues = []).
Proof.
  intros H Htext.
  destruct (load_prompt_built_from path _ p H) as (d' & Hd' & _ & Htemplate & _).
  destruct (load_prompt_entries path _ p H)
    as (d'' & Hd'' & Hname & _ & _ & (entries & Hentries & _ & Hnamed) & _).
  injection Hd' as <-. injection Hd'' as <-.
  assert (Hn : Py.has_key "name" d = true) by (apply has_key_true; eauto).
  assert (Hmember : forall issue,
            issue ∈ map (fun f => "Missing required field: " +:+ f)
                        (Spec.missing_fields d) ->
            issue ∈ ["Missing required field: template";
                     "Missing required field: category"; "Template is empty"]).
  { intros issue [->| ->]%missing_fields_named; [left | right; left | exact Hn]. }
  assert (Hnone : Py.has_key "template" d = true ->
                  Py.has_key "category" d = true ->
                  map (fun f => "Missing required field: " +:+ f)
                      (Spec.missing_fields d) = []).
  { intros Ht Hc.
    now rewrite (proj2 (missing_fields_nil d) (conj Hn (conj Ht Hc))). }
  unfold Spec.template_is_text in Htext.
  unfold PromptTester.validate_prompt_format. rewrite required_issues_filter.
  set (missing := map _ (Spec.missing_fields d)) in *.
  unfold Py.has_key in *. simpl in *.
  destruct (Py.lookup "template" d) as [[| | | |t| | |]|] eqn:Et;
    try discriminate Htext; simpl in Htemplate; injection Htemplate as <-;
    destruct (Py.lookup "parameters" d) as [v|] eqn:Ep; simpl in *;
    try rewrite Hentries; simpl;
    try rewrite (check_parameters_named entries Hnamed).
  - destruct (bool_decide_reflect (Str.strip t = "")) as [E|E]; simpl;
      eexists; (split; [reflexivity|]); split.
    + intros issue [Hi|Hi]%elem_of_app; [now apply Hmember|].
      apply elem_of_cons in Hi as [->|[]%elem_of_nil]. right. right. left.
    + intros Hs. contradiction.
    + exact Hmember.
    + intros _ Hc. apply Hnone; [reflexivity | exact Hc].
  - destruct (bool_decide_reflect (Str.strip t = "")) as [E|E]; simpl;
      eexists; (split; [reflexivity|]); split.
    + intros issue [Hi|Hi]%elem_of_app; [now apply Hmember|].
      apply elem_of_cons in Hi as [->|[]%elem_of_nil]. right. right. left.
    + intros Hs. contradiction.
    + exact Hmember.
    + intros _ Hc. apply Hnone; [reflexivity | exact Hc].
  - eexists. split; [reflexivity|].
    split; [exact Hmember|]. intros Hs. exfalso. now apply Hs.
  - eexists. split; [reflexivity|].
    split; [exact Hmember|]. intros Hs. exfalso. now apply Hs.
Qed.

Lemma loaded_file_validates_witness :
  PromptTester.validate_prompt_format (Ok Ex.greeting_file) = Ok [].
Proof.
  unfold Ex.greeting_file.
  match goal with
  | |- PromptTester.validate_prompt_format (Ok (PDict ?d)) = _ =>
      destruct (loaded_file_validates (Ex.path "greeting") d _ eq_refl eq_refl)
        as (issues & Hv & _ & Hnone)
  end.
  rewrite Hv. f_equal. apply Hnone; [discriminate | reflexivity].
Defined.

(** ** Prompt.to_dict and the loader *)

Lemma as_all_PStr (l : list string) :
  PromptManager.as_all PromptManager.as_str (map PStr l) = Some l.
Proof. induction l as [|x l IH]; [reflexivity|]. simpl. now rewrite IH. Qed.

Lemma load_parameter_to_dict (l : list PromptParameter.t) :
  mapM PromptManager.load_parameter (map Dump.parameter_to_dict l)
  = Ok (map Dump.kept_parameter l).
Proof. induction l as [|x l IH]; [reflexivity|]. simpl. now rewrite IH. Qed.

Lemma to_dict_parameters_named (l : list PromptParameter.t) :
  forall i issues,
    PromptTester.check_parameters i (map Dump.parameter_to_dict l) issues
    = Ok issues.
Proof. induction l as [|x l IH]; intros i issues; [reflexivity | apply IH]. Qed.

Lemma to_dict_kept_parameters (l : list PromptParameter.t) :
  map Dump.parameter_to_dict (map Dump.kept_parameter l)
  = map Dump.parameter_to_dict l.
Proof. induction l as [|x l IH]; [reflexivity|]. simpl. now rewrite IH. Qed.

(** X21. A file that holds the [to_dict] of a record is loaded, whatever
    the record: the loaded record has the name, version, category,
    description, template and metadata of the original, its parameters with
    their names, types and required flags; descriptions and defaults of the
    parameters, [max_tokens] and the examples are lost, and [file_path] is
    the path of the file. Its [to_dict] is the one of the original, and the
    validator objects to such a file only for a template without content. *)
Theorem to_dict_round_trip (path : Path) (self : Prompt.t) :
  PromptManager._load_prompt path (Dump.to_dict self) = Ok (Dump.kept path self)
  /\ Dump.to_dict (Dump.kept path self) = Dump.to_dict self
  /\ PromptTester.validate_prompt_format (Ok (Dump.to_dict self))
     = Ok (if decide (Str.strip (Prompt.template self) = "")
           then ["Template is empty"] else []).
Proof.
  split; [|split].
  - unfold PromptManager._load_prompt, Dump.to_dict. simpl.
    rewrite load_parameter_to_dict. simpl.
    unfold PromptManager.typed, PromptManager.as_str_list.
    rewrite as_all_PStr. reflexivity.
  - unfold Dump.to_dict, Dump.kept. simpl.
    now rewrite to_dict_kept_parameters.
  - unfold PromptTester.validate_prompt_format, Dump.to_dict. simpl.
    rewrite to_dict_parameters_named. f_equal.
    destruct (decide (Str.strip (Prompt.template self) = "")) as [E|E].
    + now rewrite bool_decide_eq_true_2.
    + now rewrite bool_decide_eq_false_2.
Qed.
